(** * Decision logic of the launchpad agents

    A shallow embedding of the scoring and monitoring code of
    - [backend/src/agents/uagents/RiskAnalyzerAgent.py],
    - [backend/src/agents/uagents/LiquidityOptimizerAgent.py],
    - [backend/src/agents/uagents/LaunchCoordinatorAgent.py],
    - [ml-models/risk_scoring/model.py],
    together with the properties the specification states about them.

    Conventions of the embedding.
    - Python numbers are modelled by their mathematical value: an [int] or a
      finite [float] is a rational, and the three special floats are separate
      constructors.  Comparisons between Python numbers are exact, so they are
      the comparisons of [Q].  Every constant of the score arithmetic (7.5,
      2.5, 2.0, 1.5, 1.0) is a small dyadic rational, so the binary64
      subtractions of the source are exact and agree with [Q].  A float
      literal that is not dyadic (0.9, 0.1, 0.80) stands for the rational it
      is written as; the confidences computed from such literals differ from
      their binary64 values by rounding only, far less than the margins of
      the comparisons proved about them.
    - A number whose absolute value is at least [float_limit] can only be an
      [int], and such an [int] raises [OverflowError] where the scorers
      convert it to a float: in the format [:.1f] of a flag and in the
      divisions of [prepare_features].
    - The prices of [detect_rug_pull_pattern] are the one place where the
      source computes with floats that come from its input.  The model
      computes the price drop on the exact values; it follows neither the
      rounding of binary64 nor its infinities nor the conversion of an [int]
      inside this arithmetic.  The statements about the detection do not
      depend on the value of the drop.
    - Formatting a number with [{}] and printing never raise: the limit that
      recent interpreters can put on the digits of an [int] converted to text
      is taken to be off.
    - Texts are given without their leading emoji, and in UTF-8.  [str.lower]
      is a parameter of the chat handlers, because it follows the Unicode
      tables; the examples use [str_lower] on texts of ASCII characters.
    - A dict read with [.get] is a [gmap string pyval]; a dict whose iteration
      order matters is an association list in insertion order.  The keys of
      [monitored_tokens] are what the messages hold, texts or not; the ids of
      positions and launches are texts, which the code stores, compares and
      prints but never slices.
    - A Python function that can raise returns a [res]; [try/except Exception]
      is a match on it.  The oracle call [metta.run] is a parameter that
      returns a result or raises.
    - [datetime.utcnow()] is an explicit clock argument, in microseconds. *)

From Stdlib Require Import ZArith QArith Qabs List Ascii String Bool Lia Lqa.
From stdpp Require Import gmap strings.
Import ListNotations.

Open Scope string_scope.
Open Scope list_scope.

(** ** Python values, exceptions and dicts *)

Module Py.

Inductive pynum : Type :=
| Fin (q : Q)
| PosInf
| NegInf
| NaN.

#[warnings="-register-all"]
Inductive pyval : Type :=
| PNone
| PBool (b : bool)
| PNum (x : pynum)
| PStr (s : string)
| PList (l : list pyval).

(** The exceptions the modelled code can meet; all are subclasses of
    [Exception], so [except Exception] catches each of them. *)
Inductive exn : Type :=
| TypeError
| ZeroDivisionError
| OverflowError
| NameError (name : string)
| AttributeError (name : string)
| IndexError
| OracleError (msg : string).

Inductive res (A : Type) : Type :=
| Ok (a : A)
| Raise (e : exn).
Arguments Ok {A} a.
Arguments Raise {A} e.

#[export] Instance res_ret : MRet res := fun A a => Ok a.
#[export] Instance res_bind : MBind res := fun A B f m =>
  match m with
  | Ok a => f a
  | Raise e => Raise e
  end.

Definition returns {A} (m : res A) : bool :=
  match m with Ok _ => true | Raise _ => false end.

Definition Qltb (a b : Q) : bool := negb (Qle_bool b a).

(** [x < y] on Python numbers; every comparison with NaN is false. *)
Definition num_ltb (x y : pynum) : bool :=
  match x, y with
  | Fin a, Fin b => Qltb a b
  | Fin _, PosInf => true
  | NegInf, Fin _ => true
  | NegInf, PosInf => true
  | _, _ => false
  end.

(** The number a value stands for in arithmetic and comparisons; [bool] is a
    subclass of [int].  [None] is the [TypeError] case. *)
Definition as_num (v : pyval) : option pynum :=
  match v with
  | PBool b => Some (Fin (if b then 1%Q else 0%Q))
  | PNum x => Some x
  | PNone | PStr _ | PList _ => None
  end.

Definition num (v : pyval) : res pynum :=
  match as_num v with
  | Some x => Ok x
  | None => Raise TypeError
  end.

(** [v < c] against a numeric literal [c]. *)
Definition py_lt (v : pyval) (c : Q) : res bool :=
  x ← num v; mret (num_ltb x (Fin c)).

(** Truth value of [v] in a condition. *)
Definition truthy (v : pyval) : bool :=
  match v with
  | PNone => false
  | PBool b => b
  | PNum (Fin q) => negb (Qeq_bool q 0%Q)
  | PNum _ => true
  | PStr s => negb (String.eqb s "")
  | PList l => match l with [] => false | _ :: _ => true end
  end.

Definition is_not_none (v : pyval) : bool :=
  match v with PNone => false | _ => true end.

(** [max(a, b)] and [min(a, b)] on finite numbers: the first argument is kept
    unless the second is strictly larger (smaller). *)
Definition py_max (a b : Q) : Q := if Qltb a b then b else a.
Definition py_min (a b : Q) : Q := if Qltb b a then b else a.

(** The least absolute value that does not convert to a [float]:
    [2^1024 - 2^970], half-way between the largest float and [2^1024].  A
    finite float is smaller, so a number at or beyond it is an [int]. *)
Definition float_limit : Q := inject_Z (2 ^ 1024 - 2 ^ 970).

Definition too_large (q : Q) : bool := Qle_bool float_limit (Qabs q).

(** The conversion of a number to [float], as [float(x)], the format
    [{x:.1f}] and an operation of an [int] with a [float] make it: an [int]
    that is too large raises. *)
Definition to_float (x : pynum) : res pynum :=
  match x with
  | Fin q => if too_large q then Raise OverflowError else Ok x
  | PosInf | NegInf | NaN => Ok x
  end.

(** [d.get(k, dflt)] and [d.get(k)]. *)
Definition get (d : gmap string pyval) (k : string) (dflt : pyval) : pyval :=
  default dflt (d !! k).

Definition get_opt (d : gmap string pyval) (k : string) : pyval :=
  get d k PNone.

(** [k in d]. *)
Definition has_key (d : gmap string pyval) (k : string) : bool :=
  match d !! k with Some _ => true | None => false end.

(** Arithmetic of Python numbers.  The rounding of binary64 is not
    modelled: a finite result is the exact rational. *)
Definition num_sub (x y : pynum) : pynum :=
  match x, y with
  | NaN, _ | _, NaN => NaN
  | Fin a, Fin b => Fin (a - b)%Q
  | Fin _, PosInf => NegInf
  | Fin _, NegInf => PosInf
  | PosInf, PosInf => NaN
  | PosInf, _ => PosInf
  | NegInf, NegInf => NaN
  | NegInf, _ => NegInf
  end.

Definition num_neg (x : pynum) : pynum :=
  match x with
  | Fin a => Fin (- a)%Q
  | PosInf => NegInf
  | NegInf => PosInf
  | NaN => NaN
  end.

Definition num_mul (x y : pynum) : pynum :=
  match x, y with
  | NaN, _ | _, NaN => NaN
  | Fin a, Fin b => Fin (a * b)%Q
  | Fin a, inf | inf, Fin a =>
      if Qeq_bool a 0%Q then NaN
      else if Qltb 0%Q a then inf else num_neg inf
  | PosInf, PosInf | NegInf, NegInf => PosInf
  | PosInf, NegInf | NegInf, PosInf => NegInf
  end.

(** [x / y]: a zero divisor raises, whatever the dividend. *)
Definition num_div (x y : pynum) : res pynum :=
  match y with
  | Fin b =>
      if Qeq_bool b 0%Q then Raise ZeroDivisionError
      else Ok (num_mul x (Fin (/ b)%Q))
  | NaN => Ok NaN
  | PosInf | NegInf =>
      match x with
      | Fin _ => Ok (Fin 0%Q)
      | _ => Ok NaN
      end
  end.

(** [len(v)]. *)
Definition py_len (v : pyval) : res nat :=
  match v with
  | PList l => Ok (length l)
  | PStr s => Ok (String.length s)
  | PNone | PBool _ | PNum _ => Raise TypeError
  end.

(** A dict in insertion order, with string keys: [d[k] = v] keeps the place
    of a key that is already there and appends a new one; [del d[k]]. *)
Fixpoint od_set {V} (k : string) (v : V) (l : list (string * V)) : list (string * V) :=
  match l with
  | [] => [(k, v)]
  | (k', v') :: t =>
      if String.eqb k k' then (k, v) :: t else (k', v') :: od_set k v t
  end.

Fixpoint od_del {V} (k : string) (l : list (string * V)) : list (string * V) :=
  match l with
  | [] => []
  | (k', v') :: t =>
      if String.eqb k k' then t else (k', v') :: od_del k t
  end.

Fixpoint od_get {V} (k : string) (l : list (string * V)) : option V :=
  match l with
  | [] => None
  | (k', v') :: t => if String.eqb k k' then Some v' else od_get k t
  end.

(** [s.lower()] of a text of ASCII characters: the letters A to Z are mapped
    and nothing else.  On other texts [str.lower] follows the Unicode tables,
    which are not part of the source; the chat handlers below take the
    function as a parameter.  [needle in hay] is on texts in UTF-8, where
    the containment of an ASCII needle is that of its code points. *)
Definition ascii_lower (c : ascii) : ascii :=
  let n := nat_of_ascii c in
  if ((65 <=? n) && (n <=? 90))%nat then ascii_of_nat (n + 32) else c.

Fixpoint str_lower (s : string) : string :=
  match s with
  | EmptyString => EmptyString
  | String c t => String (ascii_lower c) (str_lower t)
  end.

Fixpoint str_in (needle hay : string) : bool :=
  String.prefix needle hay ||
  match hay with
  | EmptyString => false
  | String _ t => str_in needle t
  end.

Definition od_keys {V} (l : list (string * V)) : list string := map fst l.

End Py.
Import Py.

Abbreviation dict := (gmap string pyval).

(** ** RiskAnalyzerAgent.py *)

Module RiskAnalyzerAgent.

(** [agent_state["alert_thresholds"]]. *)
Record AlertThresholds : Type := {
  high_risk_score : Q;
  holder_concentration : Q;
  rapid_sell_off : Q
}.

(** An entry of [agent_state["monitored_tokens"]]. *)
Record TokenEntry : Type := {
  added_at : Z;
  launch_data : pyval
}.

(** A key of [agent_state["monitored_tokens"]].  [handle_messages] stores
    what [msg.get("token_address")] returns, so besides a text the key can
    be any other hashable value of a message: [None], a bool or a number.
    Of these only a text can be sliced.  Two [Scalar] keys are the same key
    of the dict exactly when their codes are equal (as [1], [1.0] and [True]
    are one key). *)
Inductive Key : Type :=
| Text (s : string)
| Scalar (code : nat).

(** The value of a message field that is used as a key: a list is not
    hashable. *)
Inductive Subscript : Type :=
| Hashable (k : Key)
| Unhashable.

Definition Key_eqb (a b : Key) : bool :=
  match a, b with
  | Text s, Text t => String.eqb s t
  | Scalar m, Scalar n => Nat.eqb m n
  | _, _ => false
  end.

Definition is_text (k : Key) : bool :=
  match k with Text _ => true | Scalar _ => false end.

(** The dict in insertion order, as [od_set], [od_get] and [od_keys] with
    these keys. *)
Fixpoint kd_set {V} (k : Key) (v : V) (l : list (Key * V)) : list (Key * V) :=
  match l with
  | [] => [(k, v)]
  | (k', v') :: t =>
      if Key_eqb k k' then (k, v) :: t else (k', v') :: kd_set k v t
  end.

Fixpoint kd_get {V} (k : Key) (l : list (Key * V)) : option V :=
  match l with
  | [] => None
  | (k', v') :: t => if Key_eqb k k' then Some v' else kd_get k t
  end.

Definition kd_keys {V} (l : list (Key * V)) : list Key := map fst l.

(** [agent_state]; [monitored_tokens] keeps the insertion order of the dict. *)
Record AgentState : Type := {
  monitored_tokens : list (Key * TokenEntry);
  alert_thresholds : AlertThresholds;
  fraud_patterns_detected : Z;
  alerts_sent : Z
}.

Definition agent_state : AgentState := {|
  monitored_tokens := [];
  alert_thresholds := {|
    high_risk_score := 3.0%Q;
    holder_concentration := 30.0%Q;
    rapid_sell_off := 20.0%Q
  |};
  fraud_patterns_detected := 0%Z;
  alerts_sent := 0%Z
|}.

(** The two queries this agent sends to [metta.run], by the values their
    text is formatted from. *)
Inductive Query : Type :=
| AnalyzeRiskFactors (liquidity_lock team_verified vesting_schedule contract_verified : pyval)
| DetectRugPullPattern (price_drop_percentage : pynum) (volume_spike : bool).

Definition MettaResult : Type := list string.

(** One call of [metta.run]: it returns or raises. *)
Definition Oracle : Type := Query -> res MettaResult.

(** The entries of [red_flags], in the order the source appends them:
    - [NoLiquidityLock]: "No liquidity lock (30+ days recommended)",
    - [AnonymousTeam]: "Anonymous team",
    - [NoVestingSchedule]: "No vesting schedule",
    - [ContractNotVerified]: "Contract not verified",
    - [HighHolderConcentration p]: "High holder concentration: p%",
    - [RapidGraduation]: "Rapid graduation (<24h) - possible pump & dump",
    - [UnableToCompleteAnalysis]: "Unable to complete analysis". *)
Inductive Flag : Type :=
| NoLiquidityLock
| AnonymousTeam
| NoVestingSchedule
| ContractNotVerified
| HighHolderConcentration (pct : pynum)
| RapidGraduation
| UnableToCompleteAnalysis.

Record RiskResult : Type := {
  risk_score : Q;
  risk_level : string;
  red_flags : list Flag;
  confidence : Q;
  fraud_probability : Q;
  recommendation : string
}.

Definition get_risk_recommendation (risk_score : Q) (red_flags : list Flag) : string :=
  if Qltb risk_score 3.0%Q then
    "HIGH RISK - Do not invest. Multiple fraud indicators detected."
  else if Qltb risk_score 5.0%Q then
    "MEDIUM-HIGH RISK - Proceed with extreme caution. Consider waiting for more data."
  else if Qltb risk_score 7.0%Q then
    "MEDIUM RISK - Acceptable for experienced investors. Monitor closely."
  else if Qltb risk_score 8.5%Q then
    "LOW-MEDIUM RISK - Generally safe. Standard due diligence recommended."
  else
    "LOW RISK - Strong safety indicators. Good investment candidate.".

(** The running pair [(risk_score, red_flags)] of the [try] block. *)
Definition Acc : Type := (Q * list Flag)%type.

Definition deduct (amount : Q) (f : Flag) (acc : Acc) : Acc :=
  ((acc.1 - amount)%Q, acc.2 ++ [f]).

Definition check_liquidity_lock (d : dict) (acc : Acc) : res Acc :=
  c ← py_lt (get d "liquidity_lock_duration" (PNum (Fin 0%Q))) 30%Q;
  mret (if (c : bool) then deduct 2.0%Q NoLiquidityLock acc else acc).

Definition check_team_verification (d : dict) (acc : Acc) : res Acc :=
  mret (if negb (truthy (get d "team_verified" (PBool false)))
        then deduct 1.5%Q AnonymousTeam acc else acc).

Definition check_vesting (d : dict) (acc : Acc) : res Acc :=
  mret (if negb (truthy (get d "vesting_enabled" (PBool false)))
        then deduct 1.0%Q NoVestingSchedule acc else acc).

Definition check_contract_verification (d : dict) (acc : Acc) : res Acc :=
  mret (if negb (truthy (get d "contract_verified" (PBool false)))
        then deduct 1.0%Q ContractNotVerified acc else acc).

(** The flag is formatted with [:.1f], which converts the number to a
    float. *)
Definition check_holder_concentration (th : AlertThresholds) (d : dict) (acc : Acc) : res Acc :=
  let v := get d "top_holder_percentage" (PNum (Fin 0%Q)) in
  x ← num v;
  if num_ltb (Fin (holder_concentration th)) x then
    _ ← to_float x;
    mret (deduct 2.0%Q (HighHolderConcentration x) acc)
  else mret acc.

Definition check_rapid_graduation (d : dict) (acc : Acc) : res Acc :=
  c ← py_lt (get d "graduation_time_hours" (PNum (Fin 1000%Q))) 24%Q;
  mret (if (c : bool) then deduct 1.5%Q RapidGraduation acc else acc).

Definition risk_level_of (risk_score : Q) : string :=
  if Qltb risk_score 5%Q then "HIGH"
  else if Qltb risk_score 7%Q then "MEDIUM"
  else "LOW".

Definition completeness_fields : list string :=
  ["liquidity_lock_duration"; "team_verified"; "vesting_enabled";
   "contract_verified"; "top_holder_percentage"].

(** The number of completeness fields whose [.get] is not [None]. *)
Definition present_count (d : dict) : nat :=
  length (List.filter (fun k => is_not_none (get_opt d k)) completeness_fields).

Definition data_completeness (d : dict) : Q :=
  (inject_Z (Z.of_nat (present_count d)) / 5.0)%Q.

Definition risk_query (d : dict) : Query :=
  AnalyzeRiskFactors
    (get d "liquidity_lock_duration" (PNum (Fin 0%Q)))
    (get d "team_verified" (PBool false))
    (get d "vesting_enabled" (PBool false))
    (get d "contract_verified" (PBool false)).

(** The deductions of the [try] block, from the base score. *)
Definition score_and_flags (th : AlertThresholds) (d : dict) : res Acc :=
  acc ← check_liquidity_lock d (7.5%Q, []);
  acc ← check_team_verification d acc;
  acc ← check_vesting d acc;
  acc ← check_contract_verification d acc;
  acc ← check_holder_concentration th d acc;
  check_rapid_graduation d acc.

(** The body of the [try] block. *)
Definition analyze_token_risk_try (st : AgentState) (run : Oracle)
    (token_address : string) (on_chain_data : dict) : res RiskResult :=
  _ ← run (risk_query on_chain_data);
  acc ← score_and_flags (alert_thresholds st) on_chain_data;
  let risk_score := acc.1 in
  let red_flags := acc.2 in
  let risk_level := risk_level_of risk_score in
  let confidence := (data_completeness on_chain_data * 0.9 + 0.1)%Q in
  mret {|
    risk_score := py_max 0%Q risk_score;
    risk_level := risk_level;
    red_flags := red_flags;
    confidence := confidence;
    fraud_probability := py_max 0%Q (py_min 1%Q ((10 - risk_score) / 10)%Q);
    recommendation := get_risk_recommendation risk_score red_flags
  |}.

(** The result of the [except Exception] branch. *)
Definition analysis_fallback : RiskResult := {|
  risk_score := 5.0%Q;
  risk_level := "MEDIUM";
  red_flags := [UnableToCompleteAnalysis];
  confidence := 0.50%Q;
  fraud_probability := 0.50%Q;
  recommendation := "Proceed with caution - analysis incomplete"
|}.

Definition analyze_token_risk_with_metta (st : AgentState) (run : Oracle)
    (token_address : string) (on_chain_data : dict) : RiskResult :=
  match analyze_token_risk_try st run token_address on_chain_data with
  | Ok r => r
  | Raise _ => analysis_fallback
  end.

Record Indicators : Type := {
  rapid_price_drop : bool;
  volume_spike_before_drop : bool;
  price_drop_percentage : pynum
}.

(** The dict [detect_rug_pull_pattern] returns; the two short returns have
    neither ["indicators"] nor ["action"]. *)
Record RugPullResult : Type := {
  rug_pull_detected : bool;
  rug_confidence : Q;
  indicators : option Indicators;
  action : option string
}.

Definition no_detection : RugPullResult := {|
  rug_pull_detected := false;
  rug_confidence := 0.0%Q;
  indicators := None;
  action := None
|}.

(** [price_history[-10:]], then its first and its last element. *)
Definition last_ten {A} (l : list A) : list A := skipn (length l - 10) l.

Definition first_and_last (price_history : pyval) : res (pyval * pyval) :=
  match price_history with
  | PList l =>
      match last_ten l with
      | [] => Raise IndexError
      | x :: t => Ok (x, List.last t x)
      end
  | PStr s =>
      Ok (PStr (String.substring (String.length s - 10) 1 s),
          PStr (String.substring (String.length s - 1) 1 s))
  | PNone | PBool _ | PNum _ => Raise TypeError
  end.

(** [(recent_prices[0] - recent_prices[-1]) / recent_prices[0] * 100]. *)
Definition price_drop_of (price_history : pyval) : res pynum :=
  fl ← first_and_last price_history;
  x ← num fl.1;
  y ← num fl.2;
  q ← num_div (num_sub x y) x;
  mret (num_mul q (Fin 100%Q)).

(** [detect_rug_pull_pattern]; it returns the agent state too, because it
    counts a detection in [agent_state["fraud_patterns_detected"]].  The
    statements before the [try] are not guarded, so they can raise. *)
Definition detect_rug_pull_pattern (st : AgentState) (run : Oracle)
    (token_address : string) (price_history : pyval)
    : res (AgentState * RugPullResult) :=
  n ← py_len price_history;
  if (n <? 5)%nat then mret (st, no_detection)
  else
    price_drop ← price_drop_of price_history;
    let rapid_sell_off := num_ltb (Fin (rapid_sell_off (alert_thresholds st))) price_drop in
    let volume_spike := false in
    match run (DetectRugPullPattern price_drop volume_spike) with
    | Raise _ => mret (st, no_detection)
    | Ok _ =>
        let rug_pull_detected := rapid_sell_off && volume_spike in
        let st' :=
          if rug_pull_detected
          then {| monitored_tokens := monitored_tokens st;
                  alert_thresholds := alert_thresholds st;
                  fraud_patterns_detected := fraud_patterns_detected st + 1;
                  alerts_sent := alerts_sent st |}
          else st in
        mret (st', {|
          rug_pull_detected := rug_pull_detected;
          rug_confidence := if rug_pull_detected then 0.85%Q else 0.95%Q;
          indicators := Some {|
            rapid_price_drop := rapid_sell_off;
            volume_spike_before_drop := volume_spike;
            price_drop_percentage := price_drop
          |};
          action := Some (if rug_pull_detected then "ALERT_USERS"
                          else "CONTINUE_MONITORING")
        |})
    end.

(** [fetch_on_chain_data]: the source returns this dict for every token. *)
Definition fetch_on_chain_data (token_address : Key) : dict :=
  <["liquidity_lock_duration" := PNum (Fin 90%Q)]>
  (<["team_verified" := PBool true]>
  (<["vesting_enabled" := PBool true]>
  (<["contract_verified" := PBool true]>
  (<["top_holder_percentage" := PNum (Fin 12.5%Q)]>
  (<["holder_count" := PNum (Fin 1250%Q)]>
  (<["price_history" :=
       PList [PNum (Fin 1.0%Q); PNum (Fin 1.05%Q); PNum (Fin 1.10%Q);
              PNum (Fin 1.08%Q); PNum (Fin 1.12%Q)]]> ∅)))))).

(** What a run of the agent does that is visible outside [agent_state]. *)
Inductive Event : Type :=
| Evaluated (token_address : string) (risk_analysis : RiskResult)
| RiskAlert (token_address : string) (risk_analysis : RiskResult)
| RugPullAlert (token_address : string) (rug_pull_analysis : RugPullResult)
| Sent (destination : string) (reply_action : string) (token_address : Key).

(** The state of a run: [agent_state], the events so far, and the number of
    calls made so far of the two functions that consult the oracle.  The
    oracle may answer each of these calls differently. *)
Record World : Type := {
  st : AgentState;
  trace : list Event;
  calls : nat
}.

Definition OracleSeq : Type := nat -> Oracle.

Definition emit (e : Event) (w : World) : World :=
  {| st := st w; trace := trace w ++ [e]; calls := calls w |}.

Definition tick_call (w : World) : World :=
  {| st := st w; trace := trace w; calls := S (calls w) |}.

Definition set_state (s : AgentState) (w : World) : World :=
  {| st := s; trace := trace w; calls := calls w |}.

Definition count_alert (s : AgentState) : AgentState :=
  {| monitored_tokens := monitored_tokens s;
     alert_thresholds := alert_thresholds s;
     fraud_patterns_detected := fraud_patterns_detected s;
     alerts_sent := alerts_sent s + 1 |}.

(** One iteration of the loop of [monitor_active_tokens]: the world after
    it, and the exception that left the loop, if one did.  The first
    statement of [analyze_token_risk_with_metta] slices the address,
    [token_address[:8]], before its [try] and before the oracle is called:
    with a key that is not a text this raises [TypeError], which nothing
    catches. *)
Definition monitor_one (fetch : Key -> dict) (oracle : OracleSeq)
    (w : World) (key : Key) : World * option exn :=
  let on_chain_data := fetch key in
  match key with
  | Scalar _ => (w, Some TypeError)
  | Text token_address =>
      let risk_analysis :=
        analyze_token_risk_with_metta (st w) (oracle (calls w)) token_address on_chain_data in
      let w := emit (Evaluated token_address risk_analysis) (tick_call w) in
      let w :=
        if String.eqb (risk_level risk_analysis) "HIGH"
        then emit (RiskAlert token_address risk_analysis) (set_state (count_alert (st w)) w)
        else w in
      match on_chain_data !! "price_history" with
      | None => (w, None)
      | Some price_history =>
          match detect_rug_pull_pattern (st w) (oracle (calls w)) token_address price_history with
          | Raise e => (tick_call w, Some e)
          | Ok (s', rug_pull_analysis) =>
              let w := set_state s' (tick_call w) in
              if rug_pull_detected rug_pull_analysis
              then (emit (RugPullAlert token_address rug_pull_analysis) w, None)
              else (w, None)
          end
      end
  end.

Fixpoint monitor_loop (fetch : Key -> dict) (oracle : OracleSeq)
    (w : World) (tokens : list Key) : World * option exn :=
  match tokens with
  | [] => (w, None)
  | token_address :: rest =>
      match monitor_one fetch oracle w token_address with
      | (w', None) => monitor_loop fetch oracle w' rest
      | (w', Some e) => (w', Some e)
      end
  end.

(** [monitor_active_tokens], over any source of on-chain data: the loop runs
    over a copy of the items taken when the tick starts. *)
Definition monitor_active_tokens_with (fetch : Key -> dict)
    (oracle : OracleSeq) (w : World) : World * option exn :=
  monitor_loop fetch oracle w (kd_keys (monitored_tokens (st w))).

Definition monitor_active_tokens : OracleSeq -> World -> World * option exn :=
  monitor_active_tokens_with fetch_on_chain_data.

(** The messages [handle_messages] acts on, by their ["action"], with what
    [msg.get("token_address")] and [msg.get("launch_data", {})] return. *)
Inductive Msg : Type :=
| MonitorToken (token_address : Subscript) (launch_data : pyval)
| GetRiskReport (token_address : Subscript)
| OtherAction.

(** [handle_messages]: the world after it, and the exception it leaves
    with, if any.  A value that is not hashable raises [TypeError] where it
    is used as a key; a report for a monitored key that is not a text
    raises it in the analysis, before anything is sent. *)
Definition handle_messages (now : Z) (oracle : OracleSeq) (sender : string)
    (msg : Msg) (w : World) : World * option exn :=
  match msg with
  | MonitorToken Unhashable data => (w, Some TypeError)
  | MonitorToken (Hashable token_address) data =>
      let s := st w in
      let s' := {|
        monitored_tokens :=
          kd_set token_address {| added_at := now; launch_data := data |}
                 (monitored_tokens s);
        alert_thresholds := alert_thresholds s;
        fraud_patterns_detected := fraud_patterns_detected s;
        alerts_sent := alerts_sent s |} in
      (emit (Sent sender "monitoring_started" token_address) (set_state s' w), None)
  | GetRiskReport Unhashable => (w, Some TypeError)
  | GetRiskReport (Hashable key) =>
      match kd_get key (monitored_tokens (st w)) with
      | Some _ =>
          let on_chain_data := fetch_on_chain_data key in
          match key with
          | Scalar _ => (w, Some TypeError)
          | Text token_address =>
              let risk_analysis :=
                analyze_token_risk_with_metta (st w) (oracle (calls w))
                  token_address on_chain_data in
              (emit (Sent sender "risk_report" key)
                    (emit (Evaluated token_address risk_analysis) (tick_call w)), None)
          end
      | None => (w, None)
      end
  | OtherAction => (w, None)
  end.

(** The tokens a run evaluates, in order: the [Evaluated] events. *)
Definition evaluated_ids (events : list Event) : list string :=
  flat_map (fun e => match e with Evaluated id _ => [id] | _ => [] end) events.

(** The events that are rug-pull alerts. *)
Definition is_rug_pull_alert (e : Event) : bool :=
  match e with RugPullAlert _ _ => true | _ => false end.

End RiskAnalyzerAgent.

(** ** LiquidityOptimizerAgent.py *)

Module LiquidityOptimizerAgent.

(** [class DAMMPosition]; [last_rebalance] is [None] until a rebalance. *)
Record DAMMPosition : Type := {
  position_id : string;
  pool_address : pyval;
  token_a : pyval;
  token_b : pyval;
  current_range : Q * Q;
  liquidity_amount : Q;
  unclaimed_fees : Q;
  apr : Q;
  impermanent_loss : Q;
  last_rebalance : option Z
}.

(** [DAMMPosition.__init__]. *)
Definition new_position (position_id : string) (pool_address token_a token_b : pyval)
    : DAMMPosition := {|
  position_id := position_id;
  pool_address := pool_address;
  token_a := token_a;
  token_b := token_b;
  current_range := (0.0%Q, 0.0%Q);
  liquidity_amount := 0%Q;
  unclaimed_fees := 0%Q;
  apr := 0.0%Q;
  impermanent_loss := 0.0%Q;
  last_rebalance := None
|}.

Record OptimalRange : Type := {
  lower : Q;
  upper : Q;
  confidence : Q;
  expected_apr_improvement : Q;
  reasoning : string
}.

(** The dict [analyze_rebalancing_opportunity_with_metta] returns: the
    [except] branch has only ["should_rebalance"] and ["error"]. *)
Record RebalanceAnalysis : Type := {
  should_rebalance : bool;
  optimal_range : option OptimalRange;
  current_efficiency : option Q;
  estimated_gas_cost : option Q;
  estimated_profit : option Q;
  error : option exn
}.

Inductive Query : Type :=
| PredictOptimalLiquidityRange (pool : pyval)
    (current_price volatility volume_24h range_lower range_upper : Q)
| RebalancingResult (position : string) (pool : pyval) (timestamp : Z)
    (old_range : Q * Q) (new_range : Q * Q) (expected_improvement : Q)
    (success : bool).

Definition MettaResult : Type := list string.
Definition Oracle : Type := Query -> res MettaResult.

Definition get_current_price (position : DAMMPosition) : Q := 1.0%Q.
Definition get_volatility_24h (position : DAMMPosition) : Q := 0.15%Q.
Definition get_volume_24h (position : DAMMPosition) : Q := 100000.0%Q.
Definition calculate_capital_efficiency (position : DAMMPosition) : Q := 0.75%Q.

Definition microseconds_per_day : Z := 86400000000.

(** [(a - b).days] of two datetimes given in microseconds: a [timedelta]
    keeps its seconds and microseconds non-negative, so [days] is the floor. *)
Definition timedelta_days (a b : Z) : Z := ((a - b) / microseconds_per_day)%Z.

(** The condition assigned to [should_rebalance]: [and] evaluates its right
    operand only when the left one is true, and subtracting [None] from a
    datetime raises [TypeError]. *)
Definition should_rebalance_of (o : OptimalRange) (now : Z)
    (position : DAMMPosition) : res bool :=
  if Qltb 5.0%Q (expected_apr_improvement o) then
    if Qltb 0.80%Q (confidence o) then
      match last_rebalance position with
      | None => Raise TypeError
      | Some t => Ok (1 <=? timedelta_days now t)%Z
      end
    else Ok false
  else Ok false.

(** [optimal_range] as the source builds it after the oracle call. *)
Definition parsed_optimal_range : OptimalRange := {|
  lower := 0.95%Q;
  upper := 1.05%Q;
  confidence := 0.89%Q;
  expected_apr_improvement := 12.5%Q;
  reasoning := "Based on historical volatility and volume patterns"
|}.

Definition rebalancing_query (position : DAMMPosition) : Query :=
  PredictOptimalLiquidityRange (pool_address position)
    (get_current_price position) (get_volatility_24h position)
    (get_volume_24h position)
    (current_range position).1 (current_range position).2.

(** The body of the [try] block. *)
Definition analyze_rebalancing_try (now : Z) (run : Oracle)
    (position : DAMMPosition) : res RebalanceAnalysis :=
  _ ← run (rebalancing_query position);
  let optimal_range := parsed_optimal_range in
  should_rebalance ← should_rebalance_of optimal_range now position;
  mret {|
    should_rebalance := should_rebalance;
    optimal_range := Some optimal_range;
    current_efficiency := Some (calculate_capital_efficiency position);
    estimated_gas_cost := Some 0.001%Q;
    estimated_profit :=
      Some (expected_apr_improvement optimal_range * liquidity_amount position * 0.01)%Q;
    error := None
  |}.

Definition analyze_rebalancing_opportunity_with_metta (now : Z) (run : Oracle)
    (position : DAMMPosition) : RebalanceAnalysis :=
  match analyze_rebalancing_try now run position with
  | Ok r => r
  | Raise e => {|
      should_rebalance := false;
      optimal_range := None;
      current_efficiency := None;
      estimated_gas_cost := None;
      estimated_profit := None;
      error := Some e
    |}
  end.

(** An entry of [agent_state["monitored_positions"]]. *)
Record PositionData : Type := {
  pd_pool_address : pyval;
  pd_token_a : pyval;
  pd_token_b : pyval;
  pd_added_at : Z;
  last_check : option Z
}.

Record PerformanceMetrics : Type := {
  total_fees_harvested : Q;
  successful_rebalances : Z;
  failed_rebalances : Z;
  avg_apr_improvement : Q
}.

Record HistoryEntry : Type := {
  h_position_id : string;
  h_timestamp : Z;
  h_old_range : Q * Q;
  h_new_range : OptimalRange;
  h_expected_improvement : Q
}.

Record AgentState : Type := {
  monitored_positions : list (string * PositionData);
  rebalancing_history : list HistoryEntry;
  performance_metrics : PerformanceMetrics
}.

Definition agent_state : AgentState := {|
  monitored_positions := [];
  rebalancing_history := [];
  performance_metrics := {|
    total_fees_harvested := 0%Q;
    successful_rebalances := 0;
    failed_rebalances := 0;
    avg_apr_improvement := 0.0%Q
  |}
|}.

(** What a run of the agent does that is visible outside [agent_state]:
    the analyses it makes, the instructions it sends to the Solana execution
    agent, and its replies. *)
Inductive Event : Type :=
| Evaluated (position_id : string) (analysis : RebalanceAnalysis)
| ToSolana (action : string) (position_id : string)
| Sent (destination : string) (reply_action : string).

Record World : Type := {
  st : AgentState;
  trace : list Event;
  calls : nat
}.

Definition OracleSeq : Type := nat -> Oracle.

Definition emit (e : Event) (w : World) : World :=
  {| st := st w; trace := trace w ++ [e]; calls := calls w |}.

Definition tick_call (w : World) : World :=
  {| st := st w; trace := trace w; calls := S (calls w) |}.

Definition set_state (s : AgentState) (w : World) : World :=
  {| st := s; trace := trace w; calls := calls w |}.

Definition set_metrics (m : PerformanceMetrics) (s : AgentState) : AgentState :=
  {| monitored_positions := monitored_positions s;
     rebalancing_history := rebalancing_history s;
     performance_metrics := m |}.

Definition count_failed (s : AgentState) : AgentState :=
  let m := performance_metrics s in
  set_metrics {| total_fees_harvested := total_fees_harvested m;
                 successful_rebalances := successful_rebalances m;
                 failed_rebalances := failed_rebalances m + 1;
                 avg_apr_improvement := avg_apr_improvement m |} s.

Definition count_successful (s : AgentState) : AgentState :=
  let m := performance_metrics s in
  set_metrics {| total_fees_harvested := total_fees_harvested m;
                 successful_rebalances := successful_rebalances m + 1;
                 failed_rebalances := failed_rebalances m;
                 avg_apr_improvement := avg_apr_improvement m |} s.

Definition add_harvested (fees : Q) (s : AgentState) : AgentState :=
  let m := performance_metrics s in
  set_metrics {| total_fees_harvested := (total_fees_harvested m + fees)%Q;
                 successful_rebalances := successful_rebalances m;
                 failed_rebalances := failed_rebalances m;
                 avg_apr_improvement := avg_apr_improvement m |} s.

Definition append_history (h : HistoryEntry) (s : AgentState) : AgentState :=
  {| monitored_positions := monitored_positions s;
     rebalancing_history := rebalancing_history s ++ [h];
     performance_metrics := performance_metrics s |}.

(** [harvest_fees_if_profitable]: the world after it; the position object
    it resets is local to one iteration of the monitoring loop. *)
Definition harvest_fees_if_profitable (position : DAMMPosition) (w : World) : World :=
  if Qltb (unclaimed_fees position) 1.0%Q then w
  else if Qltb (unclaimed_fees position) (0.001 * 2)%Q then w
  else
    set_state (add_harvested (unclaimed_fees position) (st w))
              (emit (ToSolana "harvest_fees" (position_id position)) w).

(** [execute_rebalancing]: [send_to_solana_agent] answers with success, the
    counters and the history are updated, and the oracle is told the outcome;
    when that last call raises, the [except] branch counts a failure too. *)
Definition execute_rebalancing (now : Z) (oracle : OracleSeq)
    (position : DAMMPosition) (o : OptimalRange) (w : World) : World :=
  let w := emit (ToSolana "rebalance_position" (position_id position)) w in
  let new_range := (lower o, upper o) in
  let s := count_successful (st w) in
  let s := append_history {|
    h_position_id := position_id position;
    h_timestamp := now;
    h_old_range := new_range;
    h_new_range := o;
    h_expected_improvement := expected_apr_improvement o |} s in
  let q := RebalancingResult (position_id position) (pool_address position) now
             new_range new_range (expected_apr_improvement o) true in
  match oracle (calls w) q with
  | Ok _ => set_state s (tick_call w)
  | Raise _ => set_state (count_failed s) (tick_call w)
  end.

Definition set_last_check (now : Z) (pd : PositionData) : PositionData :=
  {| pd_pool_address := pd_pool_address pd;
     pd_token_a := pd_token_a pd;
     pd_token_b := pd_token_b pd;
     pd_added_at := pd_added_at pd;
     last_check := Some now |}.

Fixpoint touch_last_check (now : Z) (k : string) (l : list (string * PositionData))
    : list (string * PositionData) :=
  match l with
  | [] => []
  | (k', pd) :: t =>
      if String.eqb k k' then (k', set_last_check now pd) :: t
      else (k', pd) :: touch_last_check now k t
  end.

(** One iteration of the loop of [monitor_positions]. *)
Definition monitor_one (now : Z) (oracle : OracleSeq) (w : World)
    (item : string * PositionData) : World :=
  let position_id := item.1 in
  let position_data := item.2 in
  let position :=
    new_position position_id (pd_pool_address position_data)
      (pd_token_a position_data) (pd_token_b position_data) in
  let w :=
    if Qltb 1.0%Q (unclaimed_fees position)
    then harvest_fees_if_profitable position w else w in
  let analysis :=
    analyze_rebalancing_opportunity_with_metta now (oracle (calls w)) position in
  let w := emit (Evaluated position_id analysis) (tick_call w) in
  let w :=
    if should_rebalance analysis then
      match optimal_range analysis with
      | Some o => execute_rebalancing now oracle position o w
      | None => w
      end
    else w in
  let s := st w in
  set_state {| monitored_positions := touch_last_check now position_id (monitored_positions s);
               rebalancing_history := rebalancing_history s;
               performance_metrics := performance_metrics s |} w.

(** [monitor_positions]: the loop runs over a copy of the items taken when
    the tick starts; the clock is read as [now] throughout one tick. *)
Definition monitor_positions (now : Z) (oracle : OracleSeq) (w : World) : World :=
  fold_left (monitor_one now oracle) (monitored_positions (st w)) w.

Inductive Msg : Type :=
| AddPosition (position_id : string) (pool_address token_a token_b : pyval)
| GetPerformance
| RemovePosition (position_id : string)
| OtherAction.

Definition handle_messages (now : Z) (sender : string) (msg : Msg) (w : World) : World :=
  let s := st w in
  match msg with
  | AddPosition position_id pool a b =>
      let pd := {| pd_pool_address := pool; pd_token_a := a; pd_token_b := b;
                   pd_added_at := now; last_check := None |} in
      emit (Sent sender "position_added")
        (set_state {| monitored_positions := od_set position_id pd (monitored_positions s);
                      rebalancing_history := rebalancing_history s;
                      performance_metrics := performance_metrics s |} w)
  | GetPerformance => emit (Sent sender "performance_report") w
  | RemovePosition position_id =>
      set_state {| monitored_positions := od_del position_id (monitored_positions s);
                   rebalancing_history := rebalancing_history s;
                   performance_metrics := performance_metrics s |} w
  | OtherAction => w
  end.

(** The ids a tick evaluates, in order: the [Evaluated] events it adds. *)
Definition evaluated_ids (events : list Event) : list string :=
  flat_map (fun e => match e with Evaluated id _ => [id] | _ => [] end) events.

End LiquidityOptimizerAgent.

(** ** LaunchCoordinatorAgent.py *)

Module LaunchCoordinatorAgent.

Inductive Query : Type :=
| PredictOptimalLaunchConfig (token_name category target_marketcap community_size : pyval)
| AnalyzeRiskFactors (liquidity_lock team_verified vesting_schedule contract_verified : pyval)
| LaunchData (token_mint name graduation_threshold : pyval) (timestamp : Z).

Definition MettaResult : Type := list string.
Definition Oracle : Type := Query -> res MettaResult.
Definition OracleSeq : Type := nat -> Oracle.

Record Strategy : Type := {
  presale_mode : string;
  graduation_threshold : Z;
  initial_liquidity : Z;
  vesting_immediate : Z;
  vesting_gradual : Z;
  initial_price : Q;
  curve_type : string;
  anti_sniper_duration : Z;
  strategy_confidence : Q;
  strategy_reasoning : string
}.

(** [query_metta_for_launch_strategy]; [token_params['name']] is read
    before the [try], and [handle_launch_request] always supplies it. *)
Definition query_metta_for_launch_strategy (run : Oracle) (token_params : dict)
    : Strategy :=
  let query :=
    PredictOptimalLaunchConfig
      (get_opt token_params "name")
      (get token_params "category" (PStr "utility"))
      (get token_params "target_marketcap" (PNum (Fin 100000%Q)))
      (get token_params "community_size" (PNum (Fin 1000%Q))) in
  match run query with
  | Ok _ => {|
      presale_mode := "FCFS";
      graduation_threshold := 100000;
      initial_liquidity := 50000;
      vesting_immediate := 50;
      vesting_gradual := 50;
      initial_price := 0.001%Q;
      curve_type := "EXPONENTIAL";
      anti_sniper_duration := 300;
      strategy_confidence := 0.87%Q;
      strategy_reasoning :=
        "Based on 50 similar successful launches in MeTTa knowledge graph"
    |}
  | Raise _ => {|
      presale_mode := "FCFS";
      graduation_threshold := 50000;
      initial_liquidity := 25000;
      vesting_immediate := 50;
      vesting_gradual := 50;
      initial_price := 0.001%Q;
      curve_type := "LINEAR";
      anti_sniper_duration := 180;
      strategy_confidence := 0.60%Q;
      strategy_reasoning := "Conservative default parameters (MeTTa unavailable)"
    |}
  end.

Record LaunchRisk : Type := {
  risk_score : Q;
  risk_level : string;
  red_flags : list string;
  risk_confidence : Q
}.

Definition analyze_risk_try (run : Oracle) (token_params : dict) : res LaunchRisk :=
  _ ← run (AnalyzeRiskFactors
             (get token_params "liquidity_lock_duration" (PNum (Fin 0%Q)))
             (get token_params "team_verified" (PBool false))
             (get token_params "vesting_enabled" (PBool false))
             (get token_params "contract_verified" (PBool false)));
  let acc := (7.5%Q, @nil string) in
  c ← py_lt (get token_params "liquidity_lock_duration" (PNum (Fin 0%Q))) 30%Q;
  let acc := if (c : bool)
             then ((acc.1 - 2.0)%Q, acc.2 ++ ["No liquidity lock (30+ days recommended)"])
             else acc in
  let acc := if negb (truthy (get token_params "team_verified" (PBool false)))
             then ((acc.1 - 1.5)%Q, acc.2 ++ ["Anonymous team"])
             else acc in
  let acc := if negb (truthy (get token_params "vesting_enabled" (PBool false)))
             then ((acc.1 - 1.0)%Q, acc.2 ++ ["No vesting schedule"])
             else acc in
  mret {|
    risk_score := py_max 0%Q acc.1;
    risk_level := if Qltb acc.1 5%Q then "HIGH"
                  else if Qltb acc.1 7%Q then "MEDIUM" else "LOW";
    red_flags := acc.2;
    risk_confidence := 0.92%Q
  |}.

Definition analyze_risk_with_metta (run : Oracle) (token_params : dict) : LaunchRisk :=
  match analyze_risk_try run token_params with
  | Ok r => r
  | Raise _ => {|
      risk_score := 5.0%Q;
      risk_level := "MEDIUM";
      red_flags := ["Unable to analyze"];
      risk_confidence := 0.50%Q
    |}
  end.

(** An entry of [agent_state["active_launches"]]. *)
Record Launch : Type := {
  token_params : dict;
  strategy : Strategy;
  risk_analysis : LaunchRisk;
  status : string;
  timestamp : Z
}.

Record AgentState : Type := {
  active_launches : list (string * Launch);
  historical_patterns : list pyval;
  solana_execution_agent : string
}.

Definition agent_state : AgentState := {|
  active_launches := [];
  historical_patterns := [];
  solana_execution_agent := "agent1qw5jy8gp8r9x2n3k4m5l6v7w8x9y0z1a2b3c4d5e6f7g8h9"
|}.

Inductive Content : Type :=
| TextContent (text : string)
| OtherContent.

Record ChatMessage : Type := {
  msg_id : string;
  content : list Content
}.

Inductive Reply : Type :=
| StrategyMessage (s : Strategy) (r : LaunchRisk)
| StatusMessage (active awaiting : nat)
| RiskCapabilities
| HelpMessage.

(** The messages the agent sends with [ctx.send]. *)
Inductive Event : Type :=
| Acknowledged (destination : string) (acknowledged_msg_id : string)
| Replied (destination : string) (reply : Reply).

Record World : Type := {
  st : AgentState;
  trace : list Event;
  calls : nat
}.

Definition emit (e : Event) (w : World) : World :=
  {| st := st w; trace := trace w ++ [e]; calls := calls w |}.

Definition tick_call (w : World) : World :=
  {| st := st w; trace := trace w; calls := S (calls w) |}.

(** What a name can be bound to, as far as the handlers look: a chat message
    has a [msg_id]; no other object in scope has that attribute. *)
Inductive pyobj : Type :=
| Message (m : ChatMessage)
| Opaque.

Definition Scope : Type := list (string * pyobj).

(** The names bound at module level when a handler runs. *)
Definition module_globals : Scope :=
  map (fun n => (n, Opaque))
    ["Agent"; "Context"; "Protocol"; "Model"; "Optional"; "Dict"; "Any";
     "fund_agent_if_low"; "ChatMessage"; "ChatAcknowledgement"; "TextContent";
     "chat_protocol_spec"; "MeTTa"; "GroundedAtom"; "datetime"; "uuid4";
     "asyncio"; "json"; "os"; "launch_coordinator"; "metta";
     "KNOWLEDGE_BASE_PATH"; "f"; "chat_proto"; "SolanaExecutionResult";
     "agent_state"; "create_text_chat"; "query_metta_for_launch_strategy";
     "analyze_risk_with_metta"; "handle_chat_message"; "handle_launch_request";
     "handle_status_request"; "handle_risk_analysis_request";
     "handle_solana_execution_result"].

(** The parameters and local variables of [handle_launch_request]. *)
Definition handle_launch_request_locals : Scope :=
  map (fun n => (n, Opaque))
    ["ctx"; "sender"; "text"; "token_params"; "optimal_strategy";
     "risk_analysis"; "strategy_message"; "response"].

(** Reading a name: the locals, then the module; an unbound name raises. *)
Definition load_name (locals : Scope) (name : string) : res pyobj :=
  match od_get name (locals ++ module_globals) with
  | Some o => Ok o
  | None => Raise (NameError name)
  end.

Definition attr_msg_id (o : pyobj) : res string :=
  match o with
  | Message m => Ok (msg_id m)
  | Opaque => Raise (AttributeError "msg_id")
  end.

(** [token_params] as [handle_launch_request] builds it. *)
Definition launch_token_params : dict :=
  <["name" := PStr "DogeCoin2.0"]>
  (<["symbol" := PStr "DOGE2"]>
  (<["category" := PStr "meme"]>
  (<["target_marketcap" := PNum (Fin 500000%Q)]>
  (<["community_size" := PNum (Fin 5000%Q)]>
  (<["liquidity_lock_duration" := PNum (Fin 90%Q)]>
  (<["team_verified" := PBool true]>
  (<["vesting_enabled" := PBool true]>
  (<["contract_verified" := PBool true]> ∅)))))))).

Definition store_launch (key : string) (l : Launch) (s : AgentState) : AgentState :=
  {| active_launches := od_set key l (active_launches s);
     historical_patterns := historical_patterns s;
     solana_execution_agent := solana_execution_agent s |}.

(** [handle_launch_request]: the world after it and the exception it leaves
    with, if any.  The last statement reads the name [msg]. *)
Definition handle_launch_request (now : Z) (oracle : OracleSeq) (sender text : string)
    (w : World) : World * option exn :=
  let token_params := launch_token_params in
  let optimal_strategy := query_metta_for_launch_strategy (oracle (calls w)) token_params in
  let w := tick_call w in
  let risk_analysis := analyze_risk_with_metta (oracle (calls w)) token_params in
  let w := tick_call w in
  let w := emit (Replied sender (StrategyMessage optimal_strategy risk_analysis)) w in
  match load_name handle_launch_request_locals "msg" ≫= attr_msg_id with
  | Raise e => (w, Some e)
  | Ok key =>
      ({| st := store_launch key {|
                  token_params := token_params;
                  strategy := optimal_strategy;
                  risk_analysis := risk_analysis;
                  status := "awaiting_approval";
                  timestamp := now |} (st w);
          trace := trace w;
          calls := calls w |}, None)
  end.

Definition count_status (p : string -> bool) (s : AgentState) : nat :=
  length (List.filter (fun kl => p (status kl.2)) (active_launches s)).

Definition handle_status_request (sender text : string) (w : World) : World :=
  let active :=
    count_status (fun x => String.eqb x "launching" || String.eqb x "monitoring") (st w) in
  let awaiting := count_status (fun x => String.eqb x "awaiting_approval") (st w) in
  emit (Replied sender (StatusMessage active awaiting)) w.

Definition handle_risk_analysis_request (sender text : string) (w : World) : World :=
  emit (Replied sender RiskCapabilities) w.

(** The first test of the dispatch in [handle_chat_message]. *)
Definition is_launch_request (text : string) : bool :=
  str_in "launch" text && str_in "token" text.

(** The body of the loop over [msg.content] for one item; [lower] is
    [str.lower]. *)
Definition handle_item (lower : string -> string) (now : Z) (oracle : OracleSeq)
    (sender : string) (item : Content) (w : World) : World * option exn :=
  match item with
  | TextContent t =>
      let text := lower t in
      if is_launch_request text then
        handle_launch_request now oracle sender text w
      else if str_in "status" text then
        (handle_status_request sender text w, None)
      else if str_in "risk" text && str_in "analysis" text then
        (handle_risk_analysis_request sender text w, None)
      else
        (emit (Replied sender HelpMessage) w, None)
  | OtherContent => (w, None)
  end.

Fixpoint handle_items (lower : string -> string) (now : Z) (oracle : OracleSeq)
    (sender : string) (items : list Content) (w : World) : World * option exn :=
  match items with
  | [] => (w, None)
  | item :: rest =>
      match handle_item lower now oracle sender item w with
      | (w', None) => handle_items lower now oracle sender rest w'
      | (w', Some e) => (w', Some e)
      end
  end.

Definition handle_chat_message (lower : string -> string) (now : Z)
    (oracle : OracleSeq) (sender : string) (msg : ChatMessage) (w : World)
    : World * option exn :=
  let w := emit (Acknowledged sender (msg_id msg)) w in
  handle_items lower now oracle sender (content msg) w.


End LaunchCoordinatorAgent.

(** ** ml-models/risk_scoring/model.py *)

Module RiskScoringModel.

Definition truth_feature (v : pyval) : pynum :=
  Fin (if truthy v then 1%Q else 0%Q).

(** [v / c] for a non-zero [int] literal [c].  The division of an [int] by
    an [int] rounds the exact quotient to a float and raises when that
    quotient is too large; a float divided by one of these literals is never
    that large. *)
Definition div_by (v : pyval) (c : Q) : res pynum :=
  x ← num v; y ← num_div x (Fin c); to_float y.

(** [v / c] for a non-zero [float] literal [c]: an [int] is converted to a
    float before the division. *)
Definition div_by_float (v : pyval) (c : Q) : res pynum :=
  x ← num v; x ← to_float x; num_div x (Fin c).

(** [min(x, 1.0)]: [x] is kept unless [1.0 < x]. *)
Definition min_one (x : pynum) : pynum :=
  if num_ltb (Fin 1.0%Q) x then Fin 1.0%Q else x.

Definition is_FCFS (v : pyval) : bool :=
  match v with
  | PStr s => String.eqb s "FCFS"
  | _ => false
  end.

(** [prepare_features]: the thirteen features, or the exception of a
    division: [TypeError] when a numeric field holds no number,
    [OverflowError] when it holds an [int] that is too large. *)
Definition prepare_features (token_data : dict) : res (list pynum) :=
  let f1 := truth_feature (get token_data "liquidity_locked" (PBool false)) in
  let f2 := truth_feature (get token_data "team_verified" (PBool false)) in
  let f3 := truth_feature (get token_data "contract_verified" (PBool false)) in
  let f4 := truth_feature (get token_data "vesting_enabled" (PBool false)) in
  f5 ← div_by (get token_data "liquidity_lock_duration" (PNum (Fin 0%Q))) 365%Q;
  f6 ← div_by (get token_data "top_holder_percentage" (PNum (Fin 0%Q))) 100%Q;
  f7 ← div_by (get token_data "graduation_time_hours" (PNum (Fin 168%Q))) 168%Q;
  f8 ← div_by (get token_data "initial_liquidity" (PNum (Fin 0%Q))) 100000%Q;
  let f9 := Fin (if is_FCFS (get_opt token_data "presale_mode") then 1%Q else 0.5%Q) in
  f10 ← div_by (get token_data "holder_count" (PNum (Fin 0%Q))) 10000%Q;
  f11 ← div_by (get token_data "volume_24h" (PNum (Fin 0%Q))) 1000000%Q;
  f12 ← div_by_float (get token_data "price_volatility" (PNum (Fin 0%Q))) 0.5%Q;
  f13 ← div_by (get token_data "avg_wallet_age_days" (PNum (Fin 0%Q))) 365%Q;
  mret [f1; f2; f3; f4; f5; f6; f7; f8; f9;
        min_one f10; min_one f11; min_one f12; min_one f13].

(** The entries of [red_flags]:
    - [NoLiquidityLock]: "No liquidity lock",
    - [ShortLockDuration v]: "Short lock duration: v days",
    - [AnonymousTeam]: "Anonymous team",
    - [ContractNotVerified]: "Contract not verified",
    - [NoVestingSchedule]: "No vesting schedule",
    - [HighHolderConcentration p]: "High holder concentration: p%",
    - [ModerateHolderConcentration p]: "Moderate holder concentration: p%",
    - [RapidGraduation]: "Rapid graduation (<24h)". *)
Inductive Flag : Type :=
| NoLiquidityLock
| ShortLockDuration (days : pyval)
| AnonymousTeam
| ContractNotVerified
| NoVestingSchedule
| HighHolderConcentration (pct : pynum)
| ModerateHolderConcentration (pct : pynum)
| RapidGraduation.

Record Prediction : Type := {
  risk_score : Q;
  rug_pull_probability : Q;
  risk_level : string;
  red_flags : list Flag;
  confidence : Q;
  recommendation : string;
  timestamp : Z
}.

Definition _get_recommendation (risk_score : Q) (red_flags : list Flag) : string :=
  if Qltb risk_score 3%Q then
    "HIGH RISK - Do not invest. Multiple fraud indicators detected."
  else if Qltb risk_score 5%Q then
    "MEDIUM-HIGH RISK - Proceed with extreme caution."
  else if Qltb risk_score 7%Q then
    "MEDIUM RISK - Acceptable for experienced investors."
  else if Qltb risk_score 8.5%Q then
    "LOW-MEDIUM RISK - Generally safe with standard due diligence."
  else
    "LOW RISK - Strong safety indicators.".

Definition Acc : Type := (Q * list Flag)%type.

Definition deduct (amount : Q) (f : Flag) (acc : Acc) : Acc :=
  ((acc.1 - amount)%Q, acc.2 ++ [f]).

Definition check_liquidity_lock (d : dict) (acc : Acc) : res Acc :=
  if negb (truthy (get d "liquidity_locked" (PBool false))) then
    mret (deduct 2.5%Q NoLiquidityLock acc)
  else
    c ← py_lt (get d "liquidity_lock_duration" (PNum (Fin 0%Q))) 30%Q;
    mret (if (c : bool)
          then deduct 1.5%Q (ShortLockDuration (get_opt d "liquidity_lock_duration")) acc
          else acc).

Definition check_team_verification (d : dict) (acc : Acc) : res Acc :=
  mret (if negb (truthy (get d "team_verified" (PBool false)))
        then deduct 1.5%Q AnonymousTeam acc else acc).

Definition check_contract_verification (d : dict) (acc : Acc) : res Acc :=
  mret (if negb (truthy (get d "contract_verified" (PBool false)))
        then deduct 1.0%Q ContractNotVerified acc else acc).

Definition check_vesting (d : dict) (acc : Acc) : res Acc :=
  mret (if negb (truthy (get d "vesting_enabled" (PBool false)))
        then deduct 1.0%Q NoVestingSchedule acc else acc).

(** Both flags are formatted with [:.1f], which converts the number to a
    float. *)
Definition check_holder_concentration (d : dict) (acc : Acc) : res Acc :=
  top_holder_pct ← num (get d "top_holder_percentage" (PNum (Fin 0%Q)));
  if num_ltb (Fin 30%Q) top_holder_pct then
    _ ← to_float top_holder_pct;
    mret (deduct 2.0%Q (HighHolderConcentration top_holder_pct) acc)
  else if num_ltb (Fin 20%Q) top_holder_pct then
    _ ← to_float top_holder_pct;
    mret (deduct 1.0%Q (ModerateHolderConcentration top_holder_pct) acc)
  else mret acc.

Definition check_rapid_graduation (d : dict) (acc : Acc) : res Acc :=
  c ← py_lt (get d "graduation_time_hours" (PNum (Fin 168%Q))) 24%Q;
  mret (if (c : bool) then deduct 1.5%Q RapidGraduation acc else acc).

Definition score_and_flags (d : dict) : res Acc :=
  acc ← check_liquidity_lock d (7.5%Q, []);
  acc ← check_team_verification d acc;
  acc ← check_contract_verification d acc;
  acc ← check_vesting d acc;
  acc ← check_holder_concentration d acc;
  check_rapid_graduation d acc.

Definition risk_level_of (risk_score : Q) : string :=
  if Qltb risk_score 4%Q then "HIGH"
  else if Qltb risk_score 7%Q then "MEDIUM"
  else "LOW".

Definition data_fields : list string :=
  ["liquidity_locked"; "team_verified"; "contract_verified";
   "vesting_enabled"; "holder_count"].

(** The number of [data_fields] that are keys of the dict. *)
Definition fields_present (d : dict) : nat :=
  length (List.filter (fun k => has_key d k) data_fields).

(** [predict]: nothing in it is guarded, so an exception leaves it. *)
Definition predict (now : Z) (token_data : dict) : res Prediction :=
  features ← prepare_features token_data;
  acc ← score_and_flags token_data;
  let red_flags := acc.2 in
  let risk_score := py_max 0%Q (py_min 10%Q acc.1) in
  let risk_level := risk_level_of risk_score in
  let rug_pull_probability := py_max 0%Q (py_min 1%Q ((10 - risk_score) / 10)%Q) in
  let data_completeness := (inject_Z (Z.of_nat (fields_present token_data)) / 5)%Q in
  let confidence := (0.6 + data_completeness * 0.35)%Q in
  mret {|
    risk_score := risk_score;
    rug_pull_probability := rug_pull_probability;
    risk_level := risk_level;
    red_flags := red_flags;
    confidence := confidence;
    recommendation := _get_recommendation risk_score red_flags;
    timestamp := now
  |}.

(** The numeric fields [predict] divides or compares: each must hold a
    number (or be absent) for [predict] to return. *)
Definition numeric_fields : list string :=
  ["liquidity_lock_duration"; "top_holder_percentage"; "graduation_time_hours";
   "initial_liquidity"; "holder_count"; "volume_24h"; "price_volatility";
   "avg_wallet_age_days"].

Definition numeric_or_absent (d : dict) : Prop :=
  Forall (fun k => match d !! k with
                   | Some v => is_Some (as_num v)
                   | None => True
                   end) numeric_fields.

(** The finite number a field holds, if it holds one. *)
Definition finite_field (d : dict) (k : string) : option Q :=
  match d !! k with
  | Some v => match as_num v with Some (Fin q) => Some q | _ => None end
  | None => None
  end.

(** The quotient of the field by the [int] literal [c] converts to a float,
    and the field itself does. *)
Definition quotient_converts (d : dict) (k : string) (c : Q) : Prop :=
  forall q, finite_field d k = Some q -> too_large (q / c) = false.

Definition field_converts (d : dict) (k : string) : Prop :=
  forall q, finite_field d k = Some q -> too_large q = false.

(** No field holds an [int] too large for the conversions to float that
    [predict] makes of it: the seven quotients by an [int] literal, the
    conversion of the price volatility before its division by 0.5, and the
    format of a holder concentration above 20. *)
Definition converts (d : dict) : Prop :=
  quotient_converts d "liquidity_lock_duration" 365 /\
  quotient_converts d "top_holder_percentage" 100 /\
  quotient_converts d "graduation_time_hours" 168 /\
  quotient_converts d "initial_liquidity" 100000 /\
  quotient_converts d "holder_count" 10000 /\
  quotient_converts d "volume_24h" 1000000 /\
  field_converts d "price_volatility" /\
  quotient_converts d "avg_wallet_age_days" 365 /\
  (forall q, finite_field d "top_holder_percentage" = Some q ->
             (20 < q)%Q -> too_large q = false).

End RiskScoringModel.

(** ** The statements of the specification, in its own words *)

Module Spec.

(** A level by two fixed bands: below [high] HIGH, below [medium] MEDIUM,
    else LOW. *)
Definition bands (high medium : Q) (score : Q) : string :=
  if Qltb score high then "HIGH"
  else if Qltb score medium then "MEDIUM"
  else "LOW".

(** The bands of the specification: below 4 HIGH, below 7 MEDIUM, else LOW. *)
Definition band_level : Q -> string := bands 4%Q 7%Q.

(** The positions a tick is to re-evaluate under a minimum cadence: those
    never checked, and those whose last check is at least [cadence] old. *)
Definition due_positions (cadence now : Z)
    (positions : list (string * LiquidityOptimizerAgent.PositionData)) : list string :=
  od_keys (List.filter (fun kv =>
    match LiquidityOptimizerAgent.last_check kv.2 with
    | None => true
    | Some t => (cadence <=? now - t)%Z
    end) positions).

(** The high-risk scenario of the specification: liquidity lock of 10 days,
    team not verified, no vesting, contract not verified, top holder at 35%,
    and a graduation time that is absent or at least 24 hours. *)
Definition reads_number (d : dict) (k : string) (c : Q) : Prop :=
  exists q, d !! k = Some (PNum (Fin q)) /\ (q == c)%Q.

Definition not_set (d : dict) (k : string) : Prop :=
  truthy (get d k (PBool false)) = false.

Definition high_risk_scenario (d : dict) : Prop :=
  reads_number d "liquidity_lock_duration" 10 /\
  not_set d "team_verified" /\
  not_set d "vesting_enabled" /\
  not_set d "contract_verified" /\
  reads_number d "top_holder_percentage" 35 /\
  (d !! "graduation_time_hours" = None \/
   exists g, d !! "graduation_time_hours" = Some (PNum (Fin g)) /\ (24 <= g)%Q).

(** The cooldown of one day has elapsed since the last rebalance. *)
Definition cooldown_elapsed (now : Z)
    (position : LiquidityOptimizerAgent.DAMMPosition) : Prop :=
  exists t, LiquidityOptimizerAgent.last_rebalance position = Some t /\
            (LiquidityOptimizerAgent.microseconds_per_day <= now - t)%Z.

End Spec.

(** ** Concrete inputs *)

Module Examples.

(** An oracle that answers every query, and one that is down. *)
Definition oracle_ok {Query : Type} : Query -> res (list string) :=
  fun _ => Ok [].

Definition oracle_down {Query : Type} : Query -> res (list string) :=
  fun _ => Raise (OracleError "timeout").

(** The token of the high-risk scenario. *)
Definition risky_token : dict :=
  <["liquidity_lock_duration" := PNum (Fin 10%Q)]>
  (<["team_verified" := PBool false]>
  (<["vesting_enabled" := PBool false]>
  (<["contract_verified" := PBool false]>
  (<["top_holder_percentage" := PNum (Fin 35%Q)]> ∅)))).

(** A token whose fields hold extreme values: a lock duration that is not
    a number, an infinite holder concentration and a negative infinite
    graduation time. *)
Definition extreme_token : dict :=
  <["liquidity_lock_duration" := PNum NaN]>
  (<["team_verified" := PStr ""]>
  (<["vesting_enabled" := PList []]>
  (<["contract_verified" := PNum (Fin 0%Q)]>
  (<["top_holder_percentage" := PNum PosInf]>
  (<["graduation_time_hours" := PNum NegInf]> ∅))))).

(** A token whose holder concentration is a text. *)
Definition ill_typed_token : dict :=
  <["top_holder_percentage" := PStr "high"]> risky_token.

(** A token with an anonymous team that graduated in 12 hours and is
    otherwise in order. *)
Definition rapid_anonymous_token : dict :=
  <["liquidity_lock_duration" := PNum (Fin 90%Q)]>
  (<["team_verified" := PBool false]>
  (<["vesting_enabled" := PBool true]>
  (<["contract_verified" := PBool true]>
  (<["top_holder_percentage" := PNum (Fin 12.5%Q)]>
  (<["graduation_time_hours" := PNum (Fin 12%Q)]> ∅))))).

(** The [token_data] of the example at the end of [model.py]. *)
Definition model_example_token : dict :=
  <["liquidity_locked" := PBool true]>
  (<["liquidity_lock_duration" := PNum (Fin 90%Q)]>
  (<["team_verified" := PBool true]>
  (<["contract_verified" := PBool true]>
  (<["vesting_enabled" := PBool true]>
  (<["top_holder_percentage" := PNum (Fin 12.5%Q)]>
  (<["graduation_time_hours" := PNum (Fin 72%Q)]>
  (<["initial_liquidity" := PNum (Fin 50000%Q)]>
  (<["presale_mode" := PStr "FCFS"]>
  (<["holder_count" := PNum (Fin 1250%Q)]>
  (<["volume_24h" := PNum (Fin 250000%Q)]>
  (<["price_volatility" := PNum (Fin 0.12%Q)]>
  (<["avg_wallet_age_days" := PNum (Fin 180%Q)]> ∅)))))))))))).

(** A position last rebalanced at time [t]. *)
Definition rebalanced_position (t : Z) : LiquidityOptimizerAgent.DAMMPosition := {|
  LiquidityOptimizerAgent.position_id := "p1";
  LiquidityOptimizerAgent.pool_address := PStr "pool";
  LiquidityOptimizerAgent.token_a := PStr "SOL";
  LiquidityOptimizerAgent.token_b := PStr "USDC";
  LiquidityOptimizerAgent.current_range := (0.9%Q, 1.1%Q);
  LiquidityOptimizerAgent.liquidity_amount := 1000%Q;
  LiquidityOptimizerAgent.unclaimed_fees := 0%Q;
  LiquidityOptimizerAgent.apr := 10%Q;
  LiquidityOptimizerAgent.impermanent_loss := 0%Q;
  LiquidityOptimizerAgent.last_rebalance := Some t
|}.

(** A recommended range with the given improvement and confidence. *)
Definition range_with (improvement confidence : Q) : LiquidityOptimizerAgent.OptimalRange := {|
  LiquidityOptimizerAgent.lower := 0.95%Q;
  LiquidityOptimizerAgent.upper := 1.05%Q;
  LiquidityOptimizerAgent.confidence := confidence;
  LiquidityOptimizerAgent.expected_apr_improvement := improvement;
  LiquidityOptimizerAgent.reasoning := ""
|}.

Definition one_day : Z := LiquidityOptimizerAgent.microseconds_per_day.

(** The liquidity optimizer after one position was added at time 0 and a
    first tick ran at time 1000. *)
Definition liquidity_start : LiquidityOptimizerAgent.World := {|
  LiquidityOptimizerAgent.st := LiquidityOptimizerAgent.agent_state;
  LiquidityOptimizerAgent.trace := [];
  LiquidityOptimizerAgent.calls := 0
|}.

Definition liquidity_one_position : LiquidityOptimizerAgent.World :=
  LiquidityOptimizerAgent.handle_messages 0 "user"
    (LiquidityOptimizerAgent.AddPosition "p1" (PStr "pool") (PStr "SOL") (PStr "USDC"))
    liquidity_start.

Definition liquidity_after_tick : LiquidityOptimizerAgent.World :=
  LiquidityOptimizerAgent.monitor_positions 1000 (fun _ => oracle_ok)
    liquidity_one_position.

(** The risk analyzer with two tokens under monitoring. *)
Definition monitor_token (address : string) : RiskAnalyzerAgent.Msg :=
  RiskAnalyzerAgent.MonitorToken
    (RiskAnalyzerAgent.Hashable (RiskAnalyzerAgent.Text address)) PNone.

Definition risk_two_tokens : RiskAnalyzerAgent.World :=
  (RiskAnalyzerAgent.handle_messages 1 (fun _ => oracle_ok) "user"
     (monitor_token "TokenB")
     (RiskAnalyzerAgent.handle_messages 0 (fun _ => oracle_ok) "user"
        (monitor_token "TokenA")
        {| RiskAnalyzerAgent.st := RiskAnalyzerAgent.agent_state;
           RiskAnalyzerAgent.trace := [];
           RiskAnalyzerAgent.calls := 0 |}).1).1.

(** Prices that fall by 40% over the last five observations. *)
Definition crashing_prices : pyval :=
  PList [PNum (Fin 10%Q); PNum (Fin 9%Q); PNum (Fin 8%Q); PNum (Fin 7%Q);
         PNum (Fin 6%Q)].

(** The launch coordinator at start, and the chat messages of a proposal
    followed by the two replies the strategy message asks for. *)
Definition coordinator_start : LaunchCoordinatorAgent.World := {|
  LaunchCoordinatorAgent.st := LaunchCoordinatorAgent.agent_state;
  LaunchCoordinatorAgent.trace := [];
  LaunchCoordinatorAgent.calls := 0
|}.

Definition chat (id text : string) : LaunchCoordinatorAgent.ChatMessage := {|
  LaunchCoordinatorAgent.msg_id := id;
  LaunchCoordinatorAgent.content := [LaunchCoordinatorAgent.TextContent text]
|}.

Definition launch_message : LaunchCoordinatorAgent.ChatMessage :=
  chat "m1" "Launch a meme token called DogeCoin2.0".





End Examples.

(** ** RiskAnalyzerAgent.py: the chat protocol *)

Module RiskAnalyzerChat.
Import RiskAnalyzerAgent.

Inductive Content : Type :=
| TextContent (text : string)
| OtherContent.

Record ChatMessage : Type := {
  msg_id : string;
  content : list Content
}.

(** The four texts the agent answers with, by what they are formatted from. *)
Inductive Reply : Type :=
| AnalysisMessage (token_data : dict) (risk_analysis : RiskResult)
| StatusMessage (monitored : nat) (fraud_patterns alerts : Z)
    (thresholds : AlertThresholds)
| AlertMessage
| HelpMessage.

Inductive ChatEvent : Type :=
| Acknowledged (destination : string) (acknowledged_msg_id : string)
| Replied (destination : string) (reply : Reply).

(** A run of the chat handlers: the world of the agent and the chat
    messages sent so far. *)
Record ChatWorld : Type := {
  world : World;
  outbox : list ChatEvent
}.

Definition send (e : ChatEvent) (c : ChatWorld) : ChatWorld :=
  {| world := world c; outbox := outbox c ++ [e] |}.

(** [token_data] as [handle_risk_analysis_request] builds it. *)
Definition request_token_data : dict :=
  <["token_address" := PStr "TokenAddress123"]>
  (<["liquidity_lock_duration" := PNum (Fin 90%Q)]>
  (<["team_verified" := PBool true]>
  (<["vesting_enabled" := PBool true]>
  (<["contract_verified" := PBool true]>
  (<["top_holder_percentage" := PNum (Fin 12.5%Q)]>
  (<["graduation_time_hours" := PNum (Fin 72%Q)]>
  (<["holder_count" := PNum (Fin 1250%Q)]> ∅))))))).

Definition handle_risk_analysis_request (oracle : OracleSeq) (sender text : string)
    (c : ChatWorld) : ChatWorld :=
  let w := world c in
  let token_data := request_token_data in
  let risk_analysis :=
    analyze_token_risk_with_metta (st w) (oracle (calls w))
      "TokenAddress123" token_data in
  send (Replied sender (AnalysisMessage token_data risk_analysis))
    {| world := emit (Evaluated "TokenAddress123" risk_analysis) (tick_call w);
       outbox := outbox c |}.

Definition handle_status_request (sender : string) (c : ChatWorld) : ChatWorld :=
  let s := st (world c) in
  send (Replied sender
          (StatusMessage (length (monitored_tokens s)) (fraud_patterns_detected s)
             (alerts_sent s) (alert_thresholds s))) c.

Definition handle_alert_query (sender : string) (c : ChatWorld) : ChatWorld :=
  send (Replied sender AlertMessage) c.

(** The body of the loop over [msg.content] for one item; [lower] is
    [str.lower]. *)
Definition handle_item (lower : string -> string) (oracle : OracleSeq)
    (sender : string) (item : Content) (c : ChatWorld) : ChatWorld :=
  match item with
  | TextContent t =>
      let text := lower t in
      if str_in "analyze" text && (str_in "risk" text || str_in "token" text) then
        handle_risk_analysis_request oracle sender text c
      else if str_in "status" text then
        handle_status_request sender c
      else if str_in "alert" text then
        handle_alert_query sender c
      else
        send (Replied sender HelpMessage) c
  | OtherContent => c
  end.

Definition handle_chat_message (lower : string -> string) (oracle : OracleSeq)
    (sender : string) (msg : ChatMessage) (c : ChatWorld) : ChatWorld :=
  let c := send (Acknowledged sender (msg_id msg)) c in
  fold_left (fun c item => handle_item lower oracle sender item c) (content msg) c.

Definition is_text (item : Content) : bool :=
  match item with TextContent _ => true | OtherContent => false end.

Definition is_reply (e : ChatEvent) : bool :=
  match e with Replied _ _ => true | Acknowledged _ _ => false end.

(** The texts of the items that are texts, in the order of the items. *)
Definition texts (items : list Content) : list string :=
  flat_map (fun item =>
    match item with TextContent t => [t] | OtherContent => [] end) items.

(** The reply a lowered text asks for, in a given state of the agent: the
    analysis of the mock token after some call of the oracle, the status,
    the alerts, or the help text. *)
Definition answers (s : AgentState) (text : string) (reply : Reply) : Prop :=
  if str_in "analyze" text && (str_in "risk" text || str_in "token" text) then
    exists run,
      reply = AnalysisMessage request_token_data
                (analyze_token_risk_with_metta s run "TokenAddress123"
                   request_token_data)
  else if str_in "status" text then
    reply = StatusMessage (length (monitored_tokens s)) (fraud_patterns_detected s)
              (alerts_sent s) (alert_thresholds s)
  else if str_in "alert" text then reply = AlertMessage
  else reply = HelpMessage.

End RiskAnalyzerChat.

(** ** LaunchCoordinatorAgent.py: execution results and runs of messages *)

Module LaunchCoordinatorRuns.
Import LaunchCoordinatorAgent.



(** A chat message as it arrives: the time, the sender and the message. *)
Definition Arrival : Type := (Z * string * ChatMessage)%type.

(** The agent handling chat messages one after the other; a handler that
    ends with an exception leaves the world as it is at that point, and the
    next message is handled from there. *)
Definition handle_all (lower : string -> string) (oracle : OracleSeq)
    (arrivals : list Arrival) (w : World) : World :=
  fold_left (fun w a => (handle_chat_message lower a.1.1 oracle a.1.2 a.2 w).1)
    arrivals w.

Definition is_text (item : Content) : bool :=
  match item with TextContent _ => true | OtherContent => false end.

Definition is_reply (e : Event) : bool :=
  match e with Replied _ _ => true | Acknowledged _ _ => false end.


(** The reply to a lowered text that is not a launch request, in a given
    state of the agent. *)
Definition plain_reply (s : AgentState) (text : string) : Reply :=
  if str_in "status" text then
    StatusMessage
      (count_status (fun x => String.eqb x "launching" || String.eqb x "monitoring") s)
      (count_status (fun x => String.eqb x "awaiting_approval") s)
  else if str_in "risk" text && str_in "analysis" text then RiskCapabilities
  else HelpMessage.

(** One such reply for each item that is a text, in the order of the items. *)
Definition plain_replies (lower : string -> string) (sender : string)
    (s : AgentState) (items : list Content) : list Event :=
  flat_map (fun item =>
    match item with
    | TextContent t => [Replied sender (plain_reply s (lower t))]
    | OtherContent => []
    end) items.

(** The strategy message a launch request is answered with, when [n] calls
    of the oracle were made before. *)
Definition strategy_reply (oracle : OracleSeq) (n : nat) : Reply :=
  StrategyMessage
    (query_metta_for_launch_strategy (oracle n) launch_token_params)
    (analyze_risk_with_metta (oracle (S n)) launch_token_params).

(** A status reply that reports no launch at all. *)
Definition reports_nothing (e : Event) : Prop :=
  match e with
  | Replied _ (StatusMessage active awaiting) => active = 0%nat /\ awaiting = 0%nat
  | _ => True
  end.

End LaunchCoordinatorRuns.

(** ** Measures used in the statements *)

Module Measures.

(** The amount each flag of the risk analyzer stands for, and the place of
    its check in the [try] block. *)
Definition analyzer_penalty (f : RiskAnalyzerAgent.Flag) : Q :=
  match f with
  | RiskAnalyzerAgent.NoLiquidityLock => 2.0
  | RiskAnalyzerAgent.AnonymousTeam => 1.5
  | RiskAnalyzerAgent.NoVestingSchedule => 1.0
  | RiskAnalyzerAgent.ContractNotVerified => 1.0
  | RiskAnalyzerAgent.HighHolderConcentration _ => 2.0
  | RiskAnalyzerAgent.RapidGraduation => 1.5
  | RiskAnalyzerAgent.UnableToCompleteAnalysis => 0
  end%Q.

Definition analyzer_rank (f : RiskAnalyzerAgent.Flag) : nat :=
  match f with
  | RiskAnalyzerAgent.NoLiquidityLock => 1
  | RiskAnalyzerAgent.AnonymousTeam => 2
  | RiskAnalyzerAgent.NoVestingSchedule => 3
  | RiskAnalyzerAgent.ContractNotVerified => 4
  | RiskAnalyzerAgent.HighHolderConcentration _ => 5
  | RiskAnalyzerAgent.RapidGraduation => 6
  | RiskAnalyzerAgent.UnableToCompleteAnalysis => 0
  end.

(** The same for the flags of [RiskScoringModel.predict]; the two flags of
    one [if/elif] share a place. *)
Definition model_penalty (f : RiskScoringModel.Flag) : Q :=
  match f with
  | RiskScoringModel.NoLiquidityLock => 2.5
  | RiskScoringModel.ShortLockDuration _ => 1.5
  | RiskScoringModel.AnonymousTeam => 1.5
  | RiskScoringModel.ContractNotVerified => 1.0
  | RiskScoringModel.NoVestingSchedule => 1.0
  | RiskScoringModel.HighHolderConcentration _ => 2.0
  | RiskScoringModel.ModerateHolderConcentration _ => 1.0
  | RiskScoringModel.RapidGraduation => 1.5
  end%Q.

Definition model_rank (f : RiskScoringModel.Flag) : nat :=
  match f with
  | RiskScoringModel.NoLiquidityLock => 1
  | RiskScoringModel.ShortLockDuration _ => 1
  | RiskScoringModel.AnonymousTeam => 2
  | RiskScoringModel.ContractNotVerified => 3
  | RiskScoringModel.NoVestingSchedule => 4
  | RiskScoringModel.HighHolderConcentration _ => 5
  | RiskScoringModel.ModerateHolderConcentration _ => 5
  | RiskScoringModel.RapidGraduation => 6
  end.

Definition total {F : Type} (penalty : F -> Q) (flags : list F) : Q :=
  fold_right (fun f acc => (penalty f + acc)%Q) 0%Q flags.

(** The places go up strictly along a list of flags: the flags are in the
    order of the checks, and no place occurs twice. *)
Fixpoint ascending (bound : nat) (ranks : list nat) : Prop :=
  match ranks with
  | [] => True
  | r :: rest => (bound < r)%nat /\ ascending r rest
  end.

(** The running pair of a scorer accounts for its flags: the score is the
    base less the amounts of the flags, the flags are in the order of the
    checks, and none is of a check after [bound]. *)
Definition accounted {F : Type} (penalty : F -> Q) (rank : F -> nat)
    (bound : nat) (acc : Q * list F) : Prop :=
  (acc.1 == 7.5 - total penalty acc.2)%Q /\
  ascending 0 (map rank acc.2) /\
  Forall (fun f => (rank f <= bound)%nat) acc.2.

Definition is_risk_alert (e : RiskAnalyzerAgent.Event) : bool :=
  match e with RiskAnalyzerAgent.RiskAlert _ _ => true | _ => false end.

Definition is_to_solana (e : LiquidityOptimizerAgent.Event) : bool :=
  match e with LiquidityOptimizerAgent.ToSolana _ _ => true | _ => false end.

(** An alert about a risk analysis tells of a HIGH level. *)
Definition alert_is_high (e : RiskAnalyzerAgent.Event) : Prop :=
  match e with
  | RiskAnalyzerAgent.RiskAlert _ r => RiskAnalyzerAgent.risk_level r = "HIGH"
  | _ => True
  end.

(** A price history of at least five prices whose first recent price is
    zero and whose last recent price is a number that converts to a float. *)
Definition zero_first_price (price_history : pyval) : Prop :=
  exists l x y q y',
    price_history = PList l /\
    (5 <= length l)%nat /\
    RiskAnalyzerAgent.first_and_last price_history = Ok (x, y) /\
    as_num x = Some (Fin q) /\ (q == 0)%Q /\
    as_num y = Some y' /\ to_float y' = Ok y'.

(** The rug-pull detection returns for the data of a token: there is no
    price history, or the detection on it returns whatever the state and
    the oracle are. *)
Definition detection_returns (on_chain_data : dict) (token_address : string) : Prop :=
  match on_chain_data !! "price_history" with
  | None => True
  | Some price_history =>
      forall s run,
        returns (RiskAnalyzerAgent.detect_rug_pull_pattern s run token_address
                   price_history) = true
  end.

End Measures.

(** ** More concrete inputs *)

Module MoreExamples.

Definition risk_start : RiskAnalyzerAgent.World := {|
  RiskAnalyzerAgent.st := RiskAnalyzerAgent.agent_state;
  RiskAnalyzerAgent.trace := [];
  RiskAnalyzerAgent.calls := 0
|}.

(** A message without its ["token_address"]: [msg.get] returns [None]. *)
Definition monitor_without_address : RiskAnalyzerAgent.Msg :=
  RiskAnalyzerAgent.MonitorToken
    (RiskAnalyzerAgent.Hashable (RiskAnalyzerAgent.Scalar 0)) PNone.

(** The risk analyzer after three requests to monitor: for ["TokenA"], for
    no address, and for ["TokenB"]. *)
Definition risk_missing_address : RiskAnalyzerAgent.World :=
  (RiskAnalyzerAgent.handle_messages 2 (fun _ => Examples.oracle_ok) "user"
     (Examples.monitor_token "TokenB")
     (RiskAnalyzerAgent.handle_messages 1 (fun _ => Examples.oracle_ok) "user"
        monitor_without_address
        (RiskAnalyzerAgent.handle_messages 0 (fun _ => Examples.oracle_ok) "user"
           (Examples.monitor_token "TokenA") risk_start).1).1).1.

(** A token whose lock duration is the [int] [10 ** 400]. *)
Definition huge_lock_token : dict :=
  <["liquidity_lock_duration" := PNum (Fin (inject_Z (10 ^ 400)))]> ∅.

(** The risk analyzer with three tokens under monitoring. *)
Definition risk_three_tokens : RiskAnalyzerAgent.World :=
  (RiskAnalyzerAgent.handle_messages 2 (fun _ => Examples.oracle_ok) "user"
     (Examples.monitor_token "TokenC") Examples.risk_two_tokens).1.

(** Five prices that start at zero. *)
Definition prices_from_zero : pyval :=
  PList [PNum (Fin 0%Q); PNum (Fin 1%Q); PNum (Fin 2%Q); PNum (Fin 3%Q);
         PNum (Fin 4%Q)].

(** On-chain data without a price history, but for ["TokenB"], whose price
    history starts at zero. *)
Definition fetch_zero_price (token_address : RiskAnalyzerAgent.Key) : dict :=
  if RiskAnalyzerAgent.Key_eqb token_address (RiskAnalyzerAgent.Text "TokenB")
  then <["price_history" := prices_from_zero]> Examples.risky_token
  else Examples.risky_token.

(** A position with unclaimed fees. *)
Definition position_with_fees (fees : Q) : LiquidityOptimizerAgent.DAMMPosition := {|
  LiquidityOptimizerAgent.position_id := "p1";
  LiquidityOptimizerAgent.pool_address := PStr "pool";
  LiquidityOptimizerAgent.token_a := PStr "SOL";
  LiquidityOptimizerAgent.token_b := PStr "USDC";
  LiquidityOptimizerAgent.current_range := (0.9%Q, 1.1%Q);
  LiquidityOptimizerAgent.liquidity_amount := 1000%Q;
  LiquidityOptimizerAgent.unclaimed_fees := fees;
  LiquidityOptimizerAgent.apr := 10%Q;
  LiquidityOptimizerAgent.impermanent_loss := 0%Q;
  LiquidityOptimizerAgent.last_rebalance := None
|}.

Definition chat_items : list LaunchCoordinatorAgent.Content :=
  [LaunchCoordinatorAgent.TextContent "What is the status?";
   LaunchCoordinatorAgent.TextContent "Launch a token";
   LaunchCoordinatorAgent.TextContent "risk analysis please"].

End MoreExamples.

(** * Properties *)

(** ** Comparisons, [max] and [min] *)

Lemma Qltb_lt a b : Qltb a b = true <-> (a < b)%Q.
Proof.
  unfold Qltb. rewrite negb_true_iff, <- not_true_iff_false, Qle_bool_iff.
  split; [apply Qnot_le_lt | apply Qlt_not_le].
Qed.

Lemma Qltb_ge a b : Qltb a b = false <-> (b <= a)%Q.
Proof.
  unfold Qltb. rewrite negb_false_iff. apply Qle_bool_iff.
Qed.

Lemma py_max_ge a b : (a <= py_max a b)%Q.
Proof.
  unfold py_max. destruct (Qltb a b) eqn:E.
  - apply Qltb_lt in E. lra.
  - lra.
Qed.

Lemma py_max_le a b c : (a <= c)%Q -> (b <= c)%Q -> (py_max a b <= c)%Q.
Proof. unfold py_max. destruct (Qltb a b); auto. Qed.

Lemma py_min_le a b : (py_min a b <= a)%Q.
Proof.
  unfold py_min. destruct (Qltb b a) eqn:E.
  - apply Qltb_lt in E. lra.
  - lra.
Qed.

Lemma py_min_ge a b c : (c <= a)%Q -> (c <= b)%Q -> (c <= py_min a b)%Q.
Proof. unfold py_min. destruct (Qltb b a); auto. Qed.

Lemma bind_Ok {A B} (m : res A) (f : A -> res B) (b : B) :
  m ≫= f = Ok b -> exists a, m = Ok a /\ f a = Ok b.
Proof. destruct m as [a|e]; simpl; [eauto | discriminate]. Qed.

Lemma bind_Raise {A B} (m : res A) (f : A -> res B) (e : exn) :
  m = Raise e -> m ≫= f = Raise e.
Proof. intros ->. reflexivity. Qed.

Lemma bind_Ok_l {A B} (a : A) (f : A -> res B) : Ok a ≫= f = f a.
Proof. reflexivity. Qed.

(** Cases on the condition of the first [if] of the goal. *)
Ltac case_if :=
  match goal with
  | |- context [if ?c then _ else _] => destruct c eqn:?
  end.

(** Splits a hypothesis [m ≫= f = Ok b] into the two steps. *)
Ltac bind_inv H :=
  let a := fresh "a" in
  let Ha := fresh "Ha" in
  apply bind_Ok in H; destruct H as (a & Ha & H).

Lemma py_max_0_nonneg s : (0 <= py_max 0 s)%Q.
Proof. apply py_max_ge. Qed.

(** A level by bands does not see the clamping at 0 when the bands are
    positive. *)
Lemma bands_py_max_0 high medium s :
  (0 < high)%Q -> (0 < medium)%Q ->
  Spec.bands high medium (py_max 0 s) = Spec.bands high medium s.
Proof.
  intros Hh Hm. unfold py_max. destruct (Qltb 0 s) eqn:E; [reflexivity|].
  apply Qltb_ge in E. unfold Spec.bands.
  assert (H1 : Qltb 0 high = true) by (apply Qltb_lt; lra).
  assert (H2 : Qltb s high = true) by (apply Qltb_lt; lra).
  now rewrite H1, H2.
Qed.

(** The numbers of everyday size convert to a float. *)
Lemma float_limit_large : (1000000000 < float_limit)%Q.
Proof. vm_compute. reflexivity. Qed.

Lemma too_large_false q : too_large q = false <-> (Qabs q < float_limit)%Q.
Proof.
  unfold too_large. split.
  - intros H. apply Qnot_le_lt. intros Hle.
    apply Qle_bool_iff in Hle. congruence.
  - intros H. destruct (Qle_bool float_limit (Qabs q)) eqn:E; [|reflexivity].
    apply Qle_bool_iff in E. exfalso. revert H. apply Qle_not_lt. exact E.
Qed.

Lemma too_large_true q : too_large q = true <-> (float_limit <= Qabs q)%Q.
Proof. unfold too_large. apply Qle_bool_iff. Qed.

Lemma small_converts q b :
  (- b <= q <= b)%Q -> (b <= 1000000000)%Q -> too_large q = false.
Proof.
  intros Hq Hb. apply too_large_false.
  apply Qle_lt_trans with b; [apply Qabs_Qle_condition; exact Hq|].
  apply Qle_lt_trans with 1000000000%Q; [exact Hb | apply float_limit_large].
Qed.

Lemma to_float_Ok x y : to_float x = Ok y -> y = x.
Proof.
  destruct x as [q| | |]; simpl; try (now intros [= <-]).
  destruct (too_large q); [discriminate | now intros [= <-]].
Qed.

Lemma to_float_raises x e : to_float x = Raise e -> e = OverflowError.
Proof.
  destruct x as [q| | |]; simpl; try discriminate.
  destruct (too_large q); [now intros [= <-] | discriminate].
Qed.

(** ** RiskAnalyzerAgent: the score *)

Section RiskAnalyzerScore.
Import RiskAnalyzerAgent.

Lemma deduct_fst amount f acc : (deduct amount f acc).1 = (acc.1 - amount)%Q.
Proof. reflexivity. Qed.

Lemma check_liquidity_lock_le d acc acc' :
  check_liquidity_lock d acc = Ok acc' -> (acc'.1 <= acc.1)%Q.
Proof.
  unfold check_liquidity_lock. intros H. bind_inv H.
  injection H as <-. destruct a; simpl; lra.
Qed.

Lemma check_team_verification_le d acc acc' :
  check_team_verification d acc = Ok acc' -> (acc'.1 <= acc.1)%Q.
Proof.
  unfold check_team_verification. intros H. injection H as <-.
  destruct (negb _); simpl; lra.
Qed.

Lemma check_vesting_le d acc acc' :
  check_vesting d acc = Ok acc' -> (acc'.1 <= acc.1)%Q.
Proof.
  unfold check_vesting. intros H. injection H as <-.
  destruct (negb _); simpl; lra.
Qed.

Lemma check_contract_verification_le d acc acc' :
  check_contract_verification d acc = Ok acc' -> (acc'.1 <= acc.1)%Q.
Proof.
  unfold check_contract_verification. intros H. injection H as <-.
  destruct (negb _); simpl; lra.
Qed.

(** The two ways the check of the holder concentration returns. *)
Lemma check_holder_concentration_Ok th d acc acc' :
  check_holder_concentration th d acc = Ok acc' ->
  exists x,
    num (get d "top_holder_percentage" (PNum (Fin 0%Q))) = Ok x /\
    ((num_ltb (Fin (holder_concentration th)) x = true /\
      to_float x = Ok x /\
      acc' = deduct 2.0%Q (HighHolderConcentration x) acc) \/
     (num_ltb (Fin (holder_concentration th)) x = false /\ acc' = acc)).
Proof.
  unfold check_holder_concentration. intros H. bind_inv H.
  exists a. split; [exact Ha|].
  destruct (num_ltb _ a) eqn:E.
  - bind_inv H. injection H as <-. left. repeat split.
    destruct a as [q| | |]; simpl in Ha0 |- *; try reflexivity.
    destruct (too_large q); [discriminate|reflexivity].
  - injection H as <-. right. auto.
Qed.

Lemma check_holder_concentration_le th d acc acc' :
  check_holder_concentration th d acc = Ok acc' -> (acc'.1 <= acc.1)%Q.
Proof.
  intros H. apply check_holder_concentration_Ok in H.
  destruct H as (x & _ & [(_ & _ & ->) | (_ & ->)]); simpl; lra.
Qed.

Lemma check_rapid_graduation_le d acc acc' :
  check_rapid_graduation d acc = Ok acc' -> (acc'.1 <= acc.1)%Q.
Proof.
  unfold check_rapid_graduation. intros H. bind_inv H.
  injection H as <-. destruct a; simpl; lra.
Qed.

(** The deductions only lower the base score. *)
Lemma score_and_flags_le th d acc :
  score_and_flags th d = Ok acc -> (acc.1 <= 7.5)%Q.
Proof.
  unfold score_and_flags. intros H.
  bind_inv H. bind_inv H. bind_inv H. bind_inv H. bind_inv H.
  apply check_liquidity_lock_le in Ha.
  apply check_team_verification_le in Ha0.
  apply check_vesting_le in Ha1.
  apply check_contract_verification_le in Ha2.
  apply check_holder_concentration_le in Ha3.
  apply check_rapid_graduation_le in H.
  simpl in Ha. lra.
Qed.

(** What the [try] block returns, in terms of the unclamped score. *)
Lemma analyze_token_risk_try_Ok st run addr d r :
  analyze_token_risk_try st run addr d = Ok r ->
  exists acc,
    score_and_flags (alert_thresholds st) d = Ok acc /\
    risk_score r = py_max 0 acc.1 /\
    risk_level r = risk_level_of acc.1 /\
    red_flags r = acc.2 /\
    confidence r = (data_completeness d * 0.9 + 0.1)%Q.
Proof.
  unfold analyze_token_risk_try. intros H. bind_inv H. bind_inv H.
  injection H as <-. exists a0. simpl. auto.
Qed.

Lemma analyze_cases st run addr d :
  analyze_token_risk_with_metta st run addr d = analysis_fallback \/
  exists r, analyze_token_risk_try st run addr d = Ok r /\
            analyze_token_risk_with_metta st run addr d = r.
Proof.
  unfold analyze_token_risk_with_metta.
  destruct (analyze_token_risk_try st run addr d) as [r|e]; eauto.
Qed.

Lemma analyze_score_range st run addr d :
  (0 <= risk_score (analyze_token_risk_with_metta st run addr d) <= 10)%Q.
Proof.
  destruct (analyze_cases st run addr d) as [-> | (r & Hr & ->)].
  - simpl. lra.
  - apply analyze_token_risk_try_Ok in Hr.
    destruct Hr as (acc & Hacc & -> & _).
    apply score_and_flags_le in Hacc. split.
    + apply py_max_0_nonneg.
    + apply py_max_le; lra.
Qed.

Lemma analyze_level_by_bands st run addr d :
  risk_level (analyze_token_risk_with_metta st run addr d) =
  Spec.bands 5 7 (risk_score (analyze_token_risk_with_metta st run addr d)).
Proof.
  destruct (analyze_cases st run addr d) as [-> | (r & Hr & ->)].
  - reflexivity.
  - apply analyze_token_risk_try_Ok in Hr.
    destruct Hr as (acc & _ & -> & -> & _).
    rewrite bands_py_max_0 by lra. reflexivity.
Qed.

End RiskAnalyzerScore.

(** ** RiskScoringModel: the score *)

Section RiskScoringModelScore.
Import RiskScoringModel.

Lemma predict_Ok now d p :
  predict now d = Ok p ->
  exists acc,
    score_and_flags d = Ok acc /\
    risk_score p = py_max 0 (py_min 10 acc.1) /\
    risk_level p = risk_level_of (risk_score p).
Proof.
  unfold predict. intros H. bind_inv H. bind_inv H.
  injection H as <-. exists a0. simpl. auto.
Qed.

Lemma predict_score_range now d p :
  predict now d = Ok p -> (0 <= risk_score p <= 10)%Q.
Proof.
  intros H. apply predict_Ok in H. destruct H as (acc & _ & -> & _). split.
  - apply py_max_0_nonneg.
  - apply py_max_le; [lra | apply py_min_le].
Qed.

Lemma predict_level_by_bands now d p :
  predict now d = Ok p -> risk_level p = Spec.bands 4 7 (risk_score p).
Proof.
  intros H. apply predict_Ok in H. destruct H as (acc & _ & _ & ->).
  reflexivity.
Qed.

(** A numeric field that holds a number, or is absent, reads as one. *)
Lemma numeric_field_num d k dflt :
  numeric_or_absent d -> In k numeric_fields ->
  exists x, num (get d k (PNum dflt)) = Ok x.
Proof.
  intros Hd Hk. unfold numeric_or_absent in Hd.
  rewrite List.Forall_forall in Hd. specialize (Hd k Hk).
  unfold get, num. destruct (d !! k) as [v|]; simpl.
  - destruct Hd as [x ->]. eauto.
  - eauto.
Qed.

(** The three ways the check of the holder concentration returns. *)
Lemma model_check_holder_concentration_Ok d acc acc' :
  check_holder_concentration d acc = Ok acc' ->
  exists x,
    num (get d "top_holder_percentage" (PNum (Fin 0%Q))) = Ok x /\
    ((num_ltb (Fin 30) x = true /\ to_float x = Ok x /\
      acc' = deduct 2.0%Q (HighHolderConcentration x) acc) \/
     (num_ltb (Fin 30) x = false /\ num_ltb (Fin 20) x = true /\
      to_float x = Ok x /\
      acc' = deduct 1.0%Q (ModerateHolderConcentration x) acc) \/
     (num_ltb (Fin 30) x = false /\ num_ltb (Fin 20) x = false /\ acc' = acc)).
Proof.
  unfold check_holder_concentration. intros H. bind_inv H.
  exists a. split; [exact Ha|].
  destruct (num_ltb (Fin 30) a) eqn:E1; [|destruct (num_ltb (Fin 20) a) eqn:E2].
  - bind_inv H. injection H as <-. left.
    rewrite Ha0, (to_float_Ok _ _ Ha0). auto.
  - bind_inv H. injection H as <-. right. left.
    rewrite Ha0, (to_float_Ok _ _ Ha0). auto.
  - injection H as <-. right. right. auto.
Qed.

End RiskScoringModelScore.

(** ** Risk score and risk level (C1, C2, C5) *)

(** C1, as the code has it: in both scorers the risk level is a function of
    the returned score by fixed bands.  [RiskScoringModel.predict] uses the
    bands below 4 HIGH, below 7 MEDIUM, else LOW;
    [analyze_token_risk_with_metta] uses below 5 HIGH, below 7 MEDIUM, else
    LOW, and its fallback result (5.0, MEDIUM) lies in the same bands. *)
Theorem C1_risk_level_by_bands :
  (forall st run addr d,
     let r := RiskAnalyzerAgent.analyze_token_risk_with_metta st run addr d in
     RiskAnalyzerAgent.risk_level r =
     Spec.bands 5 7 (RiskAnalyzerAgent.risk_score r)) /\
  (forall now d p,
     RiskScoringModel.predict now d = Ok p ->
     RiskScoringModel.risk_level p =
     Spec.bands 4 7 (RiskScoringModel.risk_score p)).
Proof.
  split.
  - intros st run addr d. apply analyze_level_by_bands.
  - intros now d p. apply predict_level_by_bands.
Qed.

Lemma C1_risk_level_by_bands_witness :
  exists p,
    RiskScoringModel.predict 0 Examples.model_example_token = Ok p /\
    RiskScoringModel.risk_level p =
    Spec.bands 4 7 (RiskScoringModel.risk_score p).
Proof.
  eexists. split.
  - reflexivity.
  - apply (proj2 C1_risk_level_by_bands 0%Z Examples.model_example_token).
    reflexivity.
Defined.

(** C1 as stated fails for the agent: a score of 4.5 is reported HIGH,
    where the bands of the claim give MEDIUM. *)
Lemma C1_counterexample :
  let r := RiskAnalyzerAgent.analyze_token_risk_with_metta
             RiskAnalyzerAgent.agent_state Examples.oracle_ok
             "TokenAddress123" Examples.rapid_anonymous_token in
  (RiskAnalyzerAgent.risk_score r == 4.5)%Q /\
  RiskAnalyzerAgent.risk_level r = "HIGH" /\
  Spec.band_level (RiskAnalyzerAgent.risk_score r) = "MEDIUM".
Proof. vm_compute. repeat split. Qed.

(** C5: the risk score both scorers return lies in [0, 10], whatever the
    fields of the input hold. *)
Theorem C5_risk_score_in_range :
  (forall st run addr d,
     (0 <= RiskAnalyzerAgent.risk_score
             (RiskAnalyzerAgent.analyze_token_risk_with_metta st run addr d)
        <= 10)%Q) /\
  (forall now d p,
     RiskScoringModel.predict now d = Ok p ->
     (0 <= RiskScoringModel.risk_score p <= 10)%Q).
Proof.
  split.
  - intros st run addr d. apply analyze_score_range.
  - intros now d p. apply predict_score_range.
Qed.

Lemma C5_risk_score_in_range_witness :
  exists p,
    RiskScoringModel.predict 0 Examples.model_example_token = Ok p /\
    (0 <= RiskScoringModel.risk_score p <= 10)%Q.
Proof.
  eexists. split.
  - reflexivity.
  - apply (proj2 C5_risk_score_in_range 0%Z Examples.model_example_token).
    reflexivity.
Defined.

(** The scorers on extreme and on ill-typed fields. *)
Example agent_on_extreme_fields :
  let r := RiskAnalyzerAgent.analyze_token_risk_with_metta
             RiskAnalyzerAgent.agent_state Examples.oracle_ok
             "TokenAddress123" Examples.extreme_token in
  (RiskAnalyzerAgent.risk_score r == 0.5)%Q /\
  RiskAnalyzerAgent.risk_level r = "HIGH".
Proof. vm_compute. repeat split. Qed.

Example agent_on_ill_typed_field :
  RiskAnalyzerAgent.analyze_token_risk_with_metta
    RiskAnalyzerAgent.agent_state Examples.oracle_ok
    "TokenAddress123" Examples.ill_typed_token =
  RiskAnalyzerAgent.analysis_fallback.
Proof. reflexivity. Qed.

Example predict_on_extreme_fields :
  exists p,
    RiskScoringModel.predict 0 Examples.extreme_token = Ok p /\
    (RiskScoringModel.risk_score p == 0)%Q /\
    RiskScoringModel.risk_level p = "HIGH".
Proof. eexists. split; [reflexivity|]. vm_compute. repeat split. Qed.

Example predict_on_ill_typed_field :
  RiskScoringModel.predict 0 Examples.ill_typed_token = Raise TypeError.
Proof. reflexivity. Qed.

Section HighRiskScenario.
Import RiskAnalyzerAgent.

Lemma get_reads_number d k c dflt :
  Spec.reads_number d k c ->
  exists q, get d k dflt = PNum (Fin q) /\ (q == c)%Q.
Proof.
  intros (q & Hq & Hc). exists q. unfold get. rewrite Hq. auto.
Qed.

(** What each check does in the scenario, whatever the running pair is. *)
Lemma high_risk_scenario_checks st d :
  (holder_concentration (alert_thresholds st) == 30)%Q ->
  Spec.high_risk_scenario d ->
  exists pct,
    get d "top_holder_percentage" (PNum (Fin 0)) = PNum pct /\
    forall acc,
      check_liquidity_lock d acc = Ok (deduct 2.0 NoLiquidityLock acc) /\
      check_team_verification d acc = Ok (deduct 1.5 AnonymousTeam acc) /\
      check_vesting d acc = Ok (deduct 1.0 NoVestingSchedule acc) /\
      check_contract_verification d acc = Ok (deduct 1.0 ContractNotVerified acc) /\
      check_holder_concentration (alert_thresholds st) d acc =
        Ok (deduct 2.0 (HighHolderConcentration pct) acc) /\
      check_rapid_graduation d acc = Ok acc.
Proof.
  intros Hth (Hlock & Hteam & Hvest & Hcontract & Htop & Hgrad).
  destruct (get_reads_number _ _ _ (PNum (Fin 0)) Hlock) as (q1 & E1 & Hq1).
  destruct (get_reads_number _ _ _ (PNum (Fin 0)) Htop) as (q2 & E2 & Hq2).
  assert (L1 : Qltb q1 30 = true) by (apply Qltb_lt; lra).
  assert (L2 : Qltb (holder_concentration (alert_thresholds st)) q2 = true)
    by (apply Qltb_lt; lra).
  assert (L3 : py_lt (get d "graduation_time_hours" (PNum (Fin 1000))) 24 = Ok false).
  { unfold get. destruct Hgrad as [-> | (g & -> & Hg)].
    - reflexivity.
    - unfold py_lt. simpl. f_equal. apply Qltb_ge. exact Hg. }
  assert (L4 : too_large q2 = false) by (apply (small_converts q2 35); lra).
  exists (Fin q2). split; [exact E2|]. intros acc.
  unfold check_liquidity_lock, check_team_verification,
    check_vesting, check_contract_verification, check_holder_concentration,
    check_rapid_graduation.
  unfold Spec.not_set in Hteam, Hvest, Hcontract.
  rewrite E1, E2, Hteam, Hvest, Hcontract, L3. simpl.
  rewrite L1, L2. simpl. rewrite L4. repeat split; reflexivity.
Qed.

(** The five deductions of the scenario, in the order they are applied. *)
Lemma high_risk_scenario_deductions st d pct :
  (forall acc,
      check_liquidity_lock d acc = Ok (deduct 2.0 NoLiquidityLock acc) /\
      check_team_verification d acc = Ok (deduct 1.5 AnonymousTeam acc) /\
      check_vesting d acc = Ok (deduct 1.0 NoVestingSchedule acc) /\
      check_contract_verification d acc = Ok (deduct 1.0 ContractNotVerified acc) /\
      check_holder_concentration (alert_thresholds st) d acc =
        Ok (deduct 2.0 (HighHolderConcentration pct) acc) /\
      check_rapid_graduation d acc = Ok acc) ->
  score_and_flags (alert_thresholds st) d =
  Ok ((7.5 - 2.0 - 1.5 - 1.0 - 1.0 - 2.0)%Q,
      [NoLiquidityLock; AnonymousTeam; NoVestingSchedule;
       ContractNotVerified; HighHolderConcentration pct]).
Proof.
  intros H. unfold score_and_flags.
  rewrite (proj1 (H _)), bind_Ok_l.
  rewrite (proj1 (proj2 (H _))), bind_Ok_l.
  rewrite (proj1 (proj2 (proj2 (H _)))), bind_Ok_l.
  rewrite (proj1 (proj2 (proj2 (proj2 (H _))))), bind_Ok_l.
  rewrite (proj1 (proj2 (proj2 (proj2 (proj2 (H _)))))), bind_Ok_l.
  rewrite (proj2 (proj2 (proj2 (proj2 (proj2 (H _)))))). reflexivity.
Qed.

End HighRiskScenario.

(** C2, as the code has it.  In the high-risk scenario, with the threshold
    of the holder concentration at the 30.0 the module sets, every check
    does what the claim says to the running score and flags: 2.0 off for the
    lock, 1.5 for the team, 1.0 for the vesting, 1.0 for the contract, 2.0
    for the holder concentration, each with its flag, and nothing for the
    graduation time.  When the oracle call returns, the result carries
    exactly these five flags in this order, the score 7.5 less the five
    amounts clamped at 0, which is 0, the level HIGH, the fraud probability
    1 and the recommendation of the lowest band.  When the oracle call
    raises, none of this is computed and the result is the fallback
    result. *)
Theorem C2_high_risk_scenario st run addr d :
  (RiskAnalyzerAgent.holder_concentration (RiskAnalyzerAgent.alert_thresholds st)
   == 30)%Q ->
  Spec.high_risk_scenario d ->
  let r := RiskAnalyzerAgent.analyze_token_risk_with_metta st run addr d in
  exists pct,
    get d "top_holder_percentage" (PNum (Fin 0)) = PNum pct /\
    (forall acc,
       RiskAnalyzerAgent.check_liquidity_lock d acc =
         Ok (RiskAnalyzerAgent.deduct 2.0 RiskAnalyzerAgent.NoLiquidityLock acc) /\
       RiskAnalyzerAgent.check_team_verification d acc =
         Ok (RiskAnalyzerAgent.deduct 1.5 RiskAnalyzerAgent.AnonymousTeam acc) /\
       RiskAnalyzerAgent.check_vesting d acc =
         Ok (RiskAnalyzerAgent.deduct 1.0 RiskAnalyzerAgent.NoVestingSchedule acc) /\
       RiskAnalyzerAgent.check_contract_verification d acc =
         Ok (RiskAnalyzerAgent.deduct 1.0 RiskAnalyzerAgent.ContractNotVerified acc) /\
       RiskAnalyzerAgent.check_holder_concentration
         (RiskAnalyzerAgent.alert_thresholds st) d acc =
         Ok (RiskAnalyzerAgent.deduct 2.0
               (RiskAnalyzerAgent.HighHolderConcentration pct) acc) /\
       RiskAnalyzerAgent.check_rapid_graduation d acc = Ok acc) /\
    (returns (run (RiskAnalyzerAgent.risk_query d)) = true ->
     RiskAnalyzerAgent.red_flags r =
       [RiskAnalyzerAgent.NoLiquidityLock; RiskAnalyzerAgent.AnonymousTeam;
        RiskAnalyzerAgent.NoVestingSchedule; RiskAnalyzerAgent.ContractNotVerified;
        RiskAnalyzerAgent.HighHolderConcentration pct] /\
     RiskAnalyzerAgent.risk_score r =
       py_max 0 (7.5 - 2.0 - 1.5 - 1.0 - 1.0 - 2.0) /\
     RiskAnalyzerAgent.risk_score r = 0%Q /\
     RiskAnalyzerAgent.risk_level r = "HIGH" /\
     (RiskAnalyzerAgent.fraud_probability r == 1)%Q /\
     RiskAnalyzerAgent.recommendation r =
       "HIGH RISK - Do not invest. Multiple fraud indicators detected.") /\
    (returns (run (RiskAnalyzerAgent.risk_query d)) = false ->
     r = RiskAnalyzerAgent.analysis_fallback).
Proof.
  intros Hth Hd r.
  destruct (high_risk_scenario_checks st d Hth Hd) as (pct & Hget & Hchecks).
  pose proof (high_risk_scenario_deductions st d pct Hchecks) as Hs.
  exists pct. split; [exact Hget|]. split; [exact Hchecks|]. split.
  - intros Hrun. subst r.
    unfold RiskAnalyzerAgent.analyze_token_risk_with_metta,
      RiskAnalyzerAgent.analyze_token_risk_try.
    destruct (run (RiskAnalyzerAgent.risk_query d)); [|discriminate].
    simpl. rewrite Hs. simpl.
    split; [reflexivity|]. split; [reflexivity|]. split; [reflexivity|].
    split; [reflexivity|]. split; reflexivity.
  - intros Hrun. subst r.
    unfold RiskAnalyzerAgent.analyze_token_risk_with_metta,
      RiskAnalyzerAgent.analyze_token_risk_try.
    destruct (run (RiskAnalyzerAgent.risk_query d)); [discriminate|reflexivity].
Qed.

Lemma C2_high_risk_scenario_witness :
  let r := RiskAnalyzerAgent.analyze_token_risk_with_metta
             RiskAnalyzerAgent.agent_state Examples.oracle_ok
             "TokenAddress123" Examples.risky_token in
  RiskAnalyzerAgent.red_flags r =
    [RiskAnalyzerAgent.NoLiquidityLock; RiskAnalyzerAgent.AnonymousTeam;
     RiskAnalyzerAgent.NoVestingSchedule; RiskAnalyzerAgent.ContractNotVerified;
     RiskAnalyzerAgent.HighHolderConcentration (Fin 35)] /\
  RiskAnalyzerAgent.risk_score r = 0%Q /\
  RiskAnalyzerAgent.risk_level r = "HIGH".
Proof.
  destruct (C2_high_risk_scenario RiskAnalyzerAgent.agent_state Examples.oracle_ok
              "TokenAddress123" Examples.risky_token)
    as (pct & Hget & _ & Hok & _).
  - reflexivity.
  - unfold Spec.high_risk_scenario, Spec.reads_number, Spec.not_set.
    repeat split.
    + exists 10%Q. split; reflexivity.
    + exists 35%Q. split; reflexivity.
    + left. reflexivity.
  - injection Hget as <-.
    destruct (Hok eq_refl) as (Hflags & _ & Hscore & Hlevel & _).
    split; [exact Hflags|]. split; [exact Hscore | exact Hlevel].
Defined.

(** C2 as stated fails when the oracle call raises: the scenario then gets
    the fallback result, score 5.0 and level MEDIUM, and no deduction. *)
Lemma C2_counterexample :
  Spec.high_risk_scenario Examples.risky_token /\
  let r := RiskAnalyzerAgent.analyze_token_risk_with_metta
             RiskAnalyzerAgent.agent_state Examples.oracle_down
             "TokenAddress123" Examples.risky_token in
  RiskAnalyzerAgent.risk_score r = 5.0%Q /\
  RiskAnalyzerAgent.risk_level r = "MEDIUM" /\
  RiskAnalyzerAgent.red_flags r = [RiskAnalyzerAgent.UnableToCompleteAnalysis].
Proof.
  split.
  - unfold Spec.high_risk_scenario, Spec.reads_number, Spec.not_set.
    repeat split.
    + exists 10%Q. split; reflexivity.
    + exists 35%Q. split; reflexivity.
    + left. reflexivity.
  - repeat split.
Qed.

(** ** Oracle failure (C3, C6) *)

Section OracleFailure.
Import RiskAnalyzerAgent.

Lemma analyze_oracle_raises st run addr d :
  returns (run (risk_query d)) = false ->
  analyze_token_risk_with_metta st run addr d = analysis_fallback.
Proof.
  intros H. unfold analyze_token_risk_with_metta, analyze_token_risk_try.
  destruct (run (risk_query d)); [discriminate | reflexivity].
Qed.

Lemma present_count_le d : (present_count d <= 5)%nat.
Proof.
  unfold present_count.
  etransitivity; [apply List.filter_length_le | reflexivity].
Qed.

(** The confidence of a completed analysis, by the number of fields present. *)
Lemma confidence_by_count d :
  (data_completeness d * 0.9 + 0.1 ==
   (9 * inject_Z (Z.of_nat (present_count d)) + 5) / 50)%Q.
Proof. unfold data_completeness. field. Qed.

Lemma fallback_confidence_lower_iff d :
  (confidence analysis_fallback < data_completeness d * 0.9 + 0.1)%Q <->
  (3 <= present_count d)%nat.
Proof.
  rewrite confidence_by_count. simpl confidence.
  pose proof (present_count_le d) as Hle.
  generalize dependent (present_count d). intros n Hle.
  assert (Hn : (n = 0 \/ n = 1 \/ n = 2 \/ n = 3 \/ n = 4 \/ n = 5)%nat) by lia.
  destruct Hn as [-> | [-> | [-> | [-> | [-> | ->]]]]];
    (split; intros H; [try lia; exfalso; vm_compute in H; discriminate
                      | try lia; vm_compute; reflexivity]).
Qed.

(** No deduction appends the flag of the fallback branch. *)
Ltac keeps_flags :=
  intros H Hin;
  repeat bind_inv H;
  injection H as <-;
  revert Hin; case_if; simpl; auto;
  rewrite in_app_iff; simpl; intuition discriminate.

Lemma check_liquidity_lock_flags d acc acc' :
  check_liquidity_lock d acc = Ok acc' ->
  In UnableToCompleteAnalysis acc'.2 -> In UnableToCompleteAnalysis acc.2.
Proof. unfold check_liquidity_lock. keeps_flags. Qed.

Lemma check_team_verification_flags d acc acc' :
  check_team_verification d acc = Ok acc' ->
  In UnableToCompleteAnalysis acc'.2 -> In UnableToCompleteAnalysis acc.2.
Proof. unfold check_team_verification. keeps_flags. Qed.

Lemma check_vesting_flags d acc acc' :
  check_vesting d acc = Ok acc' ->
  In UnableToCompleteAnalysis acc'.2 -> In UnableToCompleteAnalysis acc.2.
Proof. unfold check_vesting. keeps_flags. Qed.

Lemma check_contract_verification_flags d acc acc' :
  check_contract_verification d acc = Ok acc' ->
  In UnableToCompleteAnalysis acc'.2 -> In UnableToCompleteAnalysis acc.2.
Proof. unfold check_contract_verification. keeps_flags. Qed.

Lemma check_holder_concentration_flags th d acc acc' :
  check_holder_concentration th d acc = Ok acc' ->
  In UnableToCompleteAnalysis acc'.2 -> In UnableToCompleteAnalysis acc.2.
Proof.
  intros H Hin. apply check_holder_concentration_Ok in H.
  destruct H as (x & _ & [(_ & _ & ->) | (_ & ->)]); [|exact Hin].
  simpl in Hin. rewrite in_app_iff in Hin. simpl in Hin.
  intuition discriminate.
Qed.

Lemma check_rapid_graduation_flags d acc acc' :
  check_rapid_graduation d acc = Ok acc' ->
  In UnableToCompleteAnalysis acc'.2 -> In UnableToCompleteAnalysis acc.2.
Proof. unfold check_rapid_graduation. keeps_flags. Qed.

Lemma score_and_flags_no_fallback_flag th d acc :
  score_and_flags th d = Ok acc -> ~ In UnableToCompleteAnalysis acc.2.
Proof.
  unfold score_and_flags. intros H Hin.
  bind_inv H. bind_inv H. bind_inv H. bind_inv H. bind_inv H.
  apply (check_rapid_graduation_flags _ _ _ H) in Hin.
  apply (check_holder_concentration_flags _ _ _ _ Ha3) in Hin.
  apply (check_contract_verification_flags _ _ _ Ha2) in Hin.
  apply (check_vesting_flags _ _ _ Ha1) in Hin.
  apply (check_team_verification_flags _ _ _ Ha0) in Hin.
  apply (check_liquidity_lock_flags _ _ _ Ha) in Hin.
  exact Hin.
Qed.

End OracleFailure.

(** C3: when [metta.run] raises, neither decision function propagates the
    error.  The risk analysis returns the complete result of its fallback
    branch, and the rebalancing analysis returns [should_rebalance = False]. *)
Theorem C3_oracle_failure_not_propagated :
  (forall st run addr d,
     returns (run (RiskAnalyzerAgent.risk_query d)) = false ->
     let r := RiskAnalyzerAgent.analyze_token_risk_with_metta st run addr d in
     RiskAnalyzerAgent.risk_score r = 5.0%Q /\
     RiskAnalyzerAgent.risk_level r = "MEDIUM" /\
     RiskAnalyzerAgent.red_flags r = [RiskAnalyzerAgent.UnableToCompleteAnalysis] /\
     RiskAnalyzerAgent.confidence r = 0.50%Q /\
     RiskAnalyzerAgent.recommendation r = "Proceed with caution - analysis incomplete") /\
  (forall now run position,
     returns (run (LiquidityOptimizerAgent.rebalancing_query position)) = false ->
     let a := LiquidityOptimizerAgent.analyze_rebalancing_opportunity_with_metta
                now run position in
     LiquidityOptimizerAgent.should_rebalance a = false /\
     exists e, LiquidityOptimizerAgent.error a = Some e).
Proof.
  split.
  - intros st run addr d H r. subst r.
    rewrite analyze_oracle_raises by exact H. repeat split.
  - intros now run position H a. subst a.
    unfold LiquidityOptimizerAgent.analyze_rebalancing_opportunity_with_metta,
      LiquidityOptimizerAgent.analyze_rebalancing_try.
    destruct (run _); [discriminate|]. simpl. eauto.
Qed.

Lemma C3_oracle_failure_not_propagated_witness :
  RiskAnalyzerAgent.risk_score
    (RiskAnalyzerAgent.analyze_token_risk_with_metta
       RiskAnalyzerAgent.agent_state Examples.oracle_down
       "TokenAddress123" Examples.risky_token) = 5.0%Q /\
  LiquidityOptimizerAgent.should_rebalance
    (LiquidityOptimizerAgent.analyze_rebalancing_opportunity_with_metta
       0 Examples.oracle_down
       (LiquidityOptimizerAgent.new_position "p1" PNone PNone PNone)) = false.
Proof.
  split.
  - apply (proj1 C3_oracle_failure_not_propagated RiskAnalyzerAgent.agent_state
             Examples.oracle_down "TokenAddress123" Examples.risky_token).
    reflexivity.
  - apply (proj2 C3_oracle_failure_not_propagated 0%Z Examples.oracle_down
             (LiquidityOptimizerAgent.new_position "p1" PNone PNone PNone)).
    reflexivity.
Defined.

(** C6, as the code has it.  The evaluation in which the oracle call fails
    returns the fallback result: the single flag "Unable to complete
    analysis" and the fixed confidence 0.50.  The same evaluation with a
    successful oracle call either ends in the same fallback result, when a
    check of the [try] block raises, or completes: then it does not carry
    that flag and its confidence is 0.1 + 0.9 * k / 5 for the k completeness
    fields that are present.  So the confidence of the failed evaluation is
    strictly lower exactly when the other evaluation completes and at least
    three of the five fields are present. *)
Theorem C6_degraded_confidence st run_ok run_down addr d :
  returns (run_ok (RiskAnalyzerAgent.risk_query d)) = true ->
  returns (run_down (RiskAnalyzerAgent.risk_query d)) = false ->
  let r_ok := RiskAnalyzerAgent.analyze_token_risk_with_metta st run_ok addr d in
  let r_down := RiskAnalyzerAgent.analyze_token_risk_with_metta st run_down addr d in
  let unable := RiskAnalyzerAgent.UnableToCompleteAnalysis in
  RiskAnalyzerAgent.red_flags r_down = [unable] /\
  RiskAnalyzerAgent.confidence r_down = 0.50%Q /\
  (r_ok = r_down \/
   (~ In unable (RiskAnalyzerAgent.red_flags r_ok) /\
    (RiskAnalyzerAgent.confidence r_ok ==
     0.1 + 0.9 * (inject_Z (Z.of_nat (RiskAnalyzerAgent.present_count d)) / 5))%Q)) /\
  ((RiskAnalyzerAgent.confidence r_down < RiskAnalyzerAgent.confidence r_ok)%Q <->
   ~ In unable (RiskAnalyzerAgent.red_flags r_ok) /\
   (3 <= RiskAnalyzerAgent.present_count d)%nat).
Proof.
  intros Hok Hdown r_ok r_down unable. subst r_ok r_down unable.
  rewrite (analyze_oracle_raises st run_down) by exact Hdown.
  split; [reflexivity|]. split; [reflexivity|].
  destruct (analyze_cases st run_ok addr d) as [-> | (r & Hr & ->)].
  - split; [left; reflexivity|]. split.
    + intros H. exfalso. revert H. simpl. apply Qlt_irrefl.
    + intros [H _]. exfalso. apply H. simpl. auto.
  - apply analyze_token_risk_try_Ok in Hr.
    destruct Hr as (acc & Hacc & _ & _ & Hflags & Hconf).
    assert (Hno : ~ In RiskAnalyzerAgent.UnableToCompleteAnalysis
                     (RiskAnalyzerAgent.red_flags r)).
    { rewrite Hflags. eapply score_and_flags_no_fallback_flag; eauto. }
    split.
    + right. split; [exact Hno|]. rewrite Hconf.
      unfold RiskAnalyzerAgent.data_completeness. field.
    + rewrite Hconf. rewrite fallback_confidence_lower_iff. tauto.
Qed.

Lemma C6_degraded_confidence_witness :
  (RiskAnalyzerAgent.confidence
     (RiskAnalyzerAgent.analyze_token_risk_with_metta
        RiskAnalyzerAgent.agent_state Examples.oracle_down
        "TokenAddress123" Examples.risky_token)
   < RiskAnalyzerAgent.confidence
       (RiskAnalyzerAgent.analyze_token_risk_with_metta
          RiskAnalyzerAgent.agent_state Examples.oracle_ok
          "TokenAddress123" Examples.risky_token))%Q.
Proof.
  apply (C6_degraded_confidence RiskAnalyzerAgent.agent_state
           Examples.oracle_ok Examples.oracle_down "TokenAddress123"
           Examples.risky_token eq_refl eq_refl).
  split.
  - vm_compute. intuition discriminate.
  - vm_compute. lia.
Defined.

(** With a holder concentration that is a text, five fields are present and
    the oracle answers, yet the comparison of the [try] block raises: both
    evaluations return the fallback result, with equal confidence. *)
Example ill_typed_field_equal_confidence :
  RiskAnalyzerAgent.present_count Examples.ill_typed_token = 5%nat /\
  RiskAnalyzerAgent.analyze_token_risk_with_metta
    RiskAnalyzerAgent.agent_state Examples.oracle_ok
    "TokenAddress123" Examples.ill_typed_token =
  RiskAnalyzerAgent.analyze_token_risk_with_metta
    RiskAnalyzerAgent.agent_state Examples.oracle_down
    "TokenAddress123" Examples.ill_typed_token.
Proof. split; reflexivity. Qed.

(** C6 as stated fails: for a token with no data the failed evaluation
    reports confidence 0.50 and the completed one 0.10. *)
Lemma C6_counterexample :
  let r_ok := RiskAnalyzerAgent.analyze_token_risk_with_metta
                RiskAnalyzerAgent.agent_state Examples.oracle_ok "TokenAddress123" ∅ in
  let r_down := RiskAnalyzerAgent.analyze_token_risk_with_metta
                  RiskAnalyzerAgent.agent_state Examples.oracle_down "TokenAddress123" ∅ in
  (RiskAnalyzerAgent.confidence r_ok == 0.1)%Q /\
  (RiskAnalyzerAgent.confidence r_down == 0.5)%Q /\
  ~ (RiskAnalyzerAgent.confidence r_down < RiskAnalyzerAgent.confidence r_ok)%Q.
Proof.
  vm_compute. repeat split; intros H; discriminate H.
Qed.

(** ** The rebalancing decision (C4) *)

Section Rebalancing.
Import LiquidityOptimizerAgent.

(** One full day: [days >= 1] holds exactly from 86400 seconds on. *)
Lemma timedelta_days_ge_1 now t :
  (1 <=? timedelta_days now t)%Z = true <-> (microseconds_per_day <= now - t)%Z.
Proof.
  unfold timedelta_days, microseconds_per_day. rewrite Z.leb_le. split.
  - intros H.
    destruct (Z_lt_le_dec (now - t) 86400000000) as [Hlt|]; [|assumption].
    assert ((now - t) / 86400000000 < 1)%Z
      by (apply Z.div_lt_upper_bound; lia).
    lia.
  - intros H. apply Z.div_le_lower_bound; lia.
Qed.

Lemma should_rebalance_of_true o now position :
  should_rebalance_of o now position = Ok true <->
  (5.0 < expected_apr_improvement o)%Q /\
  (0.80 < confidence o)%Q /\
  Spec.cooldown_elapsed now position.
Proof.
  unfold should_rebalance_of, Spec.cooldown_elapsed.
  destruct (Qltb 5.0 (expected_apr_improvement o)) eqn:E1;
    [apply Qltb_lt in E1 | apply Qltb_ge in E1].
  2: { split; [discriminate | intros (H & _); lra]. }
  destruct (Qltb 0.80 (confidence o)) eqn:E2;
    [apply Qltb_lt in E2 | apply Qltb_ge in E2].
  2: { split; [discriminate | intros (_ & H & _); lra]. }
  destruct (last_rebalance position) as [t|].
  - split.
    + intros H. injection H as H. apply timedelta_days_ge_1 in H. eauto.
    + intros (_ & _ & t' & Ht & H). injection Ht as <-.
      apply timedelta_days_ge_1 in H. now rewrite H.
  - split; [discriminate | intros (_ & _ & t' & Ht & _); discriminate].
Qed.

Lemma analyze_rebalancing_true now run position :
  should_rebalance (analyze_rebalancing_opportunity_with_metta now run position) = true ->
  should_rebalance_of parsed_optimal_range now position = Ok true.
Proof.
  unfold analyze_rebalancing_opportunity_with_metta, analyze_rebalancing_try.
  destruct (run (rebalancing_query position)); simpl; [|discriminate].
  destruct (should_rebalance_of parsed_optimal_range now position) as [b|];
    simpl; [|discriminate].
  now intros ->.
Qed.

End Rebalancing.

(** C4: the analysis reports [should_rebalance = True] only if the expected
    APR improvement exceeds 5.0, the confidence exceeds 0.80 and at least one
    day has elapsed since the last rebalance of the position; when any one of
    the three fails, the result is no action.  The condition itself holds
    exactly when the three do, for any recommended range. *)
Theorem C4_rebalance_only_if_all_three :
  (forall o now position,
     LiquidityOptimizerAgent.should_rebalance_of o now position = Ok true <->
     (5.0 < LiquidityOptimizerAgent.expected_apr_improvement o)%Q /\
     (0.80 < LiquidityOptimizerAgent.confidence o)%Q /\
     Spec.cooldown_elapsed now position) /\
  (forall now run position,
     let a := LiquidityOptimizerAgent.analyze_rebalancing_opportunity_with_metta
                now run position in
     let o := LiquidityOptimizerAgent.parsed_optimal_range in
     (LiquidityOptimizerAgent.should_rebalance a = true ->
      (5.0 < LiquidityOptimizerAgent.expected_apr_improvement o)%Q /\
      (0.80 < LiquidityOptimizerAgent.confidence o)%Q /\
      Spec.cooldown_elapsed now position) /\
     (~ ((5.0 < LiquidityOptimizerAgent.expected_apr_improvement o)%Q /\
         (0.80 < LiquidityOptimizerAgent.confidence o)%Q /\
         Spec.cooldown_elapsed now position) ->
      LiquidityOptimizerAgent.should_rebalance a = false)).
Proof.
  split.
  - apply should_rebalance_of_true.
  - intros now run position a o.
    assert (H : LiquidityOptimizerAgent.should_rebalance a = true ->
                (5.0 < LiquidityOptimizerAgent.expected_apr_improvement o)%Q /\
                (0.80 < LiquidityOptimizerAgent.confidence o)%Q /\
                Spec.cooldown_elapsed now position).
    { intros Ha. apply should_rebalance_of_true.
      now apply (analyze_rebalancing_true now run). }
    split; [exact H|].
    intros Hn. destruct (LiquidityOptimizerAgent.should_rebalance a); [|reflexivity].
    exfalso. apply Hn. now apply H.
Qed.

Lemma C4_rebalance_only_if_all_three_witness :
  LiquidityOptimizerAgent.should_rebalance
    (LiquidityOptimizerAgent.analyze_rebalancing_opportunity_with_metta
       Examples.one_day Examples.oracle_ok (Examples.rebalanced_position 0)) = true /\
  Spec.cooldown_elapsed Examples.one_day (Examples.rebalanced_position 0).
Proof.
  split; [reflexivity|].
  apply (proj1 (proj2 C4_rebalance_only_if_all_three Examples.one_day
                  Examples.oracle_ok (Examples.rebalanced_position 0))).
  reflexivity.
Defined.

(** The three scenarios of the specification: two conditions hold, one
    fails, and the condition is false. *)
Example low_improvement_suppresses :
  LiquidityOptimizerAgent.should_rebalance_of (Examples.range_with 5.0 0.89)
    Examples.one_day (Examples.rebalanced_position 0) = Ok false.
Proof. reflexivity. Qed.

Example low_confidence_suppresses :
  LiquidityOptimizerAgent.should_rebalance_of (Examples.range_with 12.5 0.80)
    Examples.one_day (Examples.rebalanced_position 0) = Ok false.
Proof. reflexivity. Qed.

Example cooldown_suppresses :
  LiquidityOptimizerAgent.should_rebalance
    (LiquidityOptimizerAgent.analyze_rebalancing_opportunity_with_metta
       (Examples.one_day - 1) Examples.oracle_ok (Examples.rebalanced_position 0)) = false.
Proof. reflexivity. Qed.

Example all_three_hold :
  LiquidityOptimizerAgent.should_rebalance_of (Examples.range_with 5.1 0.81)
    Examples.one_day (Examples.rebalanced_position 0) = Ok true.
Proof. reflexivity. Qed.

(** ** Dicts in insertion order *)

Lemma od_set_keys {V} k (v : V) l :
  od_keys (od_set k v l) =
  if existsb (String.eqb k) (od_keys l) then od_keys l else od_keys l ++ [k].
Proof.
  unfold od_keys.
  induction l as [|[k' v'] t IH]; simpl; [reflexivity|].
  destruct (String.eqb k k') eqn:E; simpl.
  - apply String.eqb_eq in E. now subst.
  - rewrite IH. now destruct (existsb (String.eqb k) (map fst t)).
Qed.

Lemma existsb_eqb_In k (l : list string) :
  existsb (String.eqb k) l = true <-> In k l.
Proof.
  rewrite existsb_exists. split.
  - intros (x & Hx & E). apply String.eqb_eq in E. now subst.
  - intros H. exists k. split; [assumption | apply String.eqb_refl].
Qed.

(** Assigning to a key keeps the keys distinct. *)
Lemma od_set_NoDup {V} k (v : V) l :
  NoDup (od_keys l) -> NoDup (od_keys (od_set k v l)).
Proof.
  intros H. rewrite od_set_keys.
  destruct (existsb (String.eqb k) (od_keys l)) eqn:E; [assumption|].
  apply NoDup_app. repeat split.
  - assumption.
  - intros x Hx Hk. apply list_elem_of_singleton in Hk. subst x.
    apply list_elem_of_In, existsb_eqb_In in Hx. congruence.
  - apply NoDup_singleton.
Qed.

Lemma od_del_keys_incl {V} k (l : list (string * V)) x :
  x ∈ od_keys (od_del k l) -> x ∈ od_keys l.
Proof.
  unfold od_keys.
  induction l as [|[k' v'] t IH]; simpl; [auto|].
  destruct (String.eqb k k'); simpl; rewrite !elem_of_cons; intuition.
Qed.

Lemma od_del_NoDup {V} k (l : list (string * V)) :
  NoDup (od_keys l) -> NoDup (od_keys (od_del k l)).
Proof.
  unfold od_keys.
  induction l as [|[k' v'] t IH]; simpl; [auto|].
  rewrite NoDup_cons. intros [Hnin Ht].
  destruct (String.eqb k k'); simpl; [assumption|].
  apply NoDup_cons. split; [|auto].
  intros Hin. apply Hnin. eapply od_del_keys_incl; eauto.
Qed.

(** ** The monitoring ticks (C7) *)

Section LiquidityTick.
Import LiquidityOptimizerAgent.

Lemma evaluated_ids_app e1 e2 :
  evaluated_ids (e1 ++ e2) = evaluated_ids e1 ++ evaluated_ids e2.
Proof. apply flat_map_app. Qed.

(** A position built by the loop was never rebalanced, so subtracting its
    [last_rebalance] raises and the analysis is "no action". *)
Lemma new_position_no_action now run id pool a b :
  should_rebalance
    (analyze_rebalancing_opportunity_with_metta now run (new_position id pool a b))
  = false.
Proof.
  unfold analyze_rebalancing_opportunity_with_metta, analyze_rebalancing_try.
  destruct (run _); reflexivity.
Qed.

(** One iteration adds exactly one evaluation, of its own position. *)
Lemma monitor_one_trace now oracle w item :
  trace (monitor_one now oracle w item) =
  trace w ++ [Evaluated item.1
                (analyze_rebalancing_opportunity_with_metta now (oracle (calls w))
                   (new_position item.1 (pd_pool_address item.2)
                      (pd_token_a item.2) (pd_token_b item.2)))].
Proof.
  unfold monitor_one. simpl.
  rewrite new_position_no_action. reflexivity.
Qed.

Lemma monitor_loop_trace now oracle items : forall w,
  exists evs,
    trace (fold_left (monitor_one now oracle) items w) = trace w ++ evs /\
    evaluated_ids evs = od_keys items.
Proof.
  induction items as [|item rest IH]; intros w; simpl.
  - exists []. split; [now rewrite app_nil_r | reflexivity].
  - destruct (IH (monitor_one now oracle w item)) as (evs & Ht & He).
    rewrite monitor_one_trace in Ht.
    eexists. split.
    + rewrite Ht, <- app_assoc. reflexivity.
    + rewrite evaluated_ids_app, He. reflexivity.
Qed.

Lemma monitor_positions_evaluates_all now oracle w :
  exists evs,
    trace (monitor_positions now oracle w) = trace w ++ evs /\
    evaluated_ids evs = od_keys (monitored_positions (st w)).
Proof. apply monitor_loop_trace. Qed.

(** The handlers keep the position ids distinct. *)
Lemma handle_messages_NoDup now sender msg w :
  NoDup (od_keys (monitored_positions (st w))) ->
  NoDup (od_keys (monitored_positions (st (handle_messages now sender msg w)))).
Proof.
  intros H. destruct msg; simpl; auto using od_set_NoDup, od_del_NoDup.
Qed.

End LiquidityTick.

Section RiskTick.
Import RiskAnalyzerAgent.

Lemma Key_eqb_eq a b : Key_eqb a b = true <-> a = b.
Proof.
  destruct a as [s|m], b as [t|n]; simpl.
  - rewrite String.eqb_eq. split; [now intros -> | now intros [= ->]].
  - split; discriminate.
  - split; discriminate.
  - rewrite Nat.eqb_eq. split; [now intros -> | now intros [= ->]].
Qed.

Lemma Key_eqb_refl a : Key_eqb a a = true.
Proof. now apply Key_eqb_eq. Qed.

Lemma Key_eqb_neq a b : Key_eqb a b = false <-> a <> b.
Proof.
  rewrite <- Key_eqb_eq. destruct (Key_eqb a b); split; congruence.
Qed.

Lemma kd_set_keys {V} k (v : V) l :
  kd_keys (kd_set k v l) =
  if existsb (Key_eqb k) (kd_keys l) then kd_keys l else kd_keys l ++ [k].
Proof.
  unfold kd_keys.
  induction l as [|[k' v'] t IH]; simpl; [reflexivity|].
  destruct (Key_eqb k k') eqn:E; simpl.
  - apply Key_eqb_eq in E. now subst.
  - rewrite IH. now destruct (existsb (Key_eqb k) (map fst t)).
Qed.

Lemma existsb_Key_eqb_In k (l : list Key) :
  existsb (Key_eqb k) l = true <-> In k l.
Proof.
  rewrite existsb_exists. split.
  - intros (x & Hx & E). apply Key_eqb_eq in E. now subst.
  - intros H. exists k. split; [assumption | apply Key_eqb_refl].
Qed.

(** Assigning to a key keeps the keys distinct. *)
Lemma kd_set_NoDup {V} k (v : V) l :
  NoDup (kd_keys l) -> NoDup (kd_keys (kd_set k v l)).
Proof.
  intros H. rewrite kd_set_keys.
  destruct (existsb (Key_eqb k) (kd_keys l)) eqn:E; [assumption|].
  apply NoDup_app. repeat split.
  - assumption.
  - intros x Hx Hk. apply list_elem_of_singleton in Hk. subst x.
    apply list_elem_of_In, existsb_Key_eqb_In in Hx. congruence.
  - apply NoDup_singleton.
Qed.

(** Keys that are all texts are the texts of some addresses. *)
Lemma all_text_addresses (keys : list Key) :
  Forall (fun k => is_text k = true) keys ->
  exists tokens, keys = map Text tokens.
Proof.
  induction 1 as [|k keys Hk _ (tokens & ->)].
  - now exists [].
  - destruct k as [s|c]; [|discriminate]. now exists (s :: tokens).
Qed.

Lemma NoDup_map_Text (tokens : list string) :
  NoDup (map Text tokens) -> NoDup tokens.
Proof.
  induction tokens as [|t rest IH]; simpl; [constructor|].
  rewrite !NoDup_cons. intros [Hnin Hnd]. split; [|auto].
  intros Hin. apply Hnin. apply list_elem_of_In, in_map, list_elem_of_In, Hin.
Qed.

Lemma risk_evaluated_ids_app e1 e2 :
  evaluated_ids (e1 ++ e2) = evaluated_ids e1 ++ evaluated_ids e2.
Proof. apply flat_map_app. Qed.

(** One iteration for a key that is a text adds exactly one evaluation, of
    its own token, whatever the on-chain data and whether or not it ends
    with an exception. *)
Lemma risk_monitor_one_trace fetch oracle w addr :
  exists evs,
    trace (monitor_one fetch oracle w (Text addr)).1 = trace w ++ evs /\
    evaluated_ids evs = [addr].
Proof.
  unfold monitor_one.
  set (r := analyze_token_risk_with_metta _ _ _ _).
  destruct (String.eqb (risk_level r) "HIGH");
    (destruct (fetch (Text addr) !! "price_history") as [ph|];
     [ destruct (detect_rug_pull_pattern _ _ _ _) as [[s' a]|e];
       [destruct (rug_pull_detected a)|] |]);
    simpl; rewrite <- ?app_assoc; eexists; (split; [reflexivity|]);
    reflexivity.
Qed.

(** One iteration for a key that is not a text ends with [TypeError] and
    does nothing else. *)
Lemma monitor_one_scalar fetch oracle w code :
  monitor_one fetch oracle w (Scalar code) = (w, Some TypeError).
Proof. reflexivity. Qed.

(** The price history of [fetch_on_chain_data] has five prices and a
    non-zero first one, so the detection returns. *)
Lemma detect_on_fetched_returns s run key addr ph :
  fetch_on_chain_data key !! "price_history" = Some ph ->
  exists s' a, detect_rug_pull_pattern s run addr ph = Ok (s', a).
Proof.
  intros H. vm_compute in H. injection H as <-.
  unfold detect_rug_pull_pattern. simpl.
  destruct (run _); simpl; eauto.
Qed.

Lemma monitor_one_returns oracle w addr :
  (monitor_one fetch_on_chain_data oracle w (Text addr)).2 = None.
Proof.
  unfold monitor_one.
  set (r := analyze_token_risk_with_metta _ _ _ _).
  destruct (fetch_on_chain_data (Text addr) !! "price_history") as [ph|] eqn:E;
    [|reflexivity].
  match goal with
  | |- context [detect_rug_pull_pattern ?s ?run ?a ph] =>
      destruct (detect_on_fetched_returns s run (Text addr) a ph E) as (s' & x & ->)
  end.
  now destruct (rug_pull_detected x).
Qed.

Lemma risk_monitor_loop_trace oracle tokens : forall w,
  exists w' evs,
    monitor_loop fetch_on_chain_data oracle w (map Text tokens) = (w', None) /\
    trace w' = trace w ++ evs /\
    evaluated_ids evs = tokens.
Proof.
  induction tokens as [|addr rest IH]; intros w; cbn [map monitor_loop].
  - exists w, []. repeat split. now rewrite app_nil_r.
  - pose proof (monitor_one_returns oracle w addr) as Hn.
    destruct (risk_monitor_one_trace fetch_on_chain_data oracle w addr)
      as (evs1 & Ht1 & He1).
    destruct (monitor_one fetch_on_chain_data oracle w (Text addr)) as [w1 e].
    simpl in Hn, Ht1. subst e.
    destruct (IH w1) as (w' & evs & Hl & Ht & He).
    exists w', (evs1 ++ evs). repeat split.
    + exact Hl.
    + rewrite Ht, Ht1, <- app_assoc. reflexivity.
    + rewrite risk_evaluated_ids_app, He1, He. reflexivity.
Qed.

(** A loop that reaches the end of a first part goes on with the rest. *)
Lemma monitor_loop_app fetch oracle before : forall w w1 rest,
  monitor_loop fetch oracle w before = (w1, None) ->
  monitor_loop fetch oracle w (before ++ rest) = monitor_loop fetch oracle w1 rest.
Proof.
  induction before as [|k before IH]; intros w w1 rest H; simpl in *.
  - now injection H as ->.
  - destruct (monitor_one fetch oracle w k) as [w2 [e|]]; [discriminate|].
    now apply IH.
Qed.

Lemma risk_handle_messages_NoDup now oracle sender msg w :
  NoDup (kd_keys (monitored_tokens (st w))) ->
  NoDup (kd_keys (monitored_tokens (st (handle_messages now oracle sender msg w).1))).
Proof.
  intros H. destruct msg as [[k|] data|[k|]|]; simpl; auto using kd_set_NoDup.
  destruct (kd_get _ _); simpl; [|assumption].
  destruct k; simpl; assumption.
Qed.

End RiskTick.

(** C7, as the code has it: every tick evaluates each registered entity
    exactly once, in insertion order and without duplicates, and no entity
    is skipped for having been evaluated recently: the loops do not look at
    the time of the last evaluation.  For [monitor_active_tokens] this needs
    every registered key to be a text.  [handle_messages] stores whatever
    the message holds as ["token_address"], and at a key that is not a text
    the tick ends with [TypeError]: the tokens before it are evaluated, those
    after it are not. *)
Theorem C7_tick_evaluates_every_entity_once :
  (forall oracle w,
     let keys := RiskAnalyzerAgent.kd_keys
                   (RiskAnalyzerAgent.monitored_tokens (RiskAnalyzerAgent.st w)) in
     NoDup keys ->
     Forall (fun k => RiskAnalyzerAgent.is_text k = true) keys ->
     exists w' evs,
       RiskAnalyzerAgent.monitor_active_tokens oracle w = (w', None) /\
       RiskAnalyzerAgent.trace w' = RiskAnalyzerAgent.trace w ++ evs /\
       map RiskAnalyzerAgent.Text (RiskAnalyzerAgent.evaluated_ids evs) = keys /\
       NoDup (RiskAnalyzerAgent.evaluated_ids evs)) /\
  (forall oracle w before code rest,
     RiskAnalyzerAgent.kd_keys
       (RiskAnalyzerAgent.monitored_tokens (RiskAnalyzerAgent.st w)) =
     map RiskAnalyzerAgent.Text before ++ RiskAnalyzerAgent.Scalar code :: rest ->
     exists w' evs,
       RiskAnalyzerAgent.monitor_active_tokens oracle w = (w', Some TypeError) /\
       RiskAnalyzerAgent.trace w' = RiskAnalyzerAgent.trace w ++ evs /\
       RiskAnalyzerAgent.evaluated_ids evs = before) /\
  (forall now oracle w,
     NoDup (od_keys (LiquidityOptimizerAgent.monitored_positions
                       (LiquidityOptimizerAgent.st w))) ->
     exists evs,
       LiquidityOptimizerAgent.trace
         (LiquidityOptimizerAgent.monitor_positions now oracle w) =
         LiquidityOptimizerAgent.trace w ++ evs /\
       LiquidityOptimizerAgent.evaluated_ids evs =
         od_keys (LiquidityOptimizerAgent.monitored_positions
                    (LiquidityOptimizerAgent.st w)) /\
       NoDup (LiquidityOptimizerAgent.evaluated_ids evs)).
Proof.
  split; [|split].
  - intros oracle w keys Hnd Htext.
    destruct (all_text_addresses keys Htext) as (tokens & Hk).
    destruct (risk_monitor_loop_trace oracle tokens w) as (w' & evs & Hl & Ht & He).
    exists w', evs.
    unfold RiskAnalyzerAgent.monitor_active_tokens,
      RiskAnalyzerAgent.monitor_active_tokens_with.
    fold keys. rewrite Hk, He. repeat split; auto.
    apply NoDup_map_Text. rewrite <- Hk. exact Hnd.
  - intros oracle w before code rest Hk.
    destruct (risk_monitor_loop_trace oracle before w) as (w' & evs & Hl & Ht & He).
    exists w', evs.
    unfold RiskAnalyzerAgent.monitor_active_tokens,
      RiskAnalyzerAgent.monitor_active_tokens_with.
    rewrite Hk, (monitor_loop_app _ _ _ _ _ _ Hl). simpl. auto.
  - intros now oracle w Hnd.
    destruct (monitor_positions_evaluates_all now oracle w) as (evs & Ht & He).
    exists evs. rewrite He. auto.
Qed.

Lemma C7_tick_evaluates_every_entity_once_witness :
  (exists w' evs,
     RiskAnalyzerAgent.monitor_active_tokens (fun _ => Examples.oracle_ok)
       Examples.risk_two_tokens = (w', None) /\
     RiskAnalyzerAgent.evaluated_ids evs = ["TokenA"; "TokenB"]) /\
  (exists w' evs,
     RiskAnalyzerAgent.monitor_active_tokens (fun _ => Examples.oracle_ok)
       MoreExamples.risk_missing_address = (w', Some TypeError) /\
     RiskAnalyzerAgent.evaluated_ids evs = ["TokenA"]) /\
  (exists evs,
     LiquidityOptimizerAgent.trace
       (LiquidityOptimizerAgent.monitor_positions 1000 (fun _ => Examples.oracle_ok)
          Examples.liquidity_one_position) =
     LiquidityOptimizerAgent.trace Examples.liquidity_one_position ++ evs /\
     LiquidityOptimizerAgent.evaluated_ids evs = ["p1"]).
Proof.
  split; [|split].
  - destruct (proj1 C7_tick_evaluates_every_entity_once
                (fun _ => Examples.oracle_ok) Examples.risk_two_tokens)
      as (w' & evs & Hl & _ & He & _).
    + change (NoDup [RiskAnalyzerAgent.Text "TokenA"; RiskAnalyzerAgent.Text "TokenB"]).
      apply NoDup_cons. split; [|apply NoDup_singleton].
      intros H. apply list_elem_of_singleton in H. discriminate H.
    + repeat constructor.
    + exists w', evs. split; [exact Hl|].
      change (map RiskAnalyzerAgent.Text (RiskAnalyzerAgent.evaluated_ids evs) =
              map RiskAnalyzerAgent.Text ["TokenA"; "TokenB"]) in He.
      revert He. generalize (RiskAnalyzerAgent.evaluated_ids evs).
      intros [|a [|b [|c l]]] He; try discriminate He.
      injection He as -> ->. reflexivity.
  - destruct (proj1 (proj2 C7_tick_evaluates_every_entity_once)
                (fun _ => Examples.oracle_ok) MoreExamples.risk_missing_address
                ["TokenA"] 0%nat [RiskAnalyzerAgent.Text "TokenB"])
      as (w' & evs & Hl & _ & He).
    + reflexivity.
    + exists w', evs. split; [exact Hl | exact He].
  - destruct (proj2 (proj2 C7_tick_evaluates_every_entity_once) 1000%Z
                (fun _ => Examples.oracle_ok) Examples.liquidity_one_position)
      as (evs & Ht & He & _).
    + apply (bool_decide_unpack _). vm_compute. reflexivity.
    + exists evs. split; [exact Ht | exact He].
Defined.

(** C7 as stated fails: a position checked one microsecond ago is evaluated
    again by the next tick, so the evaluated ids are not the ids that are due
    under any minimum cadence longer than that. *)
Lemma C7_counterexample :
  let w := Examples.liquidity_after_tick in
  let w' := LiquidityOptimizerAgent.monitor_positions 1001
              (fun _ => Examples.oracle_ok) w in
  let evaluated :=
    LiquidityOptimizerAgent.evaluated_ids
      (skipn (length (LiquidityOptimizerAgent.trace w))
             (LiquidityOptimizerAgent.trace w')) in
  LiquidityOptimizerAgent.last_check <$>
    od_get "p1" (LiquidityOptimizerAgent.monitored_positions
                   (LiquidityOptimizerAgent.st w)) = Some (Some 1000%Z) /\
  evaluated = ["p1"] /\
  ~ (exists cadence : Z,
       (1 < cadence)%Z /\
       evaluated =
       Spec.due_positions cadence 1001
         (LiquidityOptimizerAgent.monitored_positions (LiquidityOptimizerAgent.st w))).
Proof.
  intros w w' evaluated.
  assert (He : evaluated = ["p1"]) by (vm_compute; reflexivity).
  split; [vm_compute; reflexivity|]. split; [exact He|].
  intros (cadence & Hc & H). rewrite He in H.
  assert (Hd : Spec.due_positions cadence 1001
                 (LiquidityOptimizerAgent.monitored_positions
                    (LiquidityOptimizerAgent.st w)) = []).
  { change (LiquidityOptimizerAgent.monitored_positions (LiquidityOptimizerAgent.st w))
      with [("p1", {| LiquidityOptimizerAgent.pd_pool_address := PStr "pool";
                      LiquidityOptimizerAgent.pd_token_a := PStr "SOL";
                      LiquidityOptimizerAgent.pd_token_b := PStr "USDC";
                      LiquidityOptimizerAgent.pd_added_at := 0%Z;
                      LiquidityOptimizerAgent.last_check := Some 1000%Z |})].
    unfold Spec.due_positions. simpl.
    destruct (Z.leb_spec cadence (1001 - 1000)); [lia | reflexivity]. }
  rewrite Hd in H. discriminate.
Qed.

(** ** Rug-pull detection (C10) *)

Section RugPull.
Import RiskAnalyzerAgent.

(** The detection never reports a rug pull and never touches the state:
    the volume-spike indicator is the constant [False]. *)
Lemma detect_never_detects s run addr ph s' a :
  detect_rug_pull_pattern s run addr ph = Ok (s', a) ->
  rug_pull_detected a = false /\ s' = s.
Proof.
  unfold detect_rug_pull_pattern. intros H. bind_inv H.
  destruct (a0 <? 5)%nat.
  - injection H as <- <-. auto.
  - bind_inv H. destruct (run _).
    + rewrite andb_false_r in H. injection H as <- <-. auto.
    + injection H as <- <-. auto.
Qed.

Lemma monitor_one_no_rug_alert fetch oracle w addr :
  let w' := (monitor_one fetch oracle w addr).1 in
  fraud_patterns_detected (st w') = fraud_patterns_detected (st w) /\
  exists evs, trace w' = trace w ++ evs /\ existsb is_rug_pull_alert evs = false.
Proof.
  destruct addr as [addr|code];
    [|simpl; split; [reflexivity|]; exists []; now rewrite app_nil_r].
  unfold monitor_one.
  set (r := analyze_token_risk_with_metta _ _ _ _).
  destruct (String.eqb (risk_level r) "HIGH");
    (destruct (fetch (Text addr) !! "price_history") as [ph|];
     [ destruct (detect_rug_pull_pattern _ _ _ _) as [[s' a]|e] eqn:E;
       [apply detect_never_detects in E; destruct E as [-> ->]|] |]);
    simpl; rewrite <- ?app_assoc; (split; [reflexivity|]);
    eexists; (split; [reflexivity|]); reflexivity.
Qed.

Lemma monitor_loop_no_rug_alert fetch oracle tokens : forall w,
  let w' := (monitor_loop fetch oracle w tokens).1 in
  fraud_patterns_detected (st w') = fraud_patterns_detected (st w) /\
  exists evs, trace w' = trace w ++ evs /\ existsb is_rug_pull_alert evs = false.
Proof.
  induction tokens as [|addr rest IH]; intros w; cbn [monitor_loop].
  - split; [reflexivity|]. exists []. now rewrite app_nil_r.
  - destruct (monitor_one_no_rug_alert fetch oracle w addr) as (Hf1 & evs1 & Ht1 & Hn1).
    destruct (monitor_one fetch oracle w addr) as [w1 [e|]]; simpl in *.
    + split; [exact Hf1|]. eauto.
    + destruct (IH w1) as (Hf & evs & Ht & Hn). split; [congruence|].
      exists (evs1 ++ evs). split.
      * rewrite Ht, Ht1, <- app_assoc. reflexivity.
      * rewrite existsb_app, Hn1, Hn. reflexivity.
Qed.

End RugPull.

(** C10: whenever [detect_rug_pull_pattern] returns, its result has
    [rug_pull_detected = False] and the counter of fraud patterns is as it
    was; so a tick of [monitor_active_tokens], over any on-chain data, leaves
    [fraud_patterns_detected] unchanged and sends no rug-pull alert. *)
Theorem C10_rug_pull_never_detected :
  (forall s run addr price_history s' a,
     RiskAnalyzerAgent.detect_rug_pull_pattern s run addr price_history = Ok (s', a) ->
     RiskAnalyzerAgent.rug_pull_detected a = false /\
     RiskAnalyzerAgent.fraud_patterns_detected s' =
     RiskAnalyzerAgent.fraud_patterns_detected s) /\
  (forall fetch oracle w,
     let w' := (RiskAnalyzerAgent.monitor_active_tokens_with fetch oracle w).1 in
     RiskAnalyzerAgent.fraud_patterns_detected (RiskAnalyzerAgent.st w') =
     RiskAnalyzerAgent.fraud_patterns_detected (RiskAnalyzerAgent.st w) /\
     exists evs,
       RiskAnalyzerAgent.trace w' = RiskAnalyzerAgent.trace w ++ evs /\
       existsb RiskAnalyzerAgent.is_rug_pull_alert evs = false).
Proof.
  split.
  - intros s run addr ph s' a H.
    apply detect_never_detects in H. destruct H as [-> ->]. auto.
  - intros fetch oracle w. apply monitor_loop_no_rug_alert.
Qed.

Lemma C10_rug_pull_never_detected_witness :
  exists s' a,
    RiskAnalyzerAgent.detect_rug_pull_pattern RiskAnalyzerAgent.agent_state
      Examples.oracle_ok "TokenAddress123" Examples.crashing_prices = Ok (s', a) /\
    (RiskAnalyzerAgent.rapid_price_drop <$> RiskAnalyzerAgent.indicators a) = Some true /\
    RiskAnalyzerAgent.rug_pull_detected a = false.
Proof.
  eexists _, _. split; [reflexivity|]. split; [reflexivity|].
  apply (proj1 C10_rug_pull_never_detected RiskAnalyzerAgent.agent_state
           Examples.oracle_ok "TokenAddress123" Examples.crashing_prices _ _ eq_refl).
Defined.

(** ** The launch coordinator (C8, C9) *)

Section LaunchCoordinator.
Import LaunchCoordinatorAgent LaunchCoordinatorRuns.

Variable lower : string -> string.

(** No parameter, local variable or module-level name of
    [handle_launch_request] is called [msg]. *)
Lemma msg_unbound :
  load_name handle_launch_request_locals "msg" = Raise (NameError "msg").
Proof. reflexivity. Qed.

Lemma handle_launch_request_result now oracle sender text w :
  handle_launch_request now oracle sender text w =
  ({| st := st w;
      trace := trace w ++ [Replied sender (strategy_reply oracle (calls w))];
      calls := S (S (calls w)) |},
   Some (NameError "msg")).
Proof.
  unfold handle_launch_request. rewrite msg_unbound. reflexivity.
Qed.

Lemma handle_launch_request_raises now oracle sender text w :
  exists s r,
    handle_launch_request now oracle sender text w =
    ({| st := st w;
        trace := trace w ++ [Replied sender (StrategyMessage s r)];
        calls := S (S (calls w)) |},
     Some (NameError "msg")).
Proof.
  rewrite handle_launch_request_result. eexists _, _. reflexivity.
Qed.

Lemma handle_item_state now oracle sender item w :
  st (handle_item lower now oracle sender item w).1 = st w.
Proof.
  destruct item as [t|]; [|reflexivity]. unfold handle_item.
  destruct (is_launch_request (lower t)).
  - rewrite handle_launch_request_result. reflexivity.
  - repeat case_if; reflexivity.
Qed.

Lemma handle_items_state now oracle sender items : forall w,
  st (handle_items lower now oracle sender items w).1 = st w.
Proof.
  induction items as [|item rest IH]; intros w; simpl; [reflexivity|].
  pose proof (handle_item_state now oracle sender item w) as H.
  destruct (handle_item lower now oracle sender item w) as [w1 [e|]]; simpl in *.
  - exact H.
  - rewrite IH. exact H.
Qed.

(** An item that is not a launch request is answered with its plain reply
    and raises nothing. *)
Lemma handle_item_plain now oracle sender item w :
  match item with
  | TextContent t => is_launch_request (lower t) = false
  | OtherContent => True
  end ->
  handle_item lower now oracle sender item w =
  ({| st := st w;
      trace := trace w ++ plain_replies lower sender (st w) [item];
      calls := calls w |}, None).
Proof.
  destruct item as [t|]; intros H; unfold handle_item, plain_replies, plain_reply;
    simpl.
  - rewrite H. repeat case_if; reflexivity.
  - rewrite app_nil_r. now destruct w.
Qed.

Lemma plain_replies_app sender s items1 items2 :
  plain_replies lower sender s (items1 ++ items2) =
  plain_replies lower sender s items1 ++ plain_replies lower sender s items2.
Proof. apply flat_map_app. Qed.

Lemma handle_items_plain now oracle sender items : forall w,
  (forall t, In (TextContent t) items -> is_launch_request (lower t) = false) ->
  handle_items lower now oracle sender items w =
  ({| st := st w;
      trace := trace w ++ plain_replies lower sender (st w) items;
      calls := calls w |}, None).
Proof.
  induction items as [|item rest IH]; intros w H; cbn [handle_items].
  - simpl. rewrite app_nil_r. now destruct w.
  - rewrite handle_item_plain.
    + rewrite IH by (intros t Ht; apply H; now right).
      cbn [st trace calls].
      change (item :: rest) with ([item] ++ rest).
      rewrite plain_replies_app, app_assoc. reflexivity.
    + destruct item; [|exact I]. apply H. now left.
Qed.

(** The items up to the first launch request are answered, the request is
    answered with the strategy, and the handler stops there. *)
Lemma handle_items_launch now oracle sender before t rest w :
  (forall t', In (TextContent t') before -> is_launch_request (lower t') = false) ->
  is_launch_request (lower t) = true ->
  handle_items lower now oracle sender (before ++ TextContent t :: rest) w =
  ({| st := st w;
      trace := trace w ++ plain_replies lower sender (st w) before ++
               [Replied sender (strategy_reply oracle (calls w))];
      calls := S (S (calls w)) |},
   Some (NameError "msg")).
Proof.
  revert w. induction before as [|item before IH]; intros w Hb Ht.
  - cbn [app handle_items]. unfold handle_item. rewrite Ht.
    rewrite handle_launch_request_result. reflexivity.
  - cbn [app handle_items]. rewrite handle_item_plain.
    + rewrite IH by (try (intros t' Ht'; apply Hb; now right); exact Ht).
      cbn [st trace calls].
      change (item :: before) with ([item] ++ before).
      rewrite plain_replies_app, <- !app_assoc. reflexivity.
    + destruct item; [|exact I]. apply Hb. now left.
Qed.



End LaunchCoordinator.


(** C9: [handle_launch_request] sends the strategy response and then raises
    [NameError] for the name [msg], so it leaves [agent_state] as it was; no
    chat message handled by the agent changes [active_launches]. *)
Theorem C9_launch_request_raises_name_error :
  (forall now oracle sender text w,
     exists s r,
       LaunchCoordinatorAgent.handle_launch_request now oracle sender text w =
       ({| LaunchCoordinatorAgent.st := LaunchCoordinatorAgent.st w;
           LaunchCoordinatorAgent.trace :=
             LaunchCoordinatorAgent.trace w ++
             [LaunchCoordinatorAgent.Replied sender
                (LaunchCoordinatorAgent.StrategyMessage s r)];
           LaunchCoordinatorAgent.calls := S (S (LaunchCoordinatorAgent.calls w)) |},
        Some (NameError "msg"))) /\
  (forall lower now oracle sender msg w,
     LaunchCoordinatorAgent.active_launches
       (LaunchCoordinatorAgent.st
          (LaunchCoordinatorAgent.handle_chat_message lower now oracle sender msg w).1) =
     LaunchCoordinatorAgent.active_launches (LaunchCoordinatorAgent.st w)).
Proof.
  split.
  - apply handle_launch_request_raises.
  - intros lower now oracle sender msg w.
    unfold LaunchCoordinatorAgent.handle_chat_message.
    rewrite handle_items_state. reflexivity.
Qed.

(** A launch request sent by chat ends in the [NameError]. *)
Example launch_by_chat_raises :
  (LaunchCoordinatorAgent.handle_chat_message str_lower 0
     (fun _ => Examples.oracle_ok)
     "user" Examples.launch_message Examples.coordinator_start).2 =
  Some (NameError "msg").
Proof. reflexivity. Qed.




(** * Further properties of the code *)

(** ** Scores and flags *)

Lemma Qltb_compat a b c d : (a == b)%Q -> (c == d)%Q -> Qltb a c = Qltb b d.
Proof.
  intros H1 H2. unfold Qltb. f_equal. now rewrite H1, H2.
Qed.

Lemma py_max_compat c a b : (a == b)%Q -> (py_max c a == py_max c b)%Q.
Proof.
  intros H. unfold py_max. rewrite (Qltb_compat c c a b) by (reflexivity || exact H).
  now destruct (Qltb c b).
Qed.

Lemma py_min_compat c a b : (a == b)%Q -> (py_min c a == py_min c b)%Q.
Proof.
  intros H. unfold py_min. rewrite (Qltb_compat a b c c) by (reflexivity || exact H).
  now destruct (Qltb b c).
Qed.

Section Accounting.
Context {F : Type} (penalty : F -> Q) (rank : F -> nat).

Lemma total_snoc flags f :
  (Measures.total penalty (flags ++ [f]) == Measures.total penalty flags + penalty f)%Q.
Proof.
  induction flags as [|g flags IH]; simpl.
  - ring.
  - rewrite IH. ring.
Qed.

Lemma ascending_snoc ranks : forall b r,
  Measures.ascending b ranks -> (b < r)%nat ->
  Forall (fun x => (x < r)%nat) ranks ->
  Measures.ascending b (ranks ++ [r]).
Proof.
  induction ranks as [|x ranks IH]; intros b r Ha Hb Hall; simpl.
  - auto.
  - destruct Ha as [Hx Ha]. apply Forall_cons in Hall. destruct Hall as [Hxr Hall].
    split; [exact Hx|]. apply IH; assumption.
Qed.

Lemma accounted_start : Measures.accounted penalty rank 0 (7.5%Q, []).
Proof. split; [simpl; ring | split; [exact I | constructor]]. Qed.

Lemma accounted_keep b b' acc :
  Measures.accounted penalty rank b acc -> (b <= b')%nat ->
  Measures.accounted penalty rank b' acc.
Proof.
  intros (H1 & H2 & H3) Hb. split; [exact H1 | split; [exact H2|]].
  eapply Forall_impl; [exact H3|]. simpl. intros. lia.
Qed.

Lemma accounted_deduct b amount f acc :
  Measures.accounted penalty rank b acc ->
  (b < rank f)%nat -> (penalty f == amount)%Q ->
  Measures.accounted penalty rank (rank f) ((acc.1 - amount)%Q, acc.2 ++ [f]).
Proof.
  intros (H1 & H2 & H3) Hb Hp. split; [|split]; simpl.
  - rewrite total_snoc, H1, Hp. ring.
  - rewrite map_app. simpl. apply ascending_snoc; [assumption | lia |].
    apply Forall_map. eapply Forall_impl; [exact H3|]. simpl. intros. lia.
  - apply Forall_app. split.
    + eapply Forall_impl; [exact H3|]. simpl. intros. lia.
    + constructor; [lia | constructor].
Qed.

End Accounting.

Section AnalyzerAccounting.
Import RiskAnalyzerAgent.

Local Abbreviation accounted := (Measures.accounted Measures.analyzer_penalty Measures.analyzer_rank).

(** Closes a goal about a check that keeps the pair or takes one deduction. *)
Ltac account Hacc :=
  case_if;
  [ refine (accounted_deduct _ _ _ _ _ _ Hacc _ _); [simpl; lia | reflexivity]
  | apply (accounted_keep _ _ _ _ _ Hacc); lia ].

Lemma check_liquidity_lock_accounted d acc acc' :
  check_liquidity_lock d acc = Ok acc' -> accounted 0%nat acc -> accounted 1%nat acc'.
Proof.
  unfold check_liquidity_lock. intros H Hacc. bind_inv H. injection H as <-.
  account Hacc.
Qed.

Lemma check_team_verification_accounted d acc acc' :
  check_team_verification d acc = Ok acc' -> accounted 1%nat acc -> accounted 2%nat acc'.
Proof.
  unfold check_team_verification. intros H Hacc. injection H as <-. account Hacc.
Qed.

Lemma check_vesting_accounted d acc acc' :
  check_vesting d acc = Ok acc' -> accounted 2%nat acc -> accounted 3%nat acc'.
Proof.
  unfold check_vesting. intros H Hacc. injection H as <-. account Hacc.
Qed.

Lemma check_contract_verification_accounted d acc acc' :
  check_contract_verification d acc = Ok acc' -> accounted 3%nat acc -> accounted 4%nat acc'.
Proof.
  unfold check_contract_verification. intros H Hacc. injection H as <-. account Hacc.
Qed.

Lemma check_holder_concentration_accounted th d acc acc' :
  check_holder_concentration th d acc = Ok acc' -> accounted 4%nat acc -> accounted 5%nat acc'.
Proof.
  intros H Hacc. apply check_holder_concentration_Ok in H.
  destruct H as (x & _ & [(_ & _ & ->) | (_ & ->)]).
  - refine (accounted_deduct _ _ _ _ _ _ Hacc _ _); [simpl; lia | reflexivity].
  - apply (accounted_keep _ _ _ _ _ Hacc); lia.
Qed.

Lemma check_rapid_graduation_accounted d acc acc' :
  check_rapid_graduation d acc = Ok acc' -> accounted 5%nat acc -> accounted 6%nat acc'.
Proof.
  unfold check_rapid_graduation. intros H Hacc. bind_inv H. injection H as <-.
  account Hacc.
Qed.

Lemma score_and_flags_accounted th d acc :
  score_and_flags th d = Ok acc -> accounted 6%nat acc.
Proof.
  unfold score_and_flags. intros H.
  bind_inv H. bind_inv H. bind_inv H. bind_inv H. bind_inv H.
  eapply check_rapid_graduation_accounted; [exact H|].
  eapply check_holder_concentration_accounted; [exact Ha3|].
  eapply check_contract_verification_accounted; [exact Ha2|].
  eapply check_vesting_accounted; [exact Ha1|].
  eapply check_team_verification_accounted; [exact Ha0|].
  eapply check_liquidity_lock_accounted; [exact Ha|].
  apply accounted_start.
Qed.

(** Flags in the order of the checks cost at least 1.0 each. *)
Lemma analyzer_total_positive flags : forall b,
  Measures.ascending b (map Measures.analyzer_rank flags) ->
  flags <> [] -> (1 <= Measures.total Measures.analyzer_penalty flags)%Q.
Proof.
  induction flags as [|f flags IH]; intros b Ha Hne; [congruence|].
  simpl in *. destruct Ha as [Hb Ha].
  assert (Hf : (1 <= Measures.analyzer_penalty f)%Q)
    by (destruct f; simpl in *; try lra; lia).
  destruct flags as [|g flags].
  - simpl. lra.
  - specialize (IH _ Ha ltac:(congruence)). lra.
Qed.

End AnalyzerAccounting.

(** X1: in a completed risk analysis the returned score is the base 7.5 less
    the amounts of the red flags, clamped at 0; the flags come in the order
    of the checks, each at most once; and there are no red flags exactly when
    the score is 7.5. *)
Theorem analysis_score_accounts_for_flags st run addr d r :
  RiskAnalyzerAgent.analyze_token_risk_try st run addr d = Ok r ->
  (RiskAnalyzerAgent.risk_score r ==
   py_max 0 (7.5 - Measures.total Measures.analyzer_penalty
                     (RiskAnalyzerAgent.red_flags r)))%Q /\
  Measures.ascending 0 (map Measures.analyzer_rank (RiskAnalyzerAgent.red_flags r)) /\
  (RiskAnalyzerAgent.red_flags r = [] <-> (RiskAnalyzerAgent.risk_score r == 7.5)%Q).
Proof.
  intros H. apply analyze_token_risk_try_Ok in H.
  destruct H as (acc & Hacc & Hs & _ & Hf & _).
  apply score_and_flags_accounted in Hacc. destruct Hacc as (H1 & H2 & _).
  rewrite Hs, Hf. split; [|split].
  - apply py_max_compat. exact H1.
  - exact H2.
  - assert (Hm : (py_max 0 acc.1 == py_max 0 (7.5 - Measures.total
                    Measures.analyzer_penalty acc.2))%Q)
      by (apply py_max_compat; exact H1).
    split.
    + intros E. rewrite Hm, E. reflexivity.
    + intros E. destruct acc.2 as [|f flags] eqn:Ef; [reflexivity|]. exfalso.
      assert (Hp : (1 <= Measures.total Measures.analyzer_penalty (f :: flags))%Q)
        by (eapply analyzer_total_positive; [exact H2 | congruence]).
      rewrite Hm in E. unfold py_max in E.
      destruct (Qltb 0 _) eqn:E0; lra.
Qed.

Lemma analysis_score_accounts_for_flags_witness :
  exists r,
    RiskAnalyzerAgent.analyze_token_risk_try RiskAnalyzerAgent.agent_state
      Examples.oracle_ok "TokenAddress123" Examples.rapid_anonymous_token = Ok r /\
    RiskAnalyzerAgent.red_flags r =
      [RiskAnalyzerAgent.AnonymousTeam; RiskAnalyzerAgent.RapidGraduation] /\
    (RiskAnalyzerAgent.risk_score r ==
     py_max 0 (7.5 - Measures.total Measures.analyzer_penalty
                       (RiskAnalyzerAgent.red_flags r)))%Q.
Proof.
  eexists. split; [reflexivity|]. split; [reflexivity|].
  apply (analysis_score_accounts_for_flags RiskAnalyzerAgent.agent_state
           Examples.oracle_ok "TokenAddress123" Examples.rapid_anonymous_token).
  reflexivity.
Defined.

Section ModelAccounting.
Import RiskScoringModel.

Local Abbreviation accounted := (Measures.accounted Measures.model_penalty Measures.model_rank).

Ltac deducts Hacc :=
  refine (accounted_deduct _ _ _ _ _ _ Hacc _ _); [simpl; lia | reflexivity].

Ltac keeps Hacc := apply (accounted_keep _ _ _ _ _ Hacc); lia.

Lemma model_check_liquidity_lock_accounted d acc acc' :
  check_liquidity_lock d acc = Ok acc' -> accounted 0%nat acc -> accounted 1%nat acc'.
Proof.
  unfold check_liquidity_lock. intros H Hacc.
  destruct (negb (truthy (get d "liquidity_locked" (PBool false)))).
  - injection H as <-. deducts Hacc.
  - bind_inv H. injection H as <-. case_if; [deducts Hacc | keeps Hacc].
Qed.

Lemma model_check_team_verification_accounted d acc acc' :
  check_team_verification d acc = Ok acc' -> accounted 1%nat acc -> accounted 2%nat acc'.
Proof.
  unfold check_team_verification. intros H Hacc. injection H as <-.
  case_if; [deducts Hacc | keeps Hacc].
Qed.

Lemma model_check_contract_verification_accounted d acc acc' :
  check_contract_verification d acc = Ok acc' -> accounted 2%nat acc -> accounted 3%nat acc'.
Proof.
  unfold check_contract_verification. intros H Hacc. injection H as <-.
  case_if; [deducts Hacc | keeps Hacc].
Qed.

Lemma model_check_vesting_accounted d acc acc' :
  check_vesting d acc = Ok acc' -> accounted 3%nat acc -> accounted 4%nat acc'.
Proof.
  unfold check_vesting. intros H Hacc. injection H as <-.
  case_if; [deducts Hacc | keeps Hacc].
Qed.

Lemma model_check_holder_concentration_accounted d acc acc' :
  check_holder_concentration d acc = Ok acc' -> accounted 4%nat acc -> accounted 5%nat acc'.
Proof.
  intros H Hacc. apply model_check_holder_concentration_Ok in H.
  destruct H as (x & _ & [(_ & _ & ->) | [(_ & _ & _ & ->) | (_ & _ & ->)]]);
    [deducts Hacc | deducts Hacc | keeps Hacc].
Qed.

Lemma model_check_rapid_graduation_accounted d acc acc' :
  check_rapid_graduation d acc = Ok acc' -> accounted 5%nat acc -> accounted 6%nat acc'.
Proof.
  unfold check_rapid_graduation. intros H Hacc. bind_inv H. injection H as <-.
  case_if; [deducts Hacc | keeps Hacc].
Qed.

Lemma model_score_and_flags_accounted d acc :
  score_and_flags d = Ok acc -> accounted 6%nat acc.
Proof.
  unfold score_and_flags. intros H.
  bind_inv H. bind_inv H. bind_inv H. bind_inv H. bind_inv H.
  eapply model_check_rapid_graduation_accounted; [exact H|].
  eapply model_check_holder_concentration_accounted; [exact Ha3|].
  eapply model_check_vesting_accounted; [exact Ha2|].
  eapply model_check_contract_verification_accounted; [exact Ha1|].
  eapply model_check_team_verification_accounted; [exact Ha0|].
  eapply model_check_liquidity_lock_accounted; [exact Ha|].
  apply accounted_start.
Qed.

Lemma model_total_nonneg flags : (0 <= Measures.total Measures.model_penalty flags)%Q.
Proof.
  induction flags as [|f flags IH]; simpl; [lra|].
  assert ((0 <= Measures.model_penalty f)%Q) by (destruct f; simpl; lra). lra.
Qed.

Lemma model_score_le d acc : score_and_flags d = Ok acc -> (acc.1 <= 7.5)%Q.
Proof.
  intros H. apply model_score_and_flags_accounted in H. destruct H as (H & _).
  pose proof (model_total_nonneg acc.2). lra.
Qed.

Lemma predict_fields now d p :
  predict now d = Ok p ->
  exists acc,
    score_and_flags d = Ok acc /\
    risk_score p = py_max 0 (py_min 10 acc.1) /\
    red_flags p = acc.2 /\
    rug_pull_probability p = py_max 0 (py_min 1 ((10 - risk_score p) / 10)) /\
    confidence p = (0.6 + inject_Z (Z.of_nat (fields_present d)) / 5 * 0.35)%Q /\
    recommendation p = _get_recommendation (risk_score p) (red_flags p) /\
    risk_level p = risk_level_of (risk_score p).
Proof.
  unfold predict. intros H. bind_inv H. bind_inv H.
  injection H as <-. exists a0. simpl. split; [assumption|]. repeat split.
Qed.

End ModelAccounting.

(** X2: whenever [predict] returns, its score is the base 7.5 less the
    amounts of the red flags, clamped at 0 (the upper clamp at 10 never
    acts); the flags come in the order of the checks, and of the two flags of
    one check (no lock or short lock, high or moderate concentration) at most
    one is raised. *)
Theorem predict_score_accounts_for_flags now d p :
  RiskScoringModel.predict now d = Ok p ->
  (RiskScoringModel.risk_score p ==
   py_max 0 (7.5 - Measures.total Measures.model_penalty
                     (RiskScoringModel.red_flags p)))%Q /\
  Measures.ascending 0 (map Measures.model_rank (RiskScoringModel.red_flags p)).
Proof.
  intros H. apply predict_fields in H.
  destruct H as (acc & Hacc & Hs & Hf & _).
  pose proof (model_score_le d acc Hacc) as Hle.
  apply model_score_and_flags_accounted in Hacc. destruct Hacc as (H1 & H2 & _).
  rewrite Hs, Hf. split; [|exact H2].
  assert (Hmin : py_min 10 acc.1 = acc.1).
  { unfold py_min. destruct (Qltb acc.1 10) eqn:E; [reflexivity|].
    apply Qltb_ge in E. lra. }
  rewrite Hmin. apply py_max_compat. exact H1.
Qed.

Lemma predict_score_accounts_for_flags_witness :
  exists p,
    RiskScoringModel.predict 0 Examples.risky_token = Ok p /\
    (RiskScoringModel.risk_score p ==
     py_max 0 (7.5 - Measures.total Measures.model_penalty
                       (RiskScoringModel.red_flags p)))%Q.
Proof.
  eexists. split; [reflexivity|].
  apply (predict_score_accounts_for_flags 0%Z Examples.risky_token). reflexivity.
Defined.

(** ** Probabilities and confidences *)

(** The clamp of [(10 - s) / 10] into [0, 1], for a score that is at most 10. *)
Lemma clamped_complement s :
  (s <= 10)%Q ->
  (py_max 0 (py_min 1 ((10 - s) / 10)) == 1 - py_max 0 s / 10)%Q.
Proof.
  intros Hs.
  assert (Hz : forall t : Q, (10 * (t / 10) == t)%Q) by (intros t; field).
  pose proof (Hz s) as Ha. pose proof (Hz (10 - s)%Q) as Hb.
  pose proof (Hz 0%Q) as Hc.
  unfold py_max, py_min.
  repeat match goal with
  | |- context [Qltb ?x ?y] =>
      let E := fresh "E" in
      destruct (Qltb x y) eqn:E; [apply Qltb_lt in E | apply Qltb_ge in E]
  | H : context [Qltb ?x ?y] |- _ =>
      let E := fresh "E" in
      destruct (Qltb x y) eqn:E; [apply Qltb_lt in E | apply Qltb_ge in E]
  end;
    set (a := (s / 10)%Q) in *; set (b := ((10 - s) / 10)%Q) in *;
    set (c := (0 / 10)%Q) in *; lra.
Qed.

Lemma py_max_0_idem x : py_max 0 (py_max 0 x) = py_max 0 x.
Proof.
  unfold py_max. destruct (Qltb 0 x) eqn:E; [now rewrite E | reflexivity].
Qed.

Lemma complement_of_tenth_range x :
  (0 <= x <= 7.5)%Q -> (0.25 <= 1 - x / 10 <= 1)%Q.
Proof.
  intros Hx. assert (Hz : (10 * (x / 10) == x)%Q) by field.
  set (a := (x / 10)%Q) in *. lra.
Qed.

Section AnalyzerOutputs.
Import RiskAnalyzerAgent.

Lemma analyze_token_risk_try_fields st run addr d r :
  analyze_token_risk_try st run addr d = Ok r ->
  exists acc,
    score_and_flags (alert_thresholds st) d = Ok acc /\
    risk_score r = py_max 0 acc.1 /\
    risk_level r = risk_level_of acc.1 /\
    fraud_probability r = py_max 0 (py_min 1 ((10 - acc.1) / 10)) /\
    recommendation r = get_risk_recommendation acc.1 acc.2.
Proof.
  unfold analyze_token_risk_try. intros H. bind_inv H. bind_inv H.
  injection H as <-. exists a0. simpl. split; [assumption|]. repeat split.
Qed.

Lemma data_completeness_range d : (0 <= data_completeness d <= 1)%Q.
Proof.
  pose proof (present_count_le d) as Hle. unfold data_completeness.
  assert (H0 : (0 <= inject_Z (Z.of_nat (present_count d)))%Q)
    by (change 0%Q with (inject_Z 0); rewrite <- Zle_Qle; lia).
  assert (H5 : (inject_Z (Z.of_nat (present_count d)) <= 5)%Q)
    by (change 5%Q with (inject_Z 5); rewrite <- Zle_Qle; lia).
  split.
  - apply Qle_shift_div_l; lra.
  - apply Qle_shift_div_r; lra.
Qed.

End AnalyzerOutputs.

(** X3: for every input and every oracle outcome, the fraud probability of
    the risk analysis is one minus a tenth of the returned score, hence
    between 0.25 and 1, and the confidence is between 0.1 and 1. *)
Theorem analysis_probability_and_confidence st run addr d :
  let r := RiskAnalyzerAgent.analyze_token_risk_with_metta st run addr d in
  (RiskAnalyzerAgent.fraud_probability r ==
   1 - RiskAnalyzerAgent.risk_score r / 10)%Q /\
  (0.25 <= RiskAnalyzerAgent.fraud_probability r <= 1)%Q /\
  (0.1 <= RiskAnalyzerAgent.confidence r <= 1)%Q.
Proof.
  intros r. subst r.
  destruct (analyze_cases st run addr d) as [-> | (r & Hr & ->)].
  - simpl. repeat split; try reflexivity; lra.
  - pose proof (analyze_token_risk_try_Ok _ _ _ _ _ Hr) as (acc0 & _ & _ & _ & _ & Hc).
    apply analyze_token_risk_try_fields in Hr.
    destruct Hr as (acc & Hacc & Hs & _ & Hp & _).
    apply score_and_flags_le in Hacc.
    assert (Hcl := clamped_complement acc.1 ltac:(lra)).
    pose proof (py_max_0_nonneg acc.1) as H0.
    assert (H1 : (py_max 0 acc.1 <= 7.5)%Q) by (apply py_max_le; lra).
    pose proof (data_completeness_range d) as Hd.
    rewrite Hs, Hp, Hc. split; [exact Hcl|]. rewrite Hcl.
    split; [apply complement_of_tenth_range; lra | lra].
Qed.

Section ModelOutputs.
Import RiskScoringModel.

Lemma fields_present_le d : (fields_present d <= 5)%nat.
Proof.
  unfold fields_present.
  etransitivity; [apply List.filter_length_le | reflexivity].
Qed.

End ModelOutputs.

(** X4: whenever [predict] returns, the rug-pull probability is one minus a
    tenth of the score, hence between 0.25 and 1, and the confidence is
    between 0.6 and 0.95. *)
Theorem predict_probability_and_confidence now d p :
  RiskScoringModel.predict now d = Ok p ->
  (RiskScoringModel.rug_pull_probability p ==
   1 - RiskScoringModel.risk_score p / 10)%Q /\
  (0.25 <= RiskScoringModel.rug_pull_probability p <= 1)%Q /\
  (0.6 <= RiskScoringModel.confidence p <= 0.95)%Q.
Proof.
  intros H. pose proof (predict_score_range _ _ _ H) as Hr.
  apply predict_fields in H.
  destruct H as (acc & Hacc & Hs & _ & Hp & Hc & _).
  apply model_score_le in Hacc.
  assert (Hle : (RiskScoringModel.risk_score p <= 7.5)%Q).
  { rewrite Hs. apply py_max_le; [lra|]. unfold py_min.
    destruct (Qltb acc.1 10) eqn:E; [lra | apply Qltb_ge in E; lra]. }
  assert (Hcl := clamped_complement (RiskScoringModel.risk_score p) ltac:(lra)).
  assert (Hid : py_max 0 (RiskScoringModel.risk_score p) =
                RiskScoringModel.risk_score p).
  { rewrite Hs. apply py_max_0_idem. }
  rewrite Hid in Hcl.
  pose proof (fields_present_le d) as Hn.
  assert (H0 : (0 <= inject_Z (Z.of_nat (RiskScoringModel.fields_present d)))%Q)
    by (change 0%Q with (inject_Z 0); rewrite <- Zle_Qle; lia).
  assert (H5 : (inject_Z (Z.of_nat (RiskScoringModel.fields_present d)) <= 5)%Q)
    by (change 5%Q with (inject_Z 5); rewrite <- Zle_Qle; lia).
  rewrite Hp, Hc. split; [exact Hcl|]. rewrite Hcl.
  split; [apply complement_of_tenth_range; lra|].
  assert (Hz : (5 * (inject_Z (Z.of_nat (RiskScoringModel.fields_present d)) / 5)
                == inject_Z (Z.of_nat (RiskScoringModel.fields_present d)))%Q) by field.
  set (c := (inject_Z (Z.of_nat (RiskScoringModel.fields_present d)) / 5)%Q) in *.
  lra.
Qed.

Lemma predict_probability_and_confidence_witness :
  exists p,
    RiskScoringModel.predict 0 Examples.model_example_token = Ok p /\
    (RiskScoringModel.rug_pull_probability p ==
     1 - RiskScoringModel.risk_score p / 10)%Q.
Proof.
  eexists. split; [reflexivity|].
  apply (predict_probability_and_confidence 0%Z Examples.model_example_token).
  reflexivity.
Defined.

(** ** Recommendations *)

(** Decides the comparisons of a score with the bounds of the bands, and
    drops the cases that contradict each other. *)
Ltac band_cases :=
  repeat match goal with
  | |- context [Qltb ?x ?y] =>
      let E := fresh "E" in
      destruct (Qltb x y) eqn:E; [apply Qltb_lt in E | apply Qltb_ge in E]
  end;
  try (exfalso; lra).

(** Proves an equivalence between equations of texts that are given. *)
Ltac text_iff :=
  split; intros H;
  repeat match type of H with _ \/ _ => destruct H as [H|H] end;
  try discriminate H; auto.

(** X5: the risk analysis never gives its best recommendation ("LOW RISK -
    Strong safety indicators"), because no score exceeds 7.5; its level is
    HIGH exactly when the recommendation is one of the two warnings, and LOW
    exactly when the recommendation is "LOW-MEDIUM RISK". *)
Theorem analysis_recommendation_matches_level st run addr d :
  let r := RiskAnalyzerAgent.analyze_token_risk_with_metta st run addr d in
  RiskAnalyzerAgent.recommendation r <>
    "LOW RISK - Strong safety indicators. Good investment candidate." /\
  (RiskAnalyzerAgent.risk_level r = "HIGH" <->
   RiskAnalyzerAgent.recommendation r =
     "HIGH RISK - Do not invest. Multiple fraud indicators detected." \/
   RiskAnalyzerAgent.recommendation r =
     "MEDIUM-HIGH RISK - Proceed with extreme caution. Consider waiting for more data.") /\
  (RiskAnalyzerAgent.risk_level r = "LOW" <->
   RiskAnalyzerAgent.recommendation r =
     "LOW-MEDIUM RISK - Generally safe. Standard due diligence recommended.").
Proof.
  intros r. subst r.
  destruct (analyze_cases st run addr d) as [-> | (r & Hr & ->)].
  - simpl. split; [discriminate|]. split; text_iff.
  - apply analyze_token_risk_try_fields in Hr.
    destruct Hr as (acc & Hacc & _ & -> & _ & ->).
    apply score_and_flags_le in Hacc.
    unfold RiskAnalyzerAgent.risk_level_of, RiskAnalyzerAgent.get_risk_recommendation.
    band_cases; (split; [discriminate|]); split; text_iff.
Qed.

(** X6: whenever [predict] returns, its recommendation is never the best
    one ("LOW RISK - Strong safety indicators."); the level is LOW exactly
    when the recommendation is "LOW-MEDIUM RISK", and a "HIGH RISK"
    recommendation comes with the level HIGH. *)
Theorem predict_recommendation_matches_level now d p :
  RiskScoringModel.predict now d = Ok p ->
  RiskScoringModel.recommendation p <> "LOW RISK - Strong safety indicators." /\
  (RiskScoringModel.risk_level p = "LOW" <->
   RiskScoringModel.recommendation p =
     "LOW-MEDIUM RISK - Generally safe with standard due diligence.") /\
  (RiskScoringModel.recommendation p =
     "HIGH RISK - Do not invest. Multiple fraud indicators detected." ->
   RiskScoringModel.risk_level p = "HIGH").
Proof.
  intros H. pose proof (predict_score_range _ _ _ H) as Hr.
  apply predict_fields in H.
  destruct H as (acc & Hacc & Hs & _ & _ & _ & -> & ->).
  apply model_score_le in Hacc.
  assert (Hle : (RiskScoringModel.risk_score p <= 7.5)%Q).
  { rewrite Hs. apply py_max_le; [lra|]. unfold py_min.
    destruct (Qltb acc.1 10) eqn:E; [lra | apply Qltb_ge in E; lra]. }
  generalize dependent (RiskScoringModel.risk_score p). intros s _ _ Hle.
  unfold RiskScoringModel.risk_level_of, RiskScoringModel._get_recommendation.
  band_cases; (split; [discriminate|]); split;
    try text_iff; intros H; try discriminate H; reflexivity.
Qed.

Lemma predict_recommendation_matches_level_witness :
  exists p,
    RiskScoringModel.predict 0 Examples.model_example_token = Ok p /\
    RiskScoringModel.risk_level p = "LOW" /\
    RiskScoringModel.recommendation p =
      "LOW-MEDIUM RISK - Generally safe with standard due diligence.".
Proof.
  eexists. split; [reflexivity|]. split; [reflexivity|].
  apply (predict_recommendation_matches_level 0%Z Examples.model_example_token _ eq_refl).
  reflexivity.
Defined.

(** ** When [predict] returns *)

Lemma bind_Raise_inv {A B} (m : res A) (f : A -> res B) (e : exn) :
  m ≫= f = Raise e -> m = Raise e \/ exists a, m = Ok a /\ f a = Raise e.
Proof. destruct m as [a|e']; simpl; [eauto | intros [= ->]; auto]. Qed.

Lemma num_raises v e : num v = Raise e -> e = TypeError.
Proof. unfold num. destruct (as_num v); [discriminate | now intros [= <-]]. Qed.

Lemma py_lt_raises v c e : py_lt v c = Raise e -> e = TypeError.
Proof.
  unfold py_lt. intros H. apply bind_Raise_inv in H.
  destruct H as [H | (x & _ & H)]; [eapply num_raises; eauto | discriminate].
Qed.

Section ModelReturns.
Import RiskScoringModel.

Local Abbreviation numeric d k :=
  (match d !! k with Some v => is_Some (as_num v) | None => True end).

(** A special float divides and converts without an exception. *)
Lemma div_special_returns x c :
  (forall q, x <> Fin q) -> Qeq_bool c 0 = false ->
  exists y, (y' ← num_div x (Fin c); to_float y') = Ok y.
Proof.
  intros Hx Hc. unfold num_div. rewrite Hc.
  destruct x as [q| | |]; [now destruct (Hx q)| | |]; simpl;
    repeat case_if; simpl; eauto.
Qed.

Lemma div_by_returns_iff d k dflt c :
  Qeq_bool c 0 = false ->
  too_large (dflt / c) = false ->
  (exists y, div_by (get d k (PNum (Fin dflt))) c = Ok y) <->
  numeric d k /\ quotient_converts d k c.
Proof.
  intros Hc Hd. unfold get, quotient_converts, finite_field, div_by, num.
  destruct (d !! k) as [v|]; simpl.
  - destruct (as_num v) as [x|]; simpl.
    + destruct x as [q| | |].
      * rewrite Hc. simpl. fold (Qdiv q c). split.
        -- intros [y H]. split; [eauto|]. intros q0 [= <-].
           destruct (too_large (q / c)); [discriminate | reflexivity].
        -- intros [_ H]. rewrite (H q eq_refl). eauto.
      * split; [intros _; split; [eauto | discriminate]|].
        intros _. apply (div_special_returns PosInf c); [discriminate | exact Hc].
      * split; [intros _; split; [eauto | discriminate]|].
        intros _. apply (div_special_returns NegInf c); [discriminate | exact Hc].
      * split; [intros _; split; [eauto | discriminate]|].
        intros _. apply (div_special_returns NaN c); [discriminate | exact Hc].
    + split; [intros [y H]; discriminate | intros [[x Hx] _]; discriminate].
  - rewrite Hc. simpl. fold (Qdiv dflt c). rewrite Hd.
    split; [intros _; split; [exact I | discriminate] | eauto].
Qed.

Lemma div_by_float_returns_iff d k c :
  Qeq_bool c 0 = false ->
  (exists y, div_by_float (get d k (PNum (Fin 0))) c = Ok y) <->
  numeric d k /\ field_converts d k.
Proof.
  intros Hc. unfold get, field_converts, finite_field, div_by_float, num.
  destruct (d !! k) as [v|]; simpl.
  - destruct (as_num v) as [x|]; simpl.
    + destruct x as [q| | |]; simpl.
      * split.
        -- intros [y H]. split; [eauto|]. intros q0 [= <-].
           destruct (too_large q); [discriminate | reflexivity].
        -- intros [_ H]. rewrite (H q eq_refl). simpl. rewrite Hc. eauto.
      * rewrite Hc. split; [intros _; split; [eauto | discriminate] | eauto].
      * rewrite Hc. split; [intros _; split; [eauto | discriminate] | eauto].
      * rewrite Hc. split; [intros _; split; [eauto | discriminate] | eauto].
    + split; [intros [y H]; discriminate | intros [[x Hx] _]; discriminate].
  - change (too_large 0) with false. simpl. rewrite Hc.
    split; [intros _; split; [exact I | discriminate] | eauto].
Qed.

Lemma div_by_raises v c e :
  Qeq_bool c 0 = false -> div_by v c = Raise e ->
  e = TypeError \/ e = OverflowError.
Proof.
  intros Hc. unfold div_by. intros H. apply bind_Raise_inv in H.
  destruct H as [H | (x & _ & H)]; [left; eapply num_raises; eauto|].
  apply bind_Raise_inv in H. destruct H as [H | (y & _ & H)].
  - unfold num_div in H. rewrite Hc in H. discriminate.
  - right. eapply to_float_raises; eauto.
Qed.

Lemma div_by_float_raises v c e :
  Qeq_bool c 0 = false -> div_by_float v c = Raise e ->
  e = TypeError \/ e = OverflowError.
Proof.
  intros Hc. unfold div_by_float. intros H. apply bind_Raise_inv in H.
  destruct H as [H | (x & _ & H)]; [left; eapply num_raises; eauto|].
  apply bind_Raise_inv in H. destruct H as [H | (y & _ & H)].
  - right. eapply to_float_raises; eauto.
  - unfold num_div in H. rewrite Hc in H. discriminate.
Qed.

(** The features are computed exactly when the eight divisions return. *)
Lemma prepare_features_returns_iff d :
  (exists fs, prepare_features d = Ok fs) <->
  numeric_or_absent d /\
  quotient_converts d "liquidity_lock_duration" 365 /\
  quotient_converts d "top_holder_percentage" 100 /\
  quotient_converts d "graduation_time_hours" 168 /\
  quotient_converts d "initial_liquidity" 100000 /\
  quotient_converts d "holder_count" 10000 /\
  quotient_converts d "volume_24h" 1000000 /\
  field_converts d "price_volatility" /\
  quotient_converts d "avg_wallet_age_days" 365.
Proof.
  pose proof (div_by_returns_iff d "liquidity_lock_duration" 0 365 eq_refl eq_refl) as D1.
  pose proof (div_by_returns_iff d "top_holder_percentage" 0 100 eq_refl eq_refl) as D2.
  pose proof (div_by_returns_iff d "graduation_time_hours" 168 168 eq_refl eq_refl) as D3.
  pose proof (div_by_returns_iff d "initial_liquidity" 0 100000 eq_refl eq_refl) as D4.
  pose proof (div_by_returns_iff d "holder_count" 0 10000 eq_refl eq_refl) as D5.
  pose proof (div_by_returns_iff d "volume_24h" 0 1000000 eq_refl eq_refl) as D6.
  pose proof (div_by_float_returns_iff d "price_volatility" 0.5 eq_refl) as D7.
  pose proof (div_by_returns_iff d "avg_wallet_age_days" 0 365 eq_refl eq_refl) as D8.
  unfold prepare_features, numeric_or_absent, numeric_fields. split.
  - intros [fs H].
    bind_inv H. bind_inv H. bind_inv H. bind_inv H.
    bind_inv H. bind_inv H. bind_inv H. bind_inv H.
    destruct (proj1 D1 (ex_intro _ _ Ha)) as [N1 C1].
    destruct (proj1 D2 (ex_intro _ _ Ha0)) as [N2 C2].
    destruct (proj1 D3 (ex_intro _ _ Ha1)) as [N3 C3].
    destruct (proj1 D4 (ex_intro _ _ Ha2)) as [N4 C4].
    destruct (proj1 D5 (ex_intro _ _ Ha3)) as [N5 C5].
    destruct (proj1 D6 (ex_intro _ _ Ha4)) as [N6 C6].
    destruct (proj1 D7 (ex_intro _ _ Ha5)) as [N7 C7].
    destruct (proj1 D8 (ex_intro _ _ Ha6)) as [N8 C8].
    split; [|tauto].
    repeat (first [apply Forall_nil_2 | apply Forall_cons_2]); assumption.
  - intros (Hn & C1 & C2 & C3 & C4 & C5 & C6 & C7 & C8).
    apply Forall_cons_1 in Hn. destruct Hn as [N1 Hn].
    apply Forall_cons_1 in Hn. destruct Hn as [N2 Hn].
    apply Forall_cons_1 in Hn. destruct Hn as [N3 Hn].
    apply Forall_cons_1 in Hn. destruct Hn as [N4 Hn].
    apply Forall_cons_1 in Hn. destruct Hn as [N5 Hn].
    apply Forall_cons_1 in Hn. destruct Hn as [N6 Hn].
    apply Forall_cons_1 in Hn. destruct Hn as [N7 Hn].
    apply Forall_cons_1 in Hn. destruct Hn as [N8 _].
    destruct (proj2 D1 (conj N1 C1)) as [y1 ->]. rewrite bind_Ok_l.
    destruct (proj2 D2 (conj N2 C2)) as [y2 ->]. rewrite bind_Ok_l.
    destruct (proj2 D3 (conj N3 C3)) as [y3 ->]. rewrite bind_Ok_l.
    destruct (proj2 D4 (conj N4 C4)) as [y4 ->]. rewrite bind_Ok_l.
    destruct (proj2 D5 (conj N5 C5)) as [y5 ->]. rewrite bind_Ok_l.
    destruct (proj2 D6 (conj N6 C6)) as [y6 ->]. rewrite bind_Ok_l.
    destruct (proj2 D7 (conj N7 C7)) as [y7 ->]. rewrite bind_Ok_l.
    destruct (proj2 D8 (conj N8 C8)) as [y8 ->]. rewrite bind_Ok_l.
    eauto.
Qed.

Lemma prepare_features_raises d e :
  prepare_features d = Raise e -> e = TypeError \/ e = OverflowError.
Proof.
  unfold prepare_features. intros H.
  repeat (apply bind_Raise_inv in H;
          destruct H as [H | (? & _ & H)];
          [first [eapply div_by_raises; [|exact H]; reflexivity
                 |eapply div_by_float_raises; [|exact H]; reflexivity]|]).
  discriminate.
Qed.

(** A comparison with a field that holds a number returns. *)
Lemma py_lt_returns d k dflt c :
  numeric d k -> exists b, py_lt (get d k (PNum dflt)) c = Ok b.
Proof.
  unfold get, py_lt, num. destruct (d !! k) as [v|]; simpl.
  - intros [x ->]. simpl. eauto.
  - eauto.
Qed.

(** The check of the holder concentration returns exactly when the number
    it formats converts to a float. *)
Lemma check_holder_concentration_returns_iff d acc :
  numeric d "top_holder_percentage" ->
  (exists acc', check_holder_concentration d acc = Ok acc') <->
  (forall q, finite_field d "top_holder_percentage" = Some q ->
             (20 < q)%Q -> too_large q = false).
Proof.
  unfold check_holder_concentration, get, finite_field, num.
  destruct (d !! "top_holder_percentage") as [v|]; simpl.
  - intros [x ->]. simpl. destruct x as [q| | |]; simpl.
    + destruct (Qltb 30 q) eqn:E30; [|destruct (Qltb 20 q) eqn:E20]; simpl.
      * apply Qltb_lt in E30. split.
        -- intros [acc' H] q0 [= <-] _.
           destruct (too_large q); [discriminate | reflexivity].
        -- intros H. rewrite (H q eq_refl) by lra. simpl. eauto.
      * apply Qltb_lt in E20. split.
        -- intros [acc' H] q0 [= <-] _.
           destruct (too_large q); [discriminate | reflexivity].
        -- intros H. rewrite (H q eq_refl) by lra. simpl. eauto.
      * apply Qltb_ge in E20. split; [|eauto].
        intros _ q0 [= <-] Hq. lra.
    + split; [discriminate | simpl; eauto].
    + split; [discriminate | simpl; eauto].
    + split; [discriminate | simpl; eauto].
  - intros _. split; [discriminate | simpl; eauto].
Qed.

(** After the features were computed, the rules return exactly when the
    holder concentration can be formatted. *)
Lemma model_score_and_flags_returns_iff d :
  numeric_or_absent d ->
  (exists acc, score_and_flags d = Ok acc) <->
  (forall q, finite_field d "top_holder_percentage" = Some q ->
             (20 < q)%Q -> too_large q = false).
Proof.
  intros Hn. unfold numeric_or_absent, numeric_fields in Hn.
  apply Forall_cons_1 in Hn. destruct Hn as [N1 Hn].
  apply Forall_cons_1 in Hn. destruct Hn as [N2 Hn].
  apply Forall_cons_1 in Hn. destruct Hn as [N3 _].
  assert (L : forall acc, exists acc', check_liquidity_lock d acc = Ok acc').
  { intros acc. unfold check_liquidity_lock.
    destruct (negb _); [simpl; eauto|].
    destruct (py_lt_returns d "liquidity_lock_duration" (Fin 0) 30 N1) as [b ->].
    simpl. eauto. }
  assert (G : forall acc, exists acc', check_rapid_graduation d acc = Ok acc').
  { intros acc. unfold check_rapid_graduation.
    destruct (py_lt_returns d "graduation_time_hours" (Fin 168) 24 N3) as [b ->].
    simpl. eauto. }
  unfold score_and_flags.
  destruct (L (7.5%Q, [])) as [a1 ->]. rewrite bind_Ok_l.
  unfold check_team_verification at 1. rewrite bind_Ok_l.
  unfold check_contract_verification at 1. rewrite bind_Ok_l.
  unfold check_vesting at 1. rewrite bind_Ok_l.
  match goal with
  | |- context [check_holder_concentration d ?a] =>
      rewrite <- (check_holder_concentration_returns_iff d a N2);
      destruct (check_holder_concentration d a) as [a5|e]
  end.
  - rewrite bind_Ok_l. destruct (G a5) as [a6 ->]. split; eauto.
  - split; intros [acc H]; discriminate.
Qed.

Lemma model_check_holder_concentration_raises d acc e :
  check_holder_concentration d acc = Raise e ->
  e = TypeError \/ e = OverflowError.
Proof.
  unfold check_holder_concentration. intros H.
  apply bind_Raise_inv in H. destruct H as [H | (x & _ & H)];
    [left; eapply num_raises; eauto|].
  destruct (num_ltb (Fin 30) x); [|destruct (num_ltb (Fin 20) x)];
    try discriminate;
    (apply bind_Raise_inv in H; destruct H as [H | (? & _ & H)];
     [right; eapply to_float_raises; eauto | discriminate]).
Qed.

Lemma model_score_and_flags_raises d e :
  score_and_flags d = Raise e -> e = TypeError \/ e = OverflowError.
Proof.
  unfold score_and_flags. intros H.
  apply bind_Raise_inv in H. destruct H as [H | (a1 & _ & H)].
  { unfold check_liquidity_lock in H. destruct (negb _); [discriminate|].
    apply bind_Raise_inv in H. destruct H as [H | (? & _ & H)];
      [left; eapply py_lt_raises; eauto | discriminate]. }
  apply bind_Raise_inv in H. destruct H as [H | (a2 & _ & H)]; [discriminate|].
  apply bind_Raise_inv in H. destruct H as [H | (a3 & _ & H)]; [discriminate|].
  apply bind_Raise_inv in H. destruct H as [H | (a4 & _ & H)]; [discriminate|].
  apply bind_Raise_inv in H. destruct H as [H | (a5 & _ & H)].
  { eapply model_check_holder_concentration_raises; eauto. }
  unfold check_rapid_graduation in H.
  apply bind_Raise_inv in H. destruct H as [H | (? & _ & H)];
    [left; eapply py_lt_raises; eauto | discriminate].
Qed.

End ModelReturns.

(** X7: [predict] returns exactly when each of the eight numeric fields is
    absent or holds a number (a [bool] counts as one) and none of these
    numbers is an [int] too large for the conversion to float the code
    makes of it; otherwise it raises [TypeError] or [OverflowError], and
    nothing else. *)
Theorem predict_returns_iff_numeric now d :
  ((exists p, RiskScoringModel.predict now d = Ok p) <->
   RiskScoringModel.numeric_or_absent d /\ RiskScoringModel.converts d) /\
  (forall e, RiskScoringModel.predict now d = Raise e ->
             e = TypeError \/ e = OverflowError).
Proof.
  split; [split|].
  - intros (p & H). unfold RiskScoringModel.predict in H.
    bind_inv H. bind_inv H.
    destruct (proj1 (prepare_features_returns_iff d) (ex_intro _ _ Ha))
      as (Hn & C).
    pose proof (proj1 (model_score_and_flags_returns_iff d Hn) (ex_intro _ _ Ha0)).
    unfold RiskScoringModel.converts. tauto.
  - intros (Hn & C). unfold RiskScoringModel.converts in C.
    destruct (proj2 (prepare_features_returns_iff d)) as [fs Hfs]; [tauto|].
    destruct (proj2 (model_score_and_flags_returns_iff d Hn)) as [acc Hacc];
      [tauto|].
    unfold RiskScoringModel.predict. rewrite Hfs, bind_Ok_l, Hacc, bind_Ok_l.
    eauto.
  - intros e H. unfold RiskScoringModel.predict in H.
    apply bind_Raise_inv in H. destruct H as [H | (fs & _ & H)].
    + eapply prepare_features_raises; eauto.
    + apply bind_Raise_inv in H. destruct H as [H | (acc & _ & H)].
      * eapply model_score_and_flags_raises; eauto.
      * discriminate.
Qed.

Lemma predict_returns_iff_numeric_witness :
  RiskScoringModel.predict 0 Examples.ill_typed_token = Raise TypeError /\
  RiskScoringModel.predict 0 MoreExamples.huge_lock_token = Raise OverflowError /\
  ~ (RiskScoringModel.numeric_or_absent MoreExamples.huge_lock_token /\
     RiskScoringModel.converts MoreExamples.huge_lock_token).
Proof.
  split; [reflexivity|]. split; [vm_compute; reflexivity|].
  intros Hn.
  apply (proj2 (proj1 (predict_returns_iff_numeric 0%Z MoreExamples.huge_lock_token)))
    in Hn.
  destruct Hn as (p & Hp). vm_compute in Hp. discriminate Hp.
Defined.

Lemma min_one_not_above_one x :
  num_ltb (Fin 1) (RiskScoringModel.min_one x) = false.
Proof.
  unfold RiskScoringModel.min_one.
  destruct (num_ltb (Fin 1.0) x) eqn:E; [reflexivity|].
  destruct x; simpl in *; try reflexivity; try discriminate.
  rewrite <- E. apply Qltb_compat; reflexivity.
Qed.

(** X8: whenever [prepare_features] returns, the vector has exactly
    thirteen features, the first four are 0 or 1, and none of the last four
    exceeds 1. *)
Theorem prepare_features_shape d fs :
  RiskScoringModel.prepare_features d = Ok fs ->
  length fs = 13%nat /\
  Forall (fun f => f = Fin 0 \/ f = Fin 1) (firstn 4 fs) /\
  Forall (fun f => num_ltb (Fin 1) f = false) (skipn 9 fs).
Proof.
  unfold RiskScoringModel.prepare_features. intros H.
  bind_inv H. bind_inv H. bind_inv H. bind_inv H.
  bind_inv H. bind_inv H. bind_inv H. bind_inv H.
  injection H as <-. split; [reflexivity|]. split.
  - simpl. unfold RiskScoringModel.truth_feature.
    repeat (first [apply Forall_nil_2 | apply Forall_cons_2]); case_if; auto.
  - cbn [skipn].
    repeat (first [apply Forall_nil_2 | apply Forall_cons_2]);
      apply min_one_not_above_one.
Qed.

Lemma prepare_features_shape_witness :
  exists fs,
    RiskScoringModel.prepare_features Examples.model_example_token = Ok fs /\
    length fs = 13%nat.
Proof.
  eexists. split; [reflexivity|].
  apply (prepare_features_shape Examples.model_example_token). reflexivity.
Defined.

(** ** Rug-pull detection and alerts *)

Section Detection.
Import RiskAnalyzerAgent.

Lemma detect_zero_price s run addr ph :
  Measures.zero_first_price ph ->
  detect_rug_pull_pattern s run addr ph = Raise ZeroDivisionError.
Proof.
  intros (l & x & y & q & y' & -> & Hlen & Hfl & Hx & Hq & Hy & _).
  unfold detect_rug_pull_pattern. simpl py_len. cbn [mbind res_bind].
  assert (Hn : (length l <? 5)%nat = false) by (apply Nat.ltb_ge; lia).
  rewrite Hn. unfold price_drop_of. rewrite Hfl. cbn [mbind res_bind fst snd].
  unfold num. rewrite Hx, Hy. cbn [mbind res_bind]. unfold num_div.
  assert (Hz : Qeq_bool q 0 = true) by (apply Qeq_bool_iff; exact Hq).
  rewrite Hz. reflexivity.
Qed.

Lemma monitor_one_alerts fetch oracle w key :
  let w' := (monitor_one fetch oracle w key).1 in
  exists evs,
    trace w' = trace w ++ evs /\
    alerts_sent (st w') =
      (alerts_sent (st w) + Z.of_nat (length (List.filter Measures.is_risk_alert evs)))%Z /\
    Forall Measures.alert_is_high evs.
Proof.
  destruct key as [addr|code].
  2:{ simpl. exists []. rewrite app_nil_r. simpl.
      split; [reflexivity|]. split; [lia | constructor]. }
  unfold monitor_one.
  set (r := analyze_token_risk_with_metta _ _ _ _).
  destruct (String.eqb (risk_level r) "HIGH") eqn:Eh;
    [apply String.eqb_eq in Eh|];
    (destruct (fetch (Text addr) !! "price_history") as [ph|];
     [ destruct (detect_rug_pull_pattern _ _ _ _) as [[s' a]|e] eqn:E;
       [apply detect_never_detects in E; destruct E as [-> ->]|] |]);
    simpl; rewrite <- ?app_assoc; eexists;
    (split; [reflexivity|]);
    (split; [simpl; lia|]);
    repeat (first [apply Forall_nil_2 | apply Forall_cons_2]); simpl; auto.
Qed.

Lemma monitor_loop_alerts fetch oracle tokens : forall w,
  let w' := (monitor_loop fetch oracle w tokens).1 in
  exists evs,
    trace w' = trace w ++ evs /\
    alerts_sent (st w') =
      (alerts_sent (st w) + Z.of_nat (length (List.filter Measures.is_risk_alert evs)))%Z /\
    Forall Measures.alert_is_high evs.
Proof.
  induction tokens as [|addr rest IH]; intros w; cbn [monitor_loop].
  - exists []. rewrite app_nil_r. simpl. repeat split; [lia | constructor].
  - destruct (monitor_one_alerts fetch oracle w addr) as (evs1 & Ht1 & Ha1 & Hh1).
    destruct (monitor_one fetch oracle w addr) as [w1 [e|]]; simpl in *.
    + exists evs1. auto.
    + destruct (IH w1) as (evs & Ht & Ha & Hh).
      exists (evs1 ++ evs). split; [|split].
      * rewrite Ht, Ht1, <- app_assoc. reflexivity.
      * rewrite List.filter_app, length_app, Ha, Ha1. lia.
      * apply Forall_app. auto.
Qed.

(** An iteration whose detection returns ends without an exception. *)
Lemma monitor_one_detection_returns fetch oracle w addr :
  Measures.detection_returns (fetch (Text addr)) addr ->
  (monitor_one fetch oracle w (Text addr)).2 = None.
Proof.
  unfold Measures.detection_returns, monitor_one. intros H.
  set (r := analyze_token_risk_with_metta _ _ _ _).
  destruct (fetch (Text addr) !! "price_history") as [ph|]; [|reflexivity].
  match goal with
  | |- context [detect_rug_pull_pattern ?s ?run addr ph] =>
      specialize (H s run);
      destruct (detect_rug_pull_pattern s run addr ph) as [[s' a]|e];
      [|discriminate]
  end.
  now destruct (rug_pull_detected a).
Qed.

(** A loop over tokens whose detection returns evaluates them all. *)
Lemma monitor_loop_detection_returns fetch oracle tokens : forall w,
  (forall b, In b tokens -> Measures.detection_returns (fetch (Text b)) b) ->
  exists w' evs,
    monitor_loop fetch oracle w (map Text tokens) = (w', None) /\
    trace w' = trace w ++ evs /\
    evaluated_ids evs = tokens.
Proof.
  induction tokens as [|addr rest IH]; intros w H; cbn [map monitor_loop].
  - exists w, []. repeat split. now rewrite app_nil_r.
  - pose proof (monitor_one_detection_returns fetch oracle w addr
                  (H addr (or_introl eq_refl))) as Hn.
    destruct (risk_monitor_one_trace fetch oracle w addr) as (evs1 & Ht1 & He1).
    destruct (monitor_one fetch oracle w (Text addr)) as [w1 e].
    simpl in Hn, Ht1. subst e.
    destruct (IH w1) as (w' & evs & Hl & Ht & He);
      [intros b Hb; apply H; now right|].
    exists w', (evs1 ++ evs). repeat split.
    + exact Hl.
    + rewrite Ht, Ht1, <- app_assoc. reflexivity.
    + rewrite risk_evaluated_ids_app, He1, He. reflexivity.
Qed.

End Detection.

(** X9: whenever the rug-pull detection returns, the agent state is as it
    was and the result is one of two.  Either it is the short result
    (nothing detected, confidence 0.0, neither indicators nor action), and
    then the history has fewer than five entries or the oracle call raised.
    Or the oracle call returned, and the result says that nothing was
    detected, with confidence 0.95, the action "CONTINUE_MONITORING" and no
    volume spike among its indicators.  It never asks to alert. *)
Theorem detection_result_shape s run addr price_history s' a :
  RiskAnalyzerAgent.detect_rug_pull_pattern s run addr price_history = Ok (s', a) ->
  s' = s /\
  ((a = RiskAnalyzerAgent.no_detection /\
    ((exists n, py_len price_history = Ok n /\ (n < 5)%nat) \/
     (exists drop,
        returns (run (RiskAnalyzerAgent.DetectRugPullPattern drop false)) = false))) \/
   (exists ind drop,
      returns (run (RiskAnalyzerAgent.DetectRugPullPattern drop false)) = true /\
      RiskAnalyzerAgent.rug_pull_detected a = false /\
      RiskAnalyzerAgent.rug_confidence a = 0.95%Q /\
      RiskAnalyzerAgent.indicators a = Some ind /\
      RiskAnalyzerAgent.volume_spike_before_drop ind = false /\
      RiskAnalyzerAgent.action a = Some "CONTINUE_MONITORING")).
Proof.
  unfold RiskAnalyzerAgent.detect_rug_pull_pattern. intros H. bind_inv H.
  destruct (a0 <? 5)%nat eqn:En.
  - injection H as <- <-. split; [reflexivity|]. left. split; [reflexivity|].
    left. exists a0. split; [assumption | now apply Nat.ltb_lt].
  - bind_inv H. destruct (run _) eqn:Er.
    + rewrite andb_false_r in H. injection H as <- <-. split; [reflexivity|].
      right. eexists _, a1. rewrite Er. repeat split.
    + injection H as <- <-. split; [reflexivity|]. left. split; [reflexivity|].
      right. exists a1. rewrite Er. reflexivity.
Qed.

Lemma detection_result_shape_witness :
  exists a,
    RiskAnalyzerAgent.detect_rug_pull_pattern RiskAnalyzerAgent.agent_state
      Examples.oracle_ok "TokenAddress123" Examples.crashing_prices =
    Ok (RiskAnalyzerAgent.agent_state, a) /\
    RiskAnalyzerAgent.rug_confidence a = 0.95%Q /\
    RiskAnalyzerAgent.action a = Some "CONTINUE_MONITORING".
Proof.
  eexists. split; [reflexivity|].
  destruct (detection_result_shape RiskAnalyzerAgent.agent_state Examples.oracle_ok
              "TokenAddress123" Examples.crashing_prices _ _ eq_refl)
    as (_ & [(_ & [(n & Hn & Hlt) | (drop & Hd)]) | (ind & drop & _ & _ & Hc & _ & _ & Ha)]).
  - injection Hn as <-. simpl in Hlt. lia.
  - discriminate Hd.
  - split; [exact Hc | exact Ha].
Defined.

(** X10: a price history of five or more prices whose first recent price is
    zero makes the detection raise [ZeroDivisionError], whatever the oracle
    does.  When the detection returns for the tokens registered before the
    token with that history, the tick of the monitoring loop evaluates them
    and that token, ends there with the exception, and does not evaluate
    the tokens after it. *)
Theorem zero_price_ends_tick fetch oracle w before addr rest price_history :
  RiskAnalyzerAgent.kd_keys (RiskAnalyzerAgent.monitored_tokens (RiskAnalyzerAgent.st w)) =
    map RiskAnalyzerAgent.Text before ++ RiskAnalyzerAgent.Text addr :: rest ->
  (forall b, In b before ->
     Measures.detection_returns (fetch (RiskAnalyzerAgent.Text b)) b) ->
  fetch (RiskAnalyzerAgent.Text addr) !! "price_history" = Some price_history ->
  Measures.zero_first_price price_history ->
  (forall s run a,
     RiskAnalyzerAgent.detect_rug_pull_pattern s run a price_history =
     Raise ZeroDivisionError) /\
  exists w' evs,
    RiskAnalyzerAgent.monitor_active_tokens_with fetch oracle w =
      (w', Some ZeroDivisionError) /\
    RiskAnalyzerAgent.trace w' = RiskAnalyzerAgent.trace w ++ evs /\
    RiskAnalyzerAgent.evaluated_ids evs = before ++ [addr].
Proof.
  intros Hk Hb Hf Hz. split.
  - intros s run a. now apply detect_zero_price.
  - unfold RiskAnalyzerAgent.monitor_active_tokens_with. rewrite Hk.
    destruct (monitor_loop_detection_returns fetch oracle before w Hb)
      as (w0 & evs0 & Hl0 & Ht0 & He0).
    rewrite (monitor_loop_app _ _ _ _ _ _ Hl0).
    cbn [RiskAnalyzerAgent.monitor_loop].
    destruct (risk_monitor_one_trace fetch oracle w0 addr) as (evs & Ht & He).
    assert (Hr : (RiskAnalyzerAgent.monitor_one fetch oracle w0
                    (RiskAnalyzerAgent.Text addr)).2 =
                 Some ZeroDivisionError).
    { unfold RiskAnalyzerAgent.monitor_one. rewrite Hf.
      rewrite detect_zero_price by assumption. reflexivity. }
    destruct (RiskAnalyzerAgent.monitor_one fetch oracle w0
                (RiskAnalyzerAgent.Text addr)) as [w1 e].
    simpl in Hr, Ht. subst e. exists w1, (evs0 ++ evs). repeat split.
    + rewrite Ht, Ht0, <- app_assoc. reflexivity.
    + rewrite risk_evaluated_ids_app, He0, He. reflexivity.
Qed.

Lemma zero_price_ends_tick_witness :
  exists w' evs,
    RiskAnalyzerAgent.monitor_active_tokens_with MoreExamples.fetch_zero_price
      (fun _ => Examples.oracle_ok) MoreExamples.risk_three_tokens =
      (w', Some ZeroDivisionError) /\
    RiskAnalyzerAgent.trace w' =
      RiskAnalyzerAgent.trace MoreExamples.risk_three_tokens ++ evs /\
    RiskAnalyzerAgent.evaluated_ids evs = ["TokenA"; "TokenB"].
Proof.
  apply (zero_price_ends_tick MoreExamples.fetch_zero_price
           (fun _ => Examples.oracle_ok) MoreExamples.risk_three_tokens
           ["TokenA"] "TokenB" [RiskAnalyzerAgent.Text "TokenC"]
           MoreExamples.prices_from_zero).
  - reflexivity.
  - intros b [<- | []]. exact I.
  - reflexivity.
  - unfold Measures.zero_first_price, MoreExamples.prices_from_zero.
    eexists _, _, _, 0%Q, _. split; [reflexivity|]. split; [simpl; lia|].
    split; [reflexivity|]. split; [reflexivity|]. split; [reflexivity|].
    split; reflexivity.
Defined.

(** X11: over any on-chain data, a tick of [monitor_active_tokens] raises
    [alerts_sent] by exactly the number of risk alerts it sends, and every
    risk alert it sends is for an analysis of level HIGH. *)
Theorem tick_counts_its_alerts fetch oracle w :
  let w' := (RiskAnalyzerAgent.monitor_active_tokens_with fetch oracle w).1 in
  exists evs,
    RiskAnalyzerAgent.trace w' = RiskAnalyzerAgent.trace w ++ evs /\
    RiskAnalyzerAgent.alerts_sent (RiskAnalyzerAgent.st w') =
      (RiskAnalyzerAgent.alerts_sent (RiskAnalyzerAgent.st w) +
       Z.of_nat (length (List.filter Measures.is_risk_alert evs)))%Z /\
    Forall Measures.alert_is_high evs.
Proof. apply monitor_loop_alerts. Qed.

(** ** Lookups in dicts in insertion order *)

Lemma od_get_set_eq {V} k (v : V) l : od_get k (od_set k v l) = Some v.
Proof.
  induction l as [|[k' v'] t IH]; simpl.
  - now rewrite String.eqb_refl.
  - destruct (String.eqb k k') eqn:E; simpl.
    + now rewrite String.eqb_refl.
    + now rewrite E.
Qed.

Lemma od_get_set_ne {V} k k' (v : V) l :
  k <> k' -> od_get k' (od_set k v l) = od_get k' l.
Proof.
  intros Hne. induction l as [|[k0 v0] t IH]; simpl.
  - apply String.eqb_neq in Hne. rewrite String.eqb_sym in Hne. now rewrite Hne.
  - destruct (String.eqb k k0) eqn:E; simpl.
    + apply String.eqb_eq in E. subst k0.
      apply String.eqb_neq in Hne. rewrite String.eqb_sym in Hne. now rewrite Hne.
    + rewrite IH. reflexivity.
Qed.

Lemma od_get_None_keys {V} k (l : list (string * V)) :
  od_get k l = None <-> k ∉ od_keys l.
Proof.
  unfold od_keys. induction l as [|[k' v'] t IH]; simpl.
  - split; [intros _; apply not_elem_of_nil | reflexivity].
  - rewrite not_elem_of_cons. destruct (String.eqb k k') eqn:E.
    + apply String.eqb_eq in E. split; [discriminate | intros [H _]; congruence].
    + apply String.eqb_neq in E. rewrite IH. tauto.
Qed.

Lemma od_get_del_ne {V} k k' (l : list (string * V)) :
  k <> k' -> od_get k' (od_del k l) = od_get k' l.
Proof.
  intros Hne. induction l as [|[k0 v0] t IH]; simpl; [reflexivity|].
  destruct (String.eqb k k0) eqn:E; simpl.
  - apply String.eqb_eq in E. subst k0.
    apply String.eqb_neq in Hne. rewrite String.eqb_sym in Hne. now rewrite Hne.
  - rewrite IH. reflexivity.
Qed.

Lemma od_get_del_eq {V} k (l : list (string * V)) :
  NoDup (od_keys l) -> od_get k (od_del k l) = None.
Proof.
  unfold od_keys. induction l as [|[k0 v0] t IH]; simpl; [reflexivity|].
  rewrite NoDup_cons. intros [Hnin Hnd].
  destruct (String.eqb k k0) eqn:E; simpl.
  - apply String.eqb_eq in E. subst k0. now apply od_get_None_keys.
  - rewrite E. auto.
Qed.

Lemma od_del_absent {V} k (l : list (string * V)) :
  k ∉ od_keys l -> od_del k l = l.
Proof.
  unfold od_keys. induction l as [|[k0 v0] t IH]; simpl; [reflexivity|].
  rewrite not_elem_of_cons. intros [Hne Hnin].
  apply String.eqb_neq in Hne. rewrite Hne. now rewrite IH.
Qed.

Lemma od_del_set_fresh {V} k (v : V) l :
  k ∉ od_keys l -> od_del k (od_set k v l) = l.
Proof.
  unfold od_keys. induction l as [|[k0 v0] t IH]; simpl.
  - now rewrite String.eqb_refl.
  - rewrite not_elem_of_cons. intros [Hne Hnin].
    apply String.eqb_neq in Hne. rewrite Hne. simpl. rewrite Hne. now rewrite IH.
Qed.

Lemma in_keys_existsb (k : string) l :
  k ∈ l <-> existsb (String.eqb k) l = true.
Proof. rewrite existsb_eqb_In. apply list_elem_of_In. Qed.

Lemma od_set_keys_present {V} k (v : V) l :
  k ∈ od_keys l -> od_keys (od_set k v l) = od_keys l.
Proof.
  intros H. rewrite od_set_keys. apply in_keys_existsb in H. now rewrite H.
Qed.

Lemma od_set_keys_fresh {V} k (v : V) l :
  k ∉ od_keys l -> od_keys (od_set k v l) = od_keys l ++ [k].
Proof.
  intros H. rewrite od_set_keys.
  destruct (existsb (String.eqb k) (od_keys l)) eqn:E; [|reflexivity].
  apply in_keys_existsb in E. contradiction.
Qed.

(** ** Messages to the risk analyzer *)

Section RiskMessages.
Import RiskAnalyzerAgent.

Lemma kd_get_set_eq {V} k (v : V) l : kd_get k (kd_set k v l) = Some v.
Proof.
  induction l as [|[k' v'] t IH]; simpl.
  - now rewrite Key_eqb_refl.
  - destruct (Key_eqb k k') eqn:E; simpl.
    + now rewrite Key_eqb_refl.
    + now rewrite E.
Qed.

Lemma kd_get_set_ne {V} k k' (v : V) l :
  k <> k' -> kd_get k' (kd_set k v l) = kd_get k' l.
Proof.
  intros Hne.
  assert (Hs : Key_eqb k' k = false) by (apply Key_eqb_neq; congruence).
  induction l as [|[k0 v0] t IH]; simpl.
  - now rewrite Hs.
  - destruct (Key_eqb k k0) eqn:E; simpl.
    + apply Key_eqb_eq in E. subst k0. now rewrite Hs.
    + rewrite IH. reflexivity.
Qed.

Lemma kd_get_None_keys {V} k (l : list (Key * V)) :
  kd_get k l = None <-> k ∉ kd_keys l.
Proof.
  unfold kd_keys. induction l as [|[k' v'] t IH]; simpl.
  - split; [intros _; apply not_elem_of_nil | reflexivity].
  - rewrite not_elem_of_cons. destruct (Key_eqb k k') eqn:E.
    + apply Key_eqb_eq in E. split; [discriminate | intros [H _]; congruence].
    + apply Key_eqb_neq in E. rewrite IH. tauto.
Qed.

Lemma in_keys_existsb_Key (k : Key) l :
  k ∈ l <-> existsb (Key_eqb k) l = true.
Proof. rewrite existsb_Key_eqb_In. apply list_elem_of_In. Qed.

Lemma kd_set_keys_present {V} k (v : V) l :
  k ∈ kd_keys l -> kd_keys (kd_set k v l) = kd_keys l.
Proof.
  intros H. rewrite kd_set_keys. apply in_keys_existsb_Key in H. now rewrite H.
Qed.

Lemma kd_set_keys_fresh {V} k (v : V) l :
  k ∉ kd_keys l -> kd_keys (kd_set k v l) = kd_keys l ++ [k].
Proof.
  intros H. rewrite kd_set_keys.
  destruct (existsb (Key_eqb k) (kd_keys l)) eqn:E; [|reflexivity].
  apply in_keys_existsb_Key in E. contradiction.
Qed.

End RiskMessages.

(** X12: a "monitor_token" message is answered with "monitoring_started"
    and stores its key, whatever hashable value [msg.get("token_address")]
    is, with the time of the message and its launch data; the entries of
    the other keys are as they were, and the key keeps its place in the
    order of evaluation if it was monitored before and comes last
    otherwise.  A "get_risk_report" that follows for that key is answered
    with one report of one analysis when the key is a text, and ends with
    [TypeError] and no reply when it is not; for a key that is not monitored
    it is dropped without a reply or any change.  A value that is not
    hashable makes either message end with [TypeError], with no change. *)
Theorem monitor_token_then_report now oracle sender key data w :
  let result := RiskAnalyzerAgent.handle_messages now oracle sender
                  (RiskAnalyzerAgent.MonitorToken (RiskAnalyzerAgent.Hashable key) data) w in
  let w1 := result.1 in
  let tokens := RiskAnalyzerAgent.monitored_tokens (RiskAnalyzerAgent.st w) in
  let tokens1 := RiskAnalyzerAgent.monitored_tokens (RiskAnalyzerAgent.st w1) in
  result.2 = None /\
  RiskAnalyzerAgent.trace w1 =
    RiskAnalyzerAgent.trace w ++
    [RiskAnalyzerAgent.Sent sender "monitoring_started" key] /\
  RiskAnalyzerAgent.kd_get key tokens1 =
    Some {| RiskAnalyzerAgent.added_at := now; RiskAnalyzerAgent.launch_data := data |} /\
  (forall other, other <> key ->
     RiskAnalyzerAgent.kd_get other tokens1 = RiskAnalyzerAgent.kd_get other tokens) /\
  (key ∈ RiskAnalyzerAgent.kd_keys tokens ->
     RiskAnalyzerAgent.kd_keys tokens1 = RiskAnalyzerAgent.kd_keys tokens) /\
  (key ∉ RiskAnalyzerAgent.kd_keys tokens ->
     RiskAnalyzerAgent.kd_keys tokens1 = RiskAnalyzerAgent.kd_keys tokens ++ [key]) /\
  (forall now' sender',
     RiskAnalyzerAgent.handle_messages now' oracle sender'
       (RiskAnalyzerAgent.GetRiskReport (RiskAnalyzerAgent.Hashable key)) w1 =
     match key with
     | RiskAnalyzerAgent.Text address =>
         ({| RiskAnalyzerAgent.st := RiskAnalyzerAgent.st w1;
             RiskAnalyzerAgent.trace :=
               RiskAnalyzerAgent.trace w1 ++
               [RiskAnalyzerAgent.Evaluated address
                  (RiskAnalyzerAgent.analyze_token_risk_with_metta
                     (RiskAnalyzerAgent.st w1)
                     (oracle (RiskAnalyzerAgent.calls w1)) address
                     (RiskAnalyzerAgent.fetch_on_chain_data key));
                RiskAnalyzerAgent.Sent sender' "risk_report" key];
             RiskAnalyzerAgent.calls := S (RiskAnalyzerAgent.calls w1) |}, None)
     | RiskAnalyzerAgent.Scalar _ => (w1, Some TypeError)
     end) /\
  (forall now' sender' other,
     other ∉ RiskAnalyzerAgent.kd_keys tokens1 ->
     RiskAnalyzerAgent.handle_messages now' oracle sender'
       (RiskAnalyzerAgent.GetRiskReport (RiskAnalyzerAgent.Hashable other)) w1 =
     (w1, None)) /\
  RiskAnalyzerAgent.handle_messages now oracle sender
    (RiskAnalyzerAgent.MonitorToken RiskAnalyzerAgent.Unhashable data) w =
    (w, Some TypeError) /\
  RiskAnalyzerAgent.handle_messages now oracle sender
    (RiskAnalyzerAgent.GetRiskReport RiskAnalyzerAgent.Unhashable) w =
    (w, Some TypeError).
Proof.
  intros result w1 tokens tokens1. subst result w1 tokens tokens1. simpl.
  split; [reflexivity|]. split; [reflexivity|].
  split; [apply kd_get_set_eq|].
  split; [intros other Hne; apply kd_get_set_ne; congruence|].
  split; [apply kd_set_keys_present|].
  split; [apply kd_set_keys_fresh|].
  split; [|split; [|split; reflexivity]].
  - intros now' sender'. rewrite kd_get_set_eq.
    destruct key as [address|code]; [|reflexivity].
    unfold RiskAnalyzerAgent.emit, RiskAnalyzerAgent.tick_call,
      RiskAnalyzerAgent.set_state. simpl.
    rewrite <- (app_assoc (_ ++ [_]) [_] [_]). reflexivity.
  - intros now' sender' other Hnin. apply kd_get_None_keys in Hnin.
    rewrite Hnin. reflexivity.
Qed.

Lemma monitor_token_then_report_witness :
  RiskAnalyzerAgent.kd_keys
    (RiskAnalyzerAgent.monitored_tokens
       (RiskAnalyzerAgent.st
          (RiskAnalyzerAgent.handle_messages 5 (fun _ => Examples.oracle_ok) "user"
             MoreExamples.monitor_without_address Examples.risk_two_tokens).1)) =
  [RiskAnalyzerAgent.Text "TokenA"; RiskAnalyzerAgent.Text "TokenB";
   RiskAnalyzerAgent.Scalar 0].
Proof.
  apply (proj1 (proj2 (proj2 (proj2 (proj2 (proj2
           (monitor_token_then_report 5%Z (fun _ => Examples.oracle_ok) "user"
              (RiskAnalyzerAgent.Scalar 0) PNone Examples.risk_two_tokens))))))).
  change (RiskAnalyzerAgent.Scalar 0 ∉
          [RiskAnalyzerAgent.Text "TokenA"; RiskAnalyzerAgent.Text "TokenB"]).
  rewrite !not_elem_of_cons. repeat split; try discriminate.
  apply not_elem_of_nil.
Defined.

(** ** The liquidity optimizer: messages, ticks, harvests and rebalances *)

Section LiquidityState.
Import LiquidityOptimizerAgent.

Lemma monitor_one_state now oracle w item :
  st (monitor_one now oracle w item) =
  {| monitored_positions := touch_last_check now item.1 (monitored_positions (st w));
     rebalancing_history := rebalancing_history (st w);
     performance_metrics := performance_metrics (st w) |}.
Proof.
  unfold monitor_one. simpl. rewrite new_position_no_action. reflexivity.
Qed.

Lemma monitor_loop_state now oracle items : forall w,
  st (fold_left (monitor_one now oracle) items w) =
  {| monitored_positions :=
       fold_left (fun l item => touch_last_check now item.1 l) items
                 (monitored_positions (st w));
     rebalancing_history := rebalancing_history (st w);
     performance_metrics := performance_metrics (st w) |}.
Proof.
  induction items as [|item rest IH]; intros w; simpl.
  - now destruct (st w).
  - rewrite IH, monitor_one_state. reflexivity.
Qed.

Lemma touch_keys now k l : od_keys (touch_last_check now k l) = od_keys l.
Proof.
  unfold od_keys. induction l as [|[k' pd] t IH]; simpl; [reflexivity|].
  destruct (String.eqb k k'); simpl; [reflexivity | now rewrite IH].
Qed.

Lemma touch_get now k k' l :
  od_get k (touch_last_check now k' l) =
  if String.eqb k k' then set_last_check now <$> od_get k l else od_get k l.
Proof.
  induction l as [|[k0 pd] t IH]; simpl.
  - now destruct (String.eqb k k').
  - destruct (String.eqb k' k0) eqn:E1; simpl.
    + apply String.eqb_eq in E1. subst k0.
      destruct (String.eqb k k'); reflexivity.
    + destruct (String.eqb k k0) eqn:E2.
      * apply String.eqb_eq in E2. subst k0.
        rewrite String.eqb_sym in E1. now rewrite E1.
      * exact IH.
Qed.

Lemma fold_touch_keys now (items : list (string * PositionData)) : forall l,
  od_keys (fold_left (fun l item => touch_last_check now item.1 l) items l) = od_keys l.
Proof.
  induction items as [|item rest IH]; intros l; simpl; [reflexivity|].
  now rewrite IH, touch_keys.
Qed.

Lemma fold_touch_get now k (items : list (string * PositionData)) : forall l,
  od_get k (fold_left (fun l item => touch_last_check now item.1 l) items l) =
  if existsb (String.eqb k) (od_keys items)
  then set_last_check now <$> od_get k l else od_get k l.
Proof.
  induction items as [|item rest IH]; intros l; simpl; [reflexivity|].
  rewrite IH, touch_get.
  destruct (String.eqb k item.1); simpl.
  - destruct (od_get k l) as [pd|]; simpl;
      now destruct (existsb (String.eqb k) (od_keys rest)).
  - reflexivity.
Qed.

Lemma monitor_loop_events now oracle items : forall w,
  exists evs,
    trace (fold_left (monitor_one now oracle) items w) = trace w ++ evs /\
    Forall (fun e => exists id a, e = Evaluated id a /\ should_rebalance a = false) evs.
Proof.
  induction items as [|item rest IH]; intros w; simpl.
  - exists []. split; [now rewrite app_nil_r | constructor].
  - destruct (IH (monitor_one now oracle w item)) as (evs & Ht & He).
    rewrite monitor_one_trace in Ht. eexists. split.
    + rewrite Ht, <- app_assoc. reflexivity.
    + apply Forall_cons_2; [|exact He].
      eexists _, _. split; [reflexivity | apply new_position_no_action].
Qed.

End LiquidityState.

(** X13: a tick of [monitor_positions] stamps every monitored position with
    the time of the tick and changes nothing else in [agent_state]: the ids
    and their order, the other fields of each entry, the rebalancing history
    and the performance metrics are as before. *)
Theorem tick_stamps_every_position now oracle w :
  let s := LiquidityOptimizerAgent.st w in
  let s' := LiquidityOptimizerAgent.st
              (LiquidityOptimizerAgent.monitor_positions now oracle w) in
  (forall id,
     od_get id (LiquidityOptimizerAgent.monitored_positions s') =
     LiquidityOptimizerAgent.set_last_check now <$>
       od_get id (LiquidityOptimizerAgent.monitored_positions s)) /\
  od_keys (LiquidityOptimizerAgent.monitored_positions s') =
    od_keys (LiquidityOptimizerAgent.monitored_positions s) /\
  LiquidityOptimizerAgent.rebalancing_history s' =
    LiquidityOptimizerAgent.rebalancing_history s /\
  LiquidityOptimizerAgent.performance_metrics s' =
    LiquidityOptimizerAgent.performance_metrics s.
Proof.
  intros s s'. subst s s'. unfold LiquidityOptimizerAgent.monitor_positions.
  rewrite monitor_loop_state. simpl. split; [|split; [|split]]; try reflexivity.
  - intros id. rewrite fold_touch_get.
    destruct (existsb _ _) eqn:E; [reflexivity|].
    assert (Hn : od_get id (LiquidityOptimizerAgent.monitored_positions
                              (LiquidityOptimizerAgent.st w)) = None).
    { apply od_get_None_keys. intros Hin. apply in_keys_existsb in Hin. congruence. }
    rewrite Hn. reflexivity.
  - apply fold_touch_keys.
Qed.

(** X14: a tick of [monitor_positions] never rebalances and never harvests:
    every event it adds is an evaluation whose verdict is "no action", so it
    sends nothing to the Solana execution agent.  The positions it builds
    have no rebalance time, and subtracting that raises inside the
    analysis. *)
Theorem tick_never_rebalances now oracle w :
  exists evs,
    LiquidityOptimizerAgent.trace
      (LiquidityOptimizerAgent.monitor_positions now oracle w) =
      LiquidityOptimizerAgent.trace w ++ evs /\
    Forall (fun e => exists id a,
                e = LiquidityOptimizerAgent.Evaluated id a /\
                LiquidityOptimizerAgent.should_rebalance a = false) evs /\
    existsb Measures.is_to_solana evs = false.
Proof.
  destruct (monitor_loop_events now oracle
              (LiquidityOptimizerAgent.monitored_positions (LiquidityOptimizerAgent.st w)) w)
    as (evs & Ht & He).
  exists evs. split; [exact Ht|]. split; [exact He|].
  clear Ht. induction He as [|e evs (id & a & -> & _) _ IH]; simpl; auto.
Qed.

(** X15: an "add_position" message stores the position with the time of
    the message and no last check, also when the id was monitored and checked
    before; the entries of the other positions are as they were; the id keeps
    its place if it was monitored and comes last otherwise.  Adding an id that
    is new and removing it again gives back the positions as they were. *)
Theorem add_position_resets_last_check now sender id pool a b w :
  let w1 := LiquidityOptimizerAgent.handle_messages now sender
              (LiquidityOptimizerAgent.AddPosition id pool a b) w in
  let ps := LiquidityOptimizerAgent.monitored_positions (LiquidityOptimizerAgent.st w) in
  let ps1 := LiquidityOptimizerAgent.monitored_positions (LiquidityOptimizerAgent.st w1) in
  od_get id ps1 =
    Some {| LiquidityOptimizerAgent.pd_pool_address := pool;
            LiquidityOptimizerAgent.pd_token_a := a;
            LiquidityOptimizerAgent.pd_token_b := b;
            LiquidityOptimizerAgent.pd_added_at := now;
            LiquidityOptimizerAgent.last_check := None |} /\
  (forall other, other <> id -> od_get other ps1 = od_get other ps) /\
  (id ∈ od_keys ps -> od_keys ps1 = od_keys ps) /\
  (id ∉ od_keys ps ->
   od_keys ps1 = od_keys ps ++ [id] /\
   forall now' sender',
     LiquidityOptimizerAgent.monitored_positions
       (LiquidityOptimizerAgent.st
          (LiquidityOptimizerAgent.handle_messages now' sender'
             (LiquidityOptimizerAgent.RemovePosition id) w1)) = ps).
Proof.
  intros w1 ps ps1. subst w1 ps ps1. simpl.
  split; [apply od_get_set_eq|].
  split; [intros other Hne; apply od_get_set_ne; congruence|].
  split; [apply od_set_keys_present|].
  intros Hnin. split; [now apply od_set_keys_fresh|].
  intros _ _. now apply od_del_set_fresh.
Qed.

Lemma add_position_resets_last_check_witness :
  od_keys (LiquidityOptimizerAgent.monitored_positions
             (LiquidityOptimizerAgent.st
                (LiquidityOptimizerAgent.handle_messages 2000 "user"
                   (LiquidityOptimizerAgent.AddPosition "p1" (PStr "pool") (PStr "SOL")
                      (PStr "USDC"))
                   Examples.liquidity_after_tick))) = ["p1"] /\
  (LiquidityOptimizerAgent.last_check <$>
     od_get "p1"
       (LiquidityOptimizerAgent.monitored_positions
          (LiquidityOptimizerAgent.st
             (LiquidityOptimizerAgent.handle_messages 2000 "user"
                (LiquidityOptimizerAgent.AddPosition "p1" (PStr "pool") (PStr "SOL")
                   (PStr "USDC"))
                Examples.liquidity_after_tick)))) = Some None.
Proof.
  split.
  - apply (proj1 (proj2 (proj2 (add_position_resets_last_check 2000%Z "user" "p1"
             (PStr "pool") (PStr "SOL") (PStr "USDC") Examples.liquidity_after_tick)))).
    apply (bool_decide_unpack _). vm_compute. reflexivity.
  - reflexivity.
Defined.

(** X16: a "remove_position" message for a monitored id ends its
    monitoring and leaves the entries of the other positions as they were; for
    an id that is not monitored it changes nothing at all. *)
Theorem remove_position_forgets_only_that_id now sender id w :
  NoDup (od_keys (LiquidityOptimizerAgent.monitored_positions
                    (LiquidityOptimizerAgent.st w))) ->
  let w1 := LiquidityOptimizerAgent.handle_messages now sender
              (LiquidityOptimizerAgent.RemovePosition id) w in
  let ps := LiquidityOptimizerAgent.monitored_positions (LiquidityOptimizerAgent.st w) in
  let ps1 := LiquidityOptimizerAgent.monitored_positions (LiquidityOptimizerAgent.st w1) in
  od_get id ps1 = None /\
  (id ∉ od_keys ps1) /\
  (forall other, other <> id -> od_get other ps1 = od_get other ps) /\
  (id ∉ od_keys ps -> w1 = w).
Proof.
  intros Hnd w1 ps ps1. subst w1 ps ps1. simpl.
  split; [now apply od_get_del_eq|].
  split; [apply od_get_None_keys; now apply od_get_del_eq|].
  split; [intros other Hne; apply od_get_del_ne; congruence|].
  intros Hnin. rewrite od_del_absent by assumption.
  destruct w as [[ps h m] t c]. reflexivity.
Qed.

Lemma remove_position_forgets_only_that_id_witness :
  od_get "p1"
    (LiquidityOptimizerAgent.monitored_positions
       (LiquidityOptimizerAgent.st
          (LiquidityOptimizerAgent.handle_messages 2000 "user"
             (LiquidityOptimizerAgent.RemovePosition "p1")
             Examples.liquidity_after_tick))) = None.
Proof.
  apply (remove_position_forgets_only_that_id 2000%Z "user" "p1"
           Examples.liquidity_after_tick).
  apply (bool_decide_unpack _). vm_compute. reflexivity.
Defined.

(** X17: [harvest_fees_if_profitable] harvests exactly when the unclaimed
    fees are at least 1.0; the second test, against twice the gas cost, never
    decides.  A harvest sends one instruction to the Solana execution agent
    and adds exactly the fees to [total_fees_harvested]; without one the
    world is as it was. *)
Theorem harvest_from_one_unit position w :
  let fees := LiquidityOptimizerAgent.unclaimed_fees position in
  let w' := LiquidityOptimizerAgent.harvest_fees_if_profitable position w in
  let metrics := fun x => LiquidityOptimizerAgent.performance_metrics
                            (LiquidityOptimizerAgent.st x) in
  ((fees < 1)%Q -> w' = w) /\
  ((1 <= fees)%Q ->
   LiquidityOptimizerAgent.trace w' =
     LiquidityOptimizerAgent.trace w ++
     [LiquidityOptimizerAgent.ToSolana "harvest_fees"
        (LiquidityOptimizerAgent.position_id position)] /\
   (LiquidityOptimizerAgent.total_fees_harvested (metrics w') ==
    LiquidityOptimizerAgent.total_fees_harvested (metrics w) + fees)%Q /\
   LiquidityOptimizerAgent.monitored_positions (LiquidityOptimizerAgent.st w') =
     LiquidityOptimizerAgent.monitored_positions (LiquidityOptimizerAgent.st w)).
Proof.
  intros fees w' metrics. subst fees w' metrics.
  unfold LiquidityOptimizerAgent.harvest_fees_if_profitable.
  destruct (Qltb (LiquidityOptimizerAgent.unclaimed_fees position) 1.0) eqn:E1;
    [apply Qltb_lt in E1 | apply Qltb_ge in E1].
  - split; [reflexivity | intros H; lra].
  - destruct (Qltb (LiquidityOptimizerAgent.unclaimed_fees position) (0.001 * 2)) eqn:E2;
      [apply Qltb_lt in E2; lra|].
    split; [intros H; lra|]. intros _. simpl. repeat split; reflexivity.
Qed.

Lemma harvest_from_one_unit_witness :
  LiquidityOptimizerAgent.trace
    (LiquidityOptimizerAgent.harvest_fees_if_profitable
       (MoreExamples.position_with_fees 1) Examples.liquidity_start) =
  [LiquidityOptimizerAgent.ToSolana "harvest_fees" "p1"] /\
  LiquidityOptimizerAgent.harvest_fees_if_profitable
    (MoreExamples.position_with_fees 0.999) Examples.liquidity_start =
  Examples.liquidity_start.
Proof.
  split.
  - apply (proj2 (harvest_from_one_unit (MoreExamples.position_with_fees 1)
                    Examples.liquidity_start)).
    vm_compute. discriminate.
  - apply (proj1 (harvest_from_one_unit (MoreExamples.position_with_fees 0.999)
                    Examples.liquidity_start)).
    vm_compute. reflexivity.
Defined.

(** X18: [execute_rebalancing] always sends one instruction, counts one
    successful rebalance and appends one history entry, whose old range is
    already the new range; when telling the oracle of the outcome raises, it
    counts one failed rebalance as well, so that rebalance is counted both as
    successful and as failed. *)
Theorem rebalance_counted_twice_on_oracle_failure now oracle position o w :
  let w' := LiquidityOptimizerAgent.execute_rebalancing now oracle position o w in
  let s := LiquidityOptimizerAgent.st w in
  let s' := LiquidityOptimizerAgent.st w' in
  let m := LiquidityOptimizerAgent.performance_metrics s in
  let m' := LiquidityOptimizerAgent.performance_metrics s' in
  let new_range := (LiquidityOptimizerAgent.lower o, LiquidityOptimizerAgent.upper o) in
  let told :=
    oracle (LiquidityOptimizerAgent.calls w)
      (LiquidityOptimizerAgent.RebalancingResult
         (LiquidityOptimizerAgent.position_id position)
         (LiquidityOptimizerAgent.pool_address position) now new_range new_range
         (LiquidityOptimizerAgent.expected_apr_improvement o) true) in
  LiquidityOptimizerAgent.trace w' =
    LiquidityOptimizerAgent.trace w ++
    [LiquidityOptimizerAgent.ToSolana "rebalance_position"
       (LiquidityOptimizerAgent.position_id position)] /\
  LiquidityOptimizerAgent.successful_rebalances m' =
    (LiquidityOptimizerAgent.successful_rebalances m + 1)%Z /\
  LiquidityOptimizerAgent.failed_rebalances m' =
    (LiquidityOptimizerAgent.failed_rebalances m + if returns told then 0 else 1)%Z /\
  (exists h,
     LiquidityOptimizerAgent.rebalancing_history s' =
       LiquidityOptimizerAgent.rebalancing_history s ++ [h] /\
     LiquidityOptimizerAgent.h_old_range h = new_range /\
     LiquidityOptimizerAgent.h_new_range h = o) /\
  LiquidityOptimizerAgent.monitored_positions s' =
    LiquidityOptimizerAgent.monitored_positions s.
Proof.
  intros w' s s' m m' new_range told. subst w' s s' m m' new_range told.
  unfold LiquidityOptimizerAgent.execute_rebalancing. simpl.
  destruct (oracle _ _); simpl;
    (split; [reflexivity|]); (split; [reflexivity|]); (split; [lia|]);
    (split; [eexists; repeat split | reflexivity]).
Qed.

(** X19: the rebalancing analysis reports [should_rebalance = True] exactly
    when the oracle call returned and at least one day has elapsed since the
    last rebalance of the position; a position that was never rebalanced is
    never to be rebalanced. *)
Theorem rebalance_iff_oracle_and_cooldown now run position :
  (LiquidityOptimizerAgent.should_rebalance
     (LiquidityOptimizerAgent.analyze_rebalancing_opportunity_with_metta
        now run position) = true <->
   returns (run (LiquidityOptimizerAgent.rebalancing_query position)) = true /\
   Spec.cooldown_elapsed now position) /\
  (LiquidityOptimizerAgent.last_rebalance position = None ->
   LiquidityOptimizerAgent.should_rebalance
     (LiquidityOptimizerAgent.analyze_rebalancing_opportunity_with_metta
        now run position) = false).
Proof.
  assert (Hiff : LiquidityOptimizerAgent.should_rebalance
     (LiquidityOptimizerAgent.analyze_rebalancing_opportunity_with_metta
        now run position) = true <->
   returns (run (LiquidityOptimizerAgent.rebalancing_query position)) = true /\
   Spec.cooldown_elapsed now position).
  { split.
    - intros H. split.
      + unfold LiquidityOptimizerAgent.analyze_rebalancing_opportunity_with_metta,
          LiquidityOptimizerAgent.analyze_rebalancing_try in H.
        destruct (run _); [reflexivity | discriminate].
      + apply analyze_rebalancing_true in H.
        apply should_rebalance_of_true in H. tauto.
    - intros [Hr Hc].
      assert (Ho : LiquidityOptimizerAgent.should_rebalance_of
                     LiquidityOptimizerAgent.parsed_optimal_range now position = Ok true).
      { apply should_rebalance_of_true. repeat split; try exact Hc;
          vm_compute; reflexivity. }
      unfold LiquidityOptimizerAgent.analyze_rebalancing_opportunity_with_metta,
        LiquidityOptimizerAgent.analyze_rebalancing_try.
      destruct (run _); [|discriminate]. cbn [mbind res_bind].
      rewrite Ho. reflexivity. }
  split; [exact Hiff|].
  intros Hn.
  destruct (LiquidityOptimizerAgent.should_rebalance _) eqn:E; [|reflexivity].
  destruct (proj1 Hiff eq_refl) as (_ & t & Ht & _). congruence.
Qed.

Lemma rebalance_iff_oracle_and_cooldown_witness :
  LiquidityOptimizerAgent.should_rebalance
    (LiquidityOptimizerAgent.analyze_rebalancing_opportunity_with_metta
       0 Examples.oracle_ok (MoreExamples.position_with_fees 5)) = false.
Proof.
  apply (proj2 (rebalance_iff_oracle_and_cooldown 0%Z Examples.oracle_ok
                  (MoreExamples.position_with_fees 5))).
  reflexivity.
Defined.

(** ** The chat protocol of the risk analyzer *)

Section RiskChat.
Import RiskAnalyzerAgent RiskAnalyzerChat.

Variable lower : string -> string.

Lemma risk_handle_item_effect oracle sender item c :
  st (world (handle_item lower oracle sender item c)) = st (world c) /\
  exists replies,
    outbox (handle_item lower oracle sender item c) =
      outbox c ++ map (Replied sender) replies /\
    Forall2 (fun t reply => answers (st (world c)) (lower t) reply)
      (texts [item]) replies.
Proof.
  destruct item as [t|]; unfold handle_item; cbn [texts flat_map app].
  - destruct (str_in "analyze" (lower t) &&
              (str_in "risk" (lower t) || str_in "token" (lower t))) eqn:E1;
      [|destruct (str_in "status" (lower t)) eqn:E2;
        [|destruct (str_in "alert" (lower t)) eqn:E3]];
      (split; [reflexivity|]); eexists [_]; (split; [reflexivity|]);
      (constructor; [|constructor]); unfold answers;
      rewrite ?E1, ?E2, ?E3; eauto.
  - split; [reflexivity|]. exists []. rewrite app_nil_r. split; constructor.
Qed.

Lemma texts_cons item rest : texts (item :: rest) = texts [item] ++ texts rest.
Proof. unfold texts. simpl. now rewrite app_nil_r. Qed.

Lemma risk_handle_items_effect oracle sender items : forall c,
  let c' := fold_left (fun c item => handle_item lower oracle sender item c) items c in
  st (world c') = st (world c) /\
  exists replies,
    outbox c' = outbox c ++ map (Replied sender) replies /\
    Forall2 (fun t reply => answers (st (world c)) (lower t) reply)
      (texts items) replies.
Proof.
  induction items as [|item rest IH]; intros c; cbn [fold_left].
  - split; [reflexivity|]. exists []. rewrite app_nil_r. split; constructor.
  - destruct (risk_handle_item_effect oracle sender item c) as (Hs1 & r1 & Ho1 & Hr1).
    destruct (IH (handle_item lower oracle sender item c)) as (Hs & r & Ho & Hr).
    split; [congruence|]. exists (r1 ++ r). split.
    + rewrite Ho, Ho1, map_app, <- app_assoc. reflexivity.
    + rewrite texts_cons. apply Forall2_app; [exact Hr1|].
      rewrite Hs1 in Hr. exact Hr.
Qed.

End RiskChat.

(** X20: the chat handler of the risk analyzer acknowledges the message
    first and then sends exactly one reply for each item of the message that
    is a text, in the order of the items, and each reply is the one the text
    asks for: the analysis, the status, the alerts or the help text.  Items
    that are not texts get no reply.  It never changes [agent_state]. *)
Theorem risk_chat_one_reply_per_text lower oracle sender msg c :
  let c' := RiskAnalyzerChat.handle_chat_message lower oracle sender msg c in
  let s := RiskAnalyzerAgent.st (RiskAnalyzerChat.world c) in
  RiskAnalyzerAgent.st (RiskAnalyzerChat.world c') = s /\
  exists replies,
    RiskAnalyzerChat.outbox c' =
      RiskAnalyzerChat.outbox c ++
      RiskAnalyzerChat.Acknowledged sender (RiskAnalyzerChat.msg_id msg) ::
      map (RiskAnalyzerChat.Replied sender) replies /\
    Forall2 (fun t reply => RiskAnalyzerChat.answers s (lower t) reply)
      (RiskAnalyzerChat.texts (RiskAnalyzerChat.content msg)) replies.
Proof.
  intros c' s. subst c' s. unfold RiskAnalyzerChat.handle_chat_message.
  destruct (risk_handle_items_effect lower oracle sender (RiskAnalyzerChat.content msg)
              (RiskAnalyzerChat.send
                 (RiskAnalyzerChat.Acknowledged sender (RiskAnalyzerChat.msg_id msg)) c))
    as (Hs & replies & Ho & Hr).
  split; [exact Hs|]. exists replies. split; [|exact Hr].
  rewrite Ho. simpl. rewrite <- app_assoc. reflexivity.
Qed.

(** A message with a picture and two texts gets the acknowledgement, the
    status and the help text. *)
Example risk_chat_two_texts :
  RiskAnalyzerChat.outbox
    (RiskAnalyzerChat.handle_chat_message str_lower (fun _ => Examples.oracle_ok)
       "user"
       {| RiskAnalyzerChat.msg_id := "m1";
          RiskAnalyzerChat.content :=
            [RiskAnalyzerChat.OtherContent;
             RiskAnalyzerChat.TextContent "Status?";
             RiskAnalyzerChat.TextContent "hello"] |}
       {| RiskAnalyzerChat.world := MoreExamples.risk_start;
          RiskAnalyzerChat.outbox := [] |}) =
  [RiskAnalyzerChat.Acknowledged "user" "m1";
   RiskAnalyzerChat.Replied "user"
     (RiskAnalyzerChat.StatusMessage 0 0 0
        (RiskAnalyzerAgent.alert_thresholds RiskAnalyzerAgent.agent_state));
   RiskAnalyzerChat.Replied "user" RiskAnalyzerChat.HelpMessage].
Proof. reflexivity. Qed.

(** ** The chat protocol of the launch coordinator *)

Lemma plain_replies_length lower sender s items :
  length (LaunchCoordinatorRuns.plain_replies lower sender s items) =
  length (List.filter LaunchCoordinatorRuns.is_text items).
Proof.
  induction items as [|[t|] rest IH]; simpl; [reflexivity | | exact IH].
  now rewrite IH.
Qed.

(** X21: the chat handler of the launch coordinator acknowledges the
    message first.  While no text item is a launch request it raises
    nothing, changes nothing in [agent_state] and sends exactly one reply
    for each item that is a text, in the order of the items: the status,
    the risk capabilities or the help text, as the text asks.  At the first
    launch request it sends the strategy message and stops with
    [NameError]: the items after it are not answered. *)
Theorem coordinator_chat_stops_at_launch_request lower now oracle sender id before rest w :
  (forall t,
     In (LaunchCoordinatorAgent.TextContent t) before ->
     LaunchCoordinatorAgent.is_launch_request (lower t) = false) ->
  let replies :=
    LaunchCoordinatorRuns.plain_replies lower sender (LaunchCoordinatorAgent.st w) before in
  LaunchCoordinatorAgent.handle_chat_message lower now oracle sender
    {| LaunchCoordinatorAgent.msg_id := id;
       LaunchCoordinatorAgent.content := before |} w =
  ({| LaunchCoordinatorAgent.st := LaunchCoordinatorAgent.st w;
      LaunchCoordinatorAgent.trace :=
        LaunchCoordinatorAgent.trace w ++
        LaunchCoordinatorAgent.Acknowledged sender id :: replies;
      LaunchCoordinatorAgent.calls := LaunchCoordinatorAgent.calls w |}, None) /\
  length replies = length (List.filter LaunchCoordinatorRuns.is_text before) /\
  (forall t,
     LaunchCoordinatorAgent.is_launch_request (lower t) = true ->
     LaunchCoordinatorAgent.handle_chat_message lower now oracle sender
       {| LaunchCoordinatorAgent.msg_id := id;
          LaunchCoordinatorAgent.content :=
            before ++ LaunchCoordinatorAgent.TextContent t :: rest |} w =
     ({| LaunchCoordinatorAgent.st := LaunchCoordinatorAgent.st w;
         LaunchCoordinatorAgent.trace :=
           LaunchCoordinatorAgent.trace w ++
           LaunchCoordinatorAgent.Acknowledged sender id :: replies ++
           [LaunchCoordinatorAgent.Replied sender
              (LaunchCoordinatorRuns.strategy_reply oracle
                 (LaunchCoordinatorAgent.calls w))];
         LaunchCoordinatorAgent.calls := S (S (LaunchCoordinatorAgent.calls w)) |},
      Some (NameError "msg"))).
Proof.
  intros Hb replies. subst replies.
  unfold LaunchCoordinatorAgent.handle_chat_message. cbn [LaunchCoordinatorAgent.msg_id
    LaunchCoordinatorAgent.content].
  split; [|split].
  - rewrite handle_items_plain by exact Hb.
    simpl. rewrite <- app_assoc. reflexivity.
  - apply plain_replies_length.
  - intros t Ht. rewrite handle_items_launch by assumption.
    simpl. rewrite <- app_assoc. reflexivity.
Qed.

Lemma coordinator_chat_stops_at_launch_request_witness :
  let msg := {| LaunchCoordinatorAgent.msg_id := "m7";
                LaunchCoordinatorAgent.content := MoreExamples.chat_items |} in
  LaunchCoordinatorAgent.handle_chat_message str_lower 0
    (fun _ => Examples.oracle_ok) "user" msg Examples.coordinator_start =
  ({| LaunchCoordinatorAgent.st := LaunchCoordinatorAgent.agent_state;
      LaunchCoordinatorAgent.trace :=
        [LaunchCoordinatorAgent.Acknowledged "user" "m7";
         LaunchCoordinatorAgent.Replied "user"
           (LaunchCoordinatorAgent.StatusMessage 0 0);
         LaunchCoordinatorAgent.Replied "user"
           (LaunchCoordinatorRuns.strategy_reply (fun _ => Examples.oracle_ok) 0)];
      LaunchCoordinatorAgent.calls := 2 |},
   Some (NameError "msg")).
Proof.
  apply (proj2 (proj2 (coordinator_chat_stops_at_launch_request str_lower 0%Z
                  (fun _ => Examples.oracle_ok) "user" "m7"
                  [LaunchCoordinatorAgent.TextContent "What is the status?"]
                  [LaunchCoordinatorAgent.TextContent "risk analysis please"]
                  Examples.coordinator_start
                  ltac:(intros t [Ht | []]; injection Ht as <-; reflexivity)))
               "Launch a token" eq_refl).
Defined.

Section CoordinatorRuns.
Import LaunchCoordinatorAgent LaunchCoordinatorRuns.

Variable lower : string -> string.

Lemma coordinator_trace_emit e w : trace (emit e w) = trace w ++ [e].
Proof. reflexivity. Qed.

Lemma handle_item_reports now oracle sender item w :
  active_launches (st w) = [] ->
  exists evs,
    trace (handle_item lower now oracle sender item w).1 = trace w ++ evs /\
    Forall reports_nothing evs.
Proof.
  intros Hempty. destruct item as [t|]; unfold handle_item.
  - destruct (is_launch_request (lower t)).
    + rewrite handle_launch_request_result. simpl. eexists. split; [reflexivity|].
      repeat constructor.
    + repeat case_if; simpl; eexists; (split; [reflexivity|]);
        repeat constructor; unfold count_status; rewrite Hempty; reflexivity.
  - exists []. rewrite app_nil_r. split; [reflexivity | constructor].
Qed.

Lemma handle_items_reports now oracle sender items : forall w,
  active_launches (st w) = [] ->
  exists evs,
    trace (handle_items lower now oracle sender items w).1 = trace w ++ evs /\
    Forall reports_nothing evs.
Proof.
  induction items as [|item rest IH]; intros w Hempty; cbn [handle_items].
  - exists []. rewrite app_nil_r. split; [reflexivity | constructor].
  - destruct (handle_item_reports now oracle sender item w Hempty) as (e1 & Ht1 & Hr1).
    pose proof (handle_item_state lower now oracle sender item w) as Hs.
    destruct (handle_item lower now oracle sender item w) as [w1 [e|]]; simpl in *.
    + eauto.
    + destruct (IH w1) as (e2 & Ht2 & Hr2); [now rewrite Hs|].
      exists (e1 ++ e2). split.
      * rewrite Ht2, Ht1, <- app_assoc. reflexivity.
      * apply Forall_app. auto.
Qed.

Lemma handle_chat_message_reports now oracle sender msg w :
  active_launches (st w) = [] ->
  st (handle_chat_message lower now oracle sender msg w).1 = st w /\
  exists evs,
    trace (handle_chat_message lower now oracle sender msg w).1 = trace w ++ evs /\
    Forall reports_nothing evs.
Proof.
  intros Hempty. unfold handle_chat_message. split.
  - now rewrite handle_items_state.
  - destruct (handle_items_reports now oracle sender (content msg)
                (emit (Acknowledged sender (msg_id msg)) w) Hempty)
      as (evs & Ht & Hr).
    exists (Acknowledged sender (msg_id msg) :: evs). split.
    + rewrite Ht, coordinator_trace_emit, <- app_assoc. reflexivity.
    + apply Forall_cons_2; [exact I | exact Hr].
Qed.

End CoordinatorRuns.

(** X22: a launch coordinator that holds no launch, as it does when it
    starts, holds none after any run of chat messages, and every status reply
    it sends in that run reports no active launch and none awaiting approval,
    also after launch requests. *)
Theorem coordinator_never_holds_a_launch lower oracle arrivals w :
  LaunchCoordinatorAgent.active_launches (LaunchCoordinatorAgent.st w) = [] ->
  let w' := LaunchCoordinatorRuns.handle_all lower oracle arrivals w in
  LaunchCoordinatorAgent.st w' = LaunchCoordinatorAgent.st w /\
  exists evs,
    LaunchCoordinatorAgent.trace w' = LaunchCoordinatorAgent.trace w ++ evs /\
    Forall LaunchCoordinatorRuns.reports_nothing evs.
Proof.
  unfold LaunchCoordinatorRuns.handle_all.
  revert w. induction arrivals as [|[[now sender] msg] rest IH]; intros w Hempty; simpl.
  - split; [reflexivity|]. exists []. rewrite app_nil_r. split; [reflexivity | constructor].
  - destruct (handle_chat_message_reports lower now oracle sender msg w Hempty)
      as (Hs1 & e1 & Ht1 & Hr1).
    destruct (IH (LaunchCoordinatorAgent.handle_chat_message lower now oracle sender msg w).1)
      as (Hs & e2 & Ht2 & Hr2); [now rewrite Hs1|].
    split; [congruence|]. exists (e1 ++ e2). split.
    + rewrite Ht2, Ht1, <- app_assoc. reflexivity.
    + apply Forall_app. auto.
Qed.

Lemma coordinator_never_holds_a_launch_witness :
  LaunchCoordinatorAgent.st
    (LaunchCoordinatorRuns.handle_all str_lower (fun _ => Examples.oracle_ok)
       [(0%Z, "user", Examples.launch_message);
        (1%Z, "user", Examples.chat "m8" "status")]
       Examples.coordinator_start) =
  LaunchCoordinatorAgent.agent_state /\
  List.last
    (LaunchCoordinatorAgent.trace
       (LaunchCoordinatorRuns.handle_all str_lower (fun _ => Examples.oracle_ok)
          [(0%Z, "user", Examples.launch_message);
           (1%Z, "user", Examples.chat "m8" "status")]
          Examples.coordinator_start))
    (LaunchCoordinatorAgent.Acknowledged "" "") =
  LaunchCoordinatorAgent.Replied "user" (LaunchCoordinatorAgent.StatusMessage 0 0).
Proof.
  split; [|reflexivity].
  apply (coordinator_never_holds_a_launch str_lower (fun _ => Examples.oracle_ok)
           [(0%Z, "user", Examples.launch_message);
            (1%Z, "user", Examples.chat "m8" "status")]
           Examples.coordinator_start).
  reflexivity.
Defined.

(** ** The risk analysis of the launch coordinator *)

Section CoordinatorRisk.
Import LaunchCoordinatorAgent.

Lemma analyze_risk_try_fields run d r :
  analyze_risk_try run d = Ok r ->
  exists s : Q,
    (3 <= s <= 7.5)%Q /\
    risk_score r = py_max 0 s /\
    risk_level r = Spec.bands 5 7 s /\
    (length (red_flags r) <= 3)%nat /\
    (red_flags r = [] <-> (s == 7.5)%Q).
Proof.
  unfold analyze_risk_try. intros H. bind_inv H. bind_inv H.
  injection H as <-. simpl.
  destruct a0;
    destruct (negb (truthy (get d "team_verified" (PBool false))));
    destruct (negb (truthy (get d "vesting_enabled" (PBool false))));
    simpl; eexists; (split; [|split; [reflexivity|split; [reflexivity|split]]]);
    try (simpl; lia); try lra;
    (split; intros Hx; [try discriminate Hx; reflexivity
                       | try reflexivity; exfalso; vm_compute in Hx; discriminate Hx]).
Qed.

End CoordinatorRisk.

(** X23: for every input and oracle outcome the risk analysis of the launch
    coordinator returns a score between 3.0 and 7.5, so its clamp at 0 never
    acts, with at most three red flags and the level that the bands below 5
    HIGH, below 7 MEDIUM, else LOW give for the score. *)
Theorem coordinator_risk_range run d :
  let r := LaunchCoordinatorAgent.analyze_risk_with_metta run d in
  (3 <= LaunchCoordinatorAgent.risk_score r <= 7.5)%Q /\
  LaunchCoordinatorAgent.risk_level r =
    Spec.bands 5 7 (LaunchCoordinatorAgent.risk_score r) /\
  (length (LaunchCoordinatorAgent.red_flags r) <= 3)%nat.
Proof.
  intros r. subst r. unfold LaunchCoordinatorAgent.analyze_risk_with_metta.
  destruct (LaunchCoordinatorAgent.analyze_risk_try run d) as [r|e] eqn:E.
  - apply analyze_risk_try_fields in E.
    destruct E as (s & Hs & -> & -> & Hl & _).
    assert (Hm : py_max 0 s = s).
    { unfold py_max. destruct (Qltb 0 s) eqn:E0; [reflexivity|].
      apply Qltb_ge in E0. lra. }
    rewrite Hm. auto.
  - simpl. split; [lra|]. split; [reflexivity | lia].
Qed.

(** ** The risk analyzer as it is shipped *)

Section ShippedTick.
Import RiskAnalyzerAgent.

(** On the on-chain data of [fetch_on_chain_data] the analysis is never of
    level HIGH, whatever the thresholds and the oracle. *)
Lemma fetched_never_high s run key addr :
  String.eqb (risk_level (analyze_token_risk_with_metta s run addr
                            (fetch_on_chain_data key))) "HIGH" = false.
Proof.
  unfold analyze_token_risk_with_metta, analyze_token_risk_try.
  destruct (run _); [|reflexivity]. cbn [mbind res_bind].
  assert (Hs : score_and_flags (alert_thresholds s) (fetch_on_chain_data key) =
               Ok (if num_ltb (Fin (holder_concentration (alert_thresholds s)))
                             (Fin 12.5)
                   then deduct 2.0 (HighHolderConcentration (Fin 12.5)) (7.5%Q, [])
                   else (7.5%Q, []))).
  { unfold score_and_flags, check_holder_concentration.
    change (get (fetch_on_chain_data key) "top_holder_percentage" (PNum (Fin 0)))
      with (PNum (Fin 12.5)).
    change (check_liquidity_lock (fetch_on_chain_data key) (7.5%Q, []))
      with (Ok (7.5%Q, @nil Flag)).
    cbn [mbind res_bind num as_num check_team_verification check_vesting
         check_contract_verification].
    change (to_float (Fin 12.5)) with (Ok (Fin 12.5)).
    destruct (num_ltb _ _); reflexivity. }
  rewrite Hs. cbn [mbind res_bind mret res_ret risk_level].
  destruct (num_ltb _ _); reflexivity.
Qed.

Lemma shipped_monitor_one oracle w addr :
  exists r,
    monitor_one fetch_on_chain_data oracle w (Text addr) =
    ({| st := st w;
        trace := trace w ++ [Evaluated addr r];
        calls := S (S (calls w)) |}, None).
Proof.
  unfold monitor_one. rewrite fetched_never_high.
  destruct (fetch_on_chain_data (Text addr) !! "price_history") as [ph|] eqn:E;
    [|vm_compute in E; discriminate E].
  match goal with
  | |- context [detect_rug_pull_pattern ?s ?run ?a ph] =>
      destruct (detect_on_fetched_returns s run (Text addr) a ph E) as (s' & x & Hd);
      rewrite Hd; apply detect_never_detects in Hd; destruct Hd as [Hx ->]
  end.
  rewrite Hx. eexists. reflexivity.
Qed.

Lemma shipped_monitor_loop oracle tokens : forall w,
  exists w',
    monitor_loop fetch_on_chain_data oracle w tokens =
      (w', if forallb is_text tokens then None else Some TypeError) /\
    st w' = st w /\
    exists evs, trace w' = trace w ++ evs /\
                Forall (fun e => exists id r, e = Evaluated id r) evs.
Proof.
  induction tokens as [|key rest IH]; intros w; cbn [monitor_loop forallb].
  - exists w. repeat split. exists []. rewrite app_nil_r. split; [reflexivity|constructor].
  - destruct key as [addr|code].
    + destruct (shipped_monitor_one oracle w addr) as (r & ->).
      match goal with
      | |- context [monitor_loop _ _ ?w1 rest] =>
          destruct (IH w1) as (w' & Hl & Hs & evs & Ht & He)
      end.
      exists w'. split; [exact Hl|]. split; [exact Hs|].
      eexists. split.
      * rewrite Ht. simpl. rewrite <- app_assoc. reflexivity.
      * apply Forall_cons_2; [eauto | exact He].
    + rewrite monitor_one_scalar. exists w. repeat split.
      exists []. rewrite app_nil_r. split; [reflexivity|constructor].
Qed.

End ShippedTick.

(** X24: with the on-chain data that [fetch_on_chain_data] returns, a tick
    of [monitor_active_tokens] only evaluates: it leaves [agent_state] as it
    was (no counter moves) and sends neither a risk alert nor a rug-pull
    alert, whatever the oracle answers and whatever the thresholds are.  It
    ends without an exception when every monitored key is a text, and with
    [TypeError] otherwise. *)
Theorem shipped_tick_only_evaluates oracle w :
  let keys := RiskAnalyzerAgent.kd_keys
                (RiskAnalyzerAgent.monitored_tokens (RiskAnalyzerAgent.st w)) in
  exists w',
    RiskAnalyzerAgent.monitor_active_tokens oracle w =
      (w', if forallb RiskAnalyzerAgent.is_text keys then None else Some TypeError) /\
    RiskAnalyzerAgent.st w' = RiskAnalyzerAgent.st w /\
    exists evs,
      RiskAnalyzerAgent.trace w' = RiskAnalyzerAgent.trace w ++ evs /\
      Forall (fun e => exists id r, e = RiskAnalyzerAgent.Evaluated id r) evs.
Proof. apply shipped_monitor_loop. Qed.

(** With other on-chain data a tick does alert. *)
Example tick_alerts_on_risky_data :
  let w' := (RiskAnalyzerAgent.monitor_active_tokens_with (fun _ => Examples.risky_token)
               (fun _ => Examples.oracle_ok) Examples.risk_two_tokens).1 in
  RiskAnalyzerAgent.alerts_sent (RiskAnalyzerAgent.st w') = 2%Z.
Proof. reflexivity. Qed.

Lemma analysis_recommendation_matches_level_witness :
  RiskAnalyzerAgent.risk_level
    (RiskAnalyzerAgent.analyze_token_risk_with_metta RiskAnalyzerAgent.agent_state
       Examples.oracle_ok "TokenAddress123" Examples.rapid_anonymous_token) = "HIGH".
Proof.
  apply (proj2 (proj1 (proj2 (analysis_recommendation_matches_level
           RiskAnalyzerAgent.agent_state Examples.oracle_ok "TokenAddress123"
           Examples.rapid_anonymous_token)))).
  right. reflexivity.
Defined.
